(** * SageMaker GenAI hosting examples: notebooks as call sequences

    The repository is a collection of Jupyter notebooks that drive the
    SageMaker control plane.  Each notebook is a straight-line script with a
    few loops and exception handlers.  This development embeds

    - the status-polling loops of the scale-to-zero notebook,
    - the sequences of create / delete calls every notebook issues, with
      the requests the SageMaker Python SDK makes for [deploy] and
      [delete_endpoint],
    - the exception handlers (cleanup cell, stream parsing over an iterator
      that may raise, evaluation helper), over a small error monad with a
      print log,
    - the name bindings of the multi-adapter notebook's cells,

    and proves the properties of the specification about them. *)

From Stdlib Require Import String Ascii List ZArith Lia Bool DecimalString.
From stdpp Require Import base strings gmap.
Import ListNotations.

#[local] Set Warnings "-register-all,-clear-no-such-hyp".
Set Default Proof Using "Type".
Set Default Goal Selector "1".

Local Open Scope string_scope.
Local Open Scope list_scope.

(** ** Status-polling loops (scale-to-zero notebook)

    The notebook has three loops of the same shape:
<<
    while True:
        desc = sagemaker_client.describe_endpoint(EndpointName=endpoint_name)
        status = desc["EndpointStatus"]
        print(status)
        sys.stdout.flush()
        if status in ["InService", "Failed"]:
            break
        time.sleep(30)
>>
    (the other two call [describe_inference_component] and read
    ["InferenceComponentStatus"]).  The remote platform is the sequence of
    statuses its describe call returns: [platform k] is the status read by
    the [k]-th call of the loop. *)

Module Polling.

Inductive describe_api : Type :=
| describe_endpoint
| describe_inference_component.

(** The key under which the response carries the status. *)
Definition status_key (api : describe_api) : string :=
  match api with
  | describe_endpoint => "EndpointStatus"
  | describe_inference_component => "InferenceComponentStatus"
  end.

(** What an iteration does, in program order.  [Describe api name] is the
    call and the read of [desc[status_key api]]. *)
Inductive event : Type :=
| Describe (api : describe_api) (name : string)
| Print (status : string)
| Flush
| Sleep (seconds : Z).

Inductive control : Type := Break | Continue.

(** [status in ["InService", "Failed"]] *)
Definition is_terminal (status : string) : bool :=
  existsb (String.eqb status) ["InService"; "Failed"].

(** One pass through the loop body, given the status the describe call
    returned. *)
Definition iteration (api : describe_api) (name status : string)
  : list event * control :=
  let observed := [Describe api name; Print status; Flush] in
  if is_terminal status then (observed, Break)
  else (observed ++ [Sleep 30%Z], Continue).

(** [while True]: [fuel] bounds the number of passes the model unfolds, the
    loop itself has no bound.  The result is the index of the describe call
    at which the loop left through [break], and the events up to there. *)
Fixpoint while_true (fuel : nat) (api : describe_api) (name : string)
    (platform : nat -> string) (k : nat) : option (nat * list event) :=
  match fuel with
  | O => None
  | S fuel' =>
      match iteration api name (platform k) with
      | (tr, Break) => Some (k, tr)
      | (tr, Continue) =>
          match while_true fuel' api name platform (S k) with
          | Some (n, tr') => Some (n, tr ++ tr')
          | None => None
          end
      end
  end.

(** The three loops of the notebook. *)
Definition endpoint_status_loop (endpoint_name : string) fuel platform :=
  while_true fuel describe_endpoint endpoint_name platform 0.

Definition inference_component_status_loop (inference_component_name : string)
    fuel platform :=
  while_true fuel describe_inference_component inference_component_name
    platform 0.

Definition scale_out_status_loop (inference_component_name : string)
    fuel platform :=
  while_true fuel describe_inference_component inference_component_name
    platform 0.

(** The events of [d] passes that do not break, from call [k] on, followed by
    the pass that breaks. *)
Definition waiting_pass api name (platform : nat -> string) (j : nat) : list event :=
  [Describe api name; Print (platform j); Flush; Sleep 30%Z].

Definition breaking_pass api name (platform : nat -> string) (j : nat) : list event :=
  [Describe api name; Print (platform j); Flush].

Definition run_trace api name platform (k d : nat) : list event :=
  flat_map (waiting_pass api name platform) (seq k d)
    ++ breaking_pass api name platform (k + d).

(** [n] is the first call that observes a terminal status. *)
Definition first_terminal (platform : nat -> string) (n : nat) : Prop :=
  is_terminal (platform n) = true /\
  forall k, k < n -> is_terminal (platform k) = false.

(** The status printed last. *)
Fixpoint last_printed (tr : list event) : option string :=
  match tr with
  | [] => None
  | e :: tr' =>
      match last_printed tr' with
      | Some s => Some s
      | None => match e with Print s => Some s | _ => None end
      end
  end.

(** The sleeps of a trace, in order. *)
Fixpoint sleeps (tr : list event) : list Z :=
  match tr with
  | [] => []
  | Sleep s :: tr' => s :: sleeps tr'
  | _ :: tr' => sleeps tr'
  end.

Fixpoint describes (tr : list event) : nat :=
  match tr with
  | [] => 0
  | Describe _ _ :: tr' => S (describes tr')
  | _ :: tr' => describes tr'
  end.

End Polling.

(** ** Python values, exceptions and a state-and-exception monad

    The cells that handle exceptions are embedded over a monad that threads
    the variables a cell assigns and the text it prints, so that what was
    assigned or printed before an exception is raised is still there when a
    handler runs. *)

Module Py.

(** Exception classes the notebooks name or that their operations raise,
    with the classes they derive from.  All of them derive from
    [Exception]; interrupts ([KeyboardInterrupt], [SystemExit]) are outside
    the model. *)
Inductive exn_class : Type :=
| Exception
| ValueError
| JSONDecodeError
| UnicodeDecodeError
| InvalidLineError
| TypeError
| KeyError
| IndexError
| AttributeError
| NameError
| OSError
| ClientError
| ObjectNotFoundException
| ResourceNotFoundException
| EventStreamError.

Definition exn_class_eqb (c d : exn_class) : bool :=
  match c, d with
  | Exception, Exception | ValueError, ValueError
  | JSONDecodeError, JSONDecodeError | UnicodeDecodeError, UnicodeDecodeError
  | InvalidLineError, InvalidLineError | TypeError, TypeError
  | KeyError, KeyError | IndexError, IndexError
  | AttributeError, AttributeError | NameError, NameError
  | OSError, OSError | ClientError, ClientError
  | ObjectNotFoundException, ObjectNotFoundException
  | ResourceNotFoundException, ResourceNotFoundException
  | EventStreamError, EventStreamError => true
  | _, _ => false
  end.

(** The classes an exception of class [c] is an instance of. *)
Definition mro (c : exn_class) : list exn_class :=
  match c with
  | Exception => [Exception]
  | ValueError => [ValueError; Exception]
  | JSONDecodeError => [JSONDecodeError; ValueError; Exception]
  | UnicodeDecodeError => [UnicodeDecodeError; ValueError; Exception]
  | InvalidLineError => [InvalidLineError; ValueError; Exception]
  | TypeError => [TypeError; Exception]
  | KeyError => [KeyError; Exception]
  | IndexError => [IndexError; Exception]
  | AttributeError => [AttributeError; Exception]
  | NameError => [NameError; Exception]
  | OSError => [OSError; Exception]
  | ClientError => [ClientError; Exception]
  | ObjectNotFoundException => [ObjectNotFoundException; ClientError; Exception]
  | ResourceNotFoundException => [ResourceNotFoundException; ClientError; Exception]
  | EventStreamError => [EventStreamError; ClientError; Exception]
  end.

Record exn : Type := mk_exn { cls : exn_class; msg : string }.

(** [isinstance(e, c)], the test an [except c] clause makes. *)
Definition isinstance (e : exn) (c : exn_class) : bool :=
  existsb (exn_class_eqb c) (mro (cls e)).

(** Values of the JSON fragment of Python.  Dictionaries keep insertion
    order and have one entry per key; a float is kept as its [repr]. *)
Inductive value : Type :=
| VNone
| VBool (b : bool)
| VInt (z : Z)
| VFloat (repr : string)
| VStr (s : string)
| VList (items : list value)
| VDict (items : list (string * value)).

(** What a library call or an operation on values yields: a value or an
    exception. *)
Inductive result (A : Type) : Type :=
| Ok (a : A)
| Raise (e : exn).
Arguments Ok {A} a.
Arguments Raise {A} e.

(** How a statement ends: normally, by raising, or, for the model of a
    [while] loop only, by running out of unfoldings. *)
Inductive completion (A : Type) : Type :=
| Done (a : A)
| Raised (e : exn)
| Unfinished.
Arguments Done {A} a.
Arguments Raised {A} e.
Arguments Unfinished {A}.

Definition M (S A : Type) : Type := S -> completion A * S.

Definition ret {S A} (a : A) : M S A := fun s => (Done a, s).

Definition raise {S A} (e : exn) : M S A := fun s => (Raised e, s).

Definition bind {S A B} (c : M S A) (k : A -> M S B) : M S B :=
  fun s =>
    match c s with
    | (Done a, s') => k a s'
    | (Raised e, s') => (Raised e, s')
    | (Unfinished, s') => (Unfinished, s')
    end.

Definition get {S} : M S S := fun s => (Done s, s).

Definition modify {S} (f : S -> S) : M S unit := fun s => (Done tt, f s).

(** Lifts the result of an operation that may raise. *)
Definition lift {S A} (r : result A) : M S A :=
  match r with
  | Ok a => ret a
  | Raise e => raise e
  end.

(** [try: body except c as e: handler e].  The handler sees the state the
    body left. *)
Definition try_except {S A} (body : M S A) (c : exn_class)
    (handler : exn -> M S A) : M S A :=
  fun s =>
    match body s with
    | (Raised e, s') => if isinstance e c then handler e s' else (Raised e, s')
    | r => r
    end.

(** [for x in xs: body x], where the body leaves through [continue] or by
    falling off its end. *)
Fixpoint for_each {S A} (xs : list A) (body : A -> M S unit) : M S unit :=
  match xs with
  | [] => ret tt
  | x :: xs' => bind (body x) (fun _ => for_each xs' body)
  end.

(** An iterator, by what the successive calls of its [__next__] give: an
    item, or an exception.  The end of the list is [StopIteration]. *)
Definition iterator (A : Type) : Type := list (result A).

(** [for x in it: body x] over an iterator.  An exception of [__next__] is
    raised by the [for] statement itself, outside any [try] of its body,
    and the items after it are never asked for. *)
Fixpoint for_in {S A} (it : iterator A) (body : A -> M S unit) : M S unit :=
  match it with
  | [] => ret tt
  | Ok x :: rest => bind (body x) (fun _ => for_in rest body)
  | Raise e :: _ => raise e
  end.

(** What the iterator itself raises, if it does before it ends, and the
    items it yields until then. *)
Fixpoint iterator_failure {A} (it : iterator A) : option exn :=
  match it with
  | [] => None
  | Ok _ :: rest => iterator_failure rest
  | Raise e :: _ => Some e
  end.

Fixpoint yielded {A} (it : iterator A) : list A :=
  match it with
  | [] => []
  | Ok x :: rest => x :: yielded rest
  | Raise _ :: _ => []
  end.

Declare Scope py_scope.
Delimit Scope py_scope with py.
Notation "x <- c ;; k" := (bind c (fun x => k))
  (at level 100, c at next level, right associativity) : py_scope.
Notation "c ;; k" := (bind c (fun _ => k))
  (at level 100, right associativity) : py_scope.

(** *** Operations on values *)

Fixpoint assoc (key : string) (items : list (string * value)) : option value :=
  match items with
  | [] => None
  | (k, v) :: items' => if String.eqb k key then Some v else assoc key items'
  end.

(** [d[key] = v] on a dictionary: replaces in place, or appends. *)
Fixpoint assoc_set (key : string) (v : value) (items : list (string * value))
  : list (string * value) :=
  match items with
  | [] => [(key, v)]
  | (k, w) :: items' =>
      if String.eqb k key then (k, v) :: items'
      else (k, w) :: assoc_set key v items'
  end.

(** [s in t] on strings. *)
Definition is_substring (s t : string) : bool :=
  match String.index 0 s t with
  | Some _ => true
  | None => false
  end.

Definition is_str (key : string) (v : value) : bool :=
  match v with VStr s => String.eqb s key | _ => false end.

(** [type(v).__name__]; the messages below have the wording of
    CPython 3.11. *)
Definition type_name (v : value) : string :=
  match v with
  | VNone => "NoneType"
  | VBool _ => "bool"
  | VInt _ => "int"
  | VFloat _ => "float"
  | VStr _ => "str"
  | VList _ => "list"
  | VDict _ => "dict"
  end.

Definition not_subscriptable (v : value) : exn :=
  mk_exn TypeError ("'" ++ type_name v ++ "' object is not subscriptable").

(** [key in v] for a string [key]. *)
Definition contains (key : string) (v : value) : result bool :=
  match v with
  | VDict items => Ok (match assoc key items with Some _ => true | None => false end)
  | VList items => Ok (existsb (is_str key) items)
  | VStr s => Ok (is_substring key s)
  | _ => Raise (mk_exn TypeError
                  ("argument of type '" ++ type_name v ++ "' is not iterable"))
  end.

(** [v[key]] for a string [key]. *)
Definition getitem (v : value) (key : string) : result value :=
  match v with
  | VDict items =>
      match assoc key items with
      | Some w => Ok w
      | None => Raise (mk_exn KeyError ("'" ++ key ++ "'"))
      end
  | VList _ => Raise (mk_exn TypeError "list indices must be integers or slices, not str")
  | VStr _ => Raise (mk_exn TypeError "string indices must be integers, not 'str'")
  | _ => Raise (not_subscriptable v)
  end.

(** [v[key] = w] for a string [key]. *)
Definition setitem (v : value) (key : string) (w : value) : result value :=
  match v with
  | VDict items => Ok (VDict (assoc_set key w items))
  | VList _ => Raise (mk_exn TypeError "list indices must be integers or slices, not str")
  | _ => Raise (mk_exn TypeError
                  ("'" ++ type_name v ++ "' object does not support item assignment"))
  end.

(** [v[0]]. *)
Definition getitem0 (v : value) : result value :=
  match v with
  | VList (x :: _) => Ok x
  | VList [] => Raise (mk_exn IndexError "list index out of range")
  | VStr (String c _) => Ok (VStr (String c EmptyString))
  | VStr EmptyString => Raise (mk_exn IndexError "string index out of range")
  | VDict _ => Raise (mk_exn KeyError "0")
  | _ => Raise (not_subscriptable v)
  end.

(** [v.get(key, default)]: only dictionaries have the method. *)
Definition dict_get (v : value) (key : string) (default : value) : result value :=
  match v with
  | VDict items =>
      Ok (match assoc key items with Some w => w | None => default end)
  | _ => Raise (mk_exn AttributeError
                  ("'" ++ type_name v ++ "' object has no attribute 'get'"))
  end.

(** [len(v)]. *)
Definition len (v : value) : result nat :=
  match v with
  | VStr s => Ok (String.length s)
  | VList items => Ok (List.length items)
  | VDict items => Ok (List.length items)
  | _ => Raise (mk_exn TypeError
                  ("object of type '" ++ type_name v ++ "' has no len()"))
  end.

(** Truth value, as tested by [if v:].  A float is kept as its [repr], and
    the floats that are false are the two zeros. *)
Definition truthy (v : value) : bool :=
  match v with
  | VNone => false
  | VBool b => b
  | VInt z => negb (Z.eqb z 0)
  | VFloat r => negb (existsb (String.eqb r) ["0.0"; "-0.0"])
  | VStr s => negb (String.eqb s "")
  | VList items => match items with [] => false | _ => true end
  | VDict items => match items with [] => false | _ => true end
  end.

(** *** Strings *)

Definition startswith (s prefix : string) : bool := String.prefix prefix s.

Definition clamp (n i : Z) : Z :=
  if (i <? 0)%Z then Z.max 0 (i + n) else Z.min i n.

(** [s[a:b]] *)
Definition slice (s : string) (a b : Z) : string :=
  let n := Z.of_nat (String.length s) in
  let a' := clamp n a in
  let b' := clamp n b in
  String.substring (Z.to_nat a') (Z.to_nat (b' - a')) s.

(** [s[a:]] *)
Definition slice_from (s : string) (a : Z) : string :=
  slice s a (Z.of_nat (String.length s)).

(** [s.find(sub)] *)
Definition find (s sub : string) : Z :=
  match String.index 0 sub s with
  | Some i => Z.of_nat i
  | None => (-1)%Z
  end.

(** What [print] writes: literal text, or [str(v)] of a value. *)
Inductive printed : Type :=
| Text (s : string)
| Str (v : value).

(** The statement ends, normally or by raising, from every state. *)
Definition finishes {S A} (c : M S A) : Prop :=
  forall s, fst (c s) <> Unfinished.

End Py.

(** ** Streaming-response loops

    Three notebooks read the body of [invoke_endpoint_with_response_stream].
    The body is an iterator (botocore's [EventStream]): it yields one
    dictionary per event, and raises [EventStreamError] when the stream
    carries an error event ([ModelStreamError], [InternalStreamFailure]).
    An event it yields is either [{'PayloadPart': {'Bytes': b}}], a payload
    part without bytes, or a dictionary with another key.  [json.loads] and
    [bytes.decode] are library functions: they are parameters of the
    model. *)

Module Streams.
Import Py.
Local Open Scope py_scope.

Inductive stream_event : Type :=
| PayloadPart (Bytes : option string)
| OtherEvent (key : string).

(** [event['PayloadPart']['Bytes']] *)
Definition payload_bytes (ev : stream_event) : result string :=
  match ev with
  | PayloadPart (Some b) => Ok b
  | PayloadPart None => Raise (mk_exn KeyError "'Bytes'")
  | OtherEvent _ => Raise (mk_exn KeyError "'PayloadPart'")
  end.

(** [event.get('PayloadPart', {}).get('Bytes', b'')] *)
Definition payload_bytes_or_empty (ev : stream_event) : string :=
  match ev with
  | PayloadPart (Some b) => b
  | PayloadPart None => ""
  | OtherEvent _ => ""
  end.

Definition double_quote : string := String "034"%char EmptyString.
Definition newline : string := String "010"%char EmptyString.

Section Streaming.

Variable json_loads : string -> result value.
Variable decode : string -> result string.

(** *** Token streaming loop of the Llama 3.3 notebook
<<
    for event in response['Body']:
        line = event['PayloadPart']['Bytes'].decode()
        if line.startswith('data: '):
            try:
                chunk = json.loads(line[6:])  # Skip the "data: " prefix
                if 'token' in chunk:
                    token_count += 1
                    if not first_token_received:
                        ttft = time.time() - start_time
                        first_token_received = True
                    print(chunk['token']['text'], end='', flush=True)
            except json.JSONDecodeError:
                continue
>>
    Each event comes with the reading of [time.time()] taken while it is
    processed; [time] and its subtraction are abstract.  The [for]
    statement is not inside a [try]: what the iterator raises leaves the
    loop. *)

Variable time : Type.
Variable time_sub : time -> time -> time.

Record timed_event : Type := mk_timed { event : stream_event; clock : time }.

Record tgi_state : Type := mk_tgi {
  token_count : Z;
  first_token_received : bool;
  ttft : option time;
  tgi_printed : list printed
}.

Definition tgi_initial : tgi_state := mk_tgi 0 false None [].

Definition incr_token_count (s : tgi_state) : tgi_state :=
  mk_tgi (token_count s + 1) (first_token_received s) (ttft s) (tgi_printed s).

Definition set_first_token (t : time) (s : tgi_state) : tgi_state :=
  mk_tgi (token_count s) true (Some t) (tgi_printed s).

Definition tgi_print (p : printed) (s : tgi_state) : tgi_state :=
  mk_tgi (token_count s) (first_token_received s) (ttft s) (tgi_printed s ++ [p]).

(** The [try] block. *)
Definition tgi_try (start_time : time) (now : time) (line : string)
  : M tgi_state unit :=
  chunk <- lift (json_loads (slice_from line 6)) ;;
  has_token <- lift (contains "token" chunk) ;;
  if has_token : bool then
    modify incr_token_count ;;
    s <- get ;;
    (if negb (first_token_received s)
     then modify (set_first_token (time_sub now start_time))
     else ret tt) ;;
    token <- lift (getitem chunk "token") ;;
    text <- lift (getitem token "text") ;;
    modify (tgi_print (Str text))
  else ret tt.

Definition tgi_body (start_time : time) (te : timed_event) : M tgi_state unit :=
  bytes <- lift (payload_bytes (event te)) ;;
  line <- lift (decode bytes) ;;
  if startswith line "data: " then
    try_except (tgi_try start_time (clock te) line)
      JSONDecodeError
      (fun _ => ret tt)
  else ret tt.

Definition tgi_loop (start_time : time) (events : iterator timed_event)
  : M tgi_state unit :=
  for_in events (tgi_body start_time).

(** *** Postprocessing loop of the two NIM notebooks
<<
    accumulated_data = ""
    start_marker = 'data:'
    end_marker = '"finish_reason":null}]}'

    for event in event_stream:
        try:
            payload = event.get('PayloadPart', {}).get('Bytes', b'')
            if payload:
                data_str = payload.decode('utf-8')
                accumulated_data += data_str
                while start_marker in accumulated_data and end_marker in accumulated_data:
                    start_idx = accumulated_data.find(start_marker)
                    end_idx = accumulated_data.find(end_marker) + len(end_marker)
                    full_response = accumulated_data[start_idx + len(start_marker):end_idx]
                    accumulated_data = accumulated_data[end_idx:]
                    try:
                        data = json.loads(full_response)
                        content = data.get('choices', [{}])[0].get('delta', {}).get('content', "")
                        if content:
                            print(content, end='', flush=True)
                    except json.JSONDecodeError:
                        continue
        except Exception as e:
            print(f"\nError processing event: {e}", flush=True)
            continue
>> *)

Definition start_marker : string := "data:".
Definition end_marker : string :=
  double_quote ++ "finish_reason" ++ double_quote ++ ":null}]}".

Record nim_state : Type := mk_nim {
  accumulated_data : string;
  nim_printed : list printed
}.

Definition nim_initial : nim_state := mk_nim "" [].

Definition set_accumulated (a : string) (s : nim_state) : nim_state :=
  mk_nim a (nim_printed s).

Definition nim_print (p : printed) (s : nim_state) : nim_state :=
  mk_nim (accumulated_data s) (nim_printed s ++ [p]).

(** The inner [try] block. *)
Definition nim_try (full_response : string) : M nim_state unit :=
  data <- lift (json_loads full_response) ;;
  choices <- lift (dict_get data "choices" (VList [VDict []])) ;;
  choice <- lift (getitem0 choices) ;;
  delta <- lift (dict_get choice "delta" (VDict [])) ;;
  content <- lift (dict_get delta "content" (VStr "")) ;;
  if truthy content then modify (nim_print (Str content)) else ret tt.

(** The inner [try] statement with its handler. *)
Definition nim_fragment (full_response : string) : M nim_state unit :=
  try_except (nim_try full_response) JSONDecodeError (fun _ => ret tt).

(** The loop condition. *)
Definition markers_present (a : string) : bool :=
  is_substring start_marker a && is_substring end_marker a.

Definition nim_end_idx (a : string) : Z :=
  (find a end_marker + Z.of_nat (String.length end_marker))%Z.

Definition nim_full_response (a : string) : string :=
  slice a (find a start_marker + Z.of_nat (String.length start_marker))%Z
    (nim_end_idx a).

(** The [while] loop, unfolded at most [fuel] times. *)
Fixpoint nim_while (fuel : nat) : M nim_state unit :=
  fun s =>
    let a := accumulated_data s in
    if markers_present a then
      match fuel with
      | O => (Unfinished, s)
      | S fuel' =>
          (modify (set_accumulated (slice_from a (nim_end_idx a))) ;;
           nim_fragment (nim_full_response a) ;;
           nim_while fuel') s
      end
    else (Done tt, s).

(** The outer [try] block.  Every pass of the [while] loop shortens
    [accumulated_data], so its length bounds the number of passes. *)
Definition nim_outer_try (ev : stream_event) : M nim_state unit :=
  let payload := payload_bytes_or_empty ev in
  if negb (String.eqb payload "") then
    data_str <- lift (decode payload) ;;
    modify (fun s => set_accumulated (accumulated_data s ++ data_str) s) ;;
    s <- get ;;
    nim_while (String.length (accumulated_data s))
  else ret tt.

Definition nim_body (ev : stream_event) : M nim_state unit :=
  try_except (nim_outer_try ev) Exception
    (fun e =>
       modify (nim_print (Text (newline ++ "Error processing event: " ++ msg e)))).

(** The [for] statement: the outer [try] is inside it. *)
Definition nim_loop (events : iterator stream_event) : M nim_state unit :=
  for_in events nim_body.

End Streaming.

End Streams.

(** ** Execution-role cell of the Llama 3.3 notebook
<<
    try:
        role = sagemaker.get_execution_role()
    except ValueError:
        iam = boto3.client('iam')
        role = iam.get_role(RoleName='sagemaker_execution_role')['Role']['Arn']
>> *)

Module RoleCell.
Import Py.
Local Open Scope py_scope.

Record env : Type := mk_env {
  get_execution_role : result value;
  get_role : string -> result value
}.


End RoleCell.

(** ** Evaluation helper of the quantization notebook
<<
    def create_payload(prompt: str, parameters: dict = {...}) -> dict:
        if len(prompt) == 0:
            raise ValueError("Please provide a non-empty prompt.")
        return {"inputs": prompt, "parameters": parameters}

    def create_eval_files(endpoint_name: str, model_outputs_file: str,
                          input_file: str = "trex_sample_subset.jsonl") -> str:
        try:
            with jsonlines.open(input_file) as input_fh, \
                 jsonlines.open(model_outputs_file, "w") as output_fh:
                for line in input_fh:
                    if "question" in line:
                        question = line["question"]
                        payload = create_payload(question)
                        response = runtime_client.invoke_endpoint(
                            EndpointName=endpoint_name,
                            Body=json.dumps(payload), ContentType=content_type)
                        model_output = json.loads(
                            response['Body'].read().decode())['generated_text']
                        line["model_output"] = model_output
                        output_fh.write(line)
        except Exception as e:
                print(f"An error occurred: {e}")
        print(f"Created Model Outputs File: {model_outputs_file}")
>>
    The files and the endpoint are the environment: opening a file may
    raise, reading yields the lines of the file, each of which may fail to
    parse, and an invocation yields the decoded body of the response or
    raises.  The state keeps the records each file holds: opening a file
    in mode ["w"] empties it, [write] adds a record at its end. *)

Module EvalFiles.
Import Py.
Local Open Scope py_scope.

Record env : Type := mk_env {
  (** [jsonlines.open(input_file)] and the lines iterating it yields *)
  open_read : string -> result (list (result value));
  (** [jsonlines.open(model_outputs_file, "w")] *)
  open_write : string -> result unit;
  (** [json.loads(invoke_endpoint(...)['Body'].read().decode())] for an
      endpoint name and a payload *)
  invoke_endpoint : string -> value -> result value;
  (** [output_fh.write(line)] *)
  write : string -> value -> result unit
}.

Record state : Type := mk_state {
  written : list (string * value);
  printed_lines : list printed
}.

Definition initial : state := mk_state [] [].

Definition record_write (file : string) (line : value) (s : state) : state :=
  mk_state (written s ++ [(file, line)]) (printed_lines s).

(** The records of the files other than [file]. *)
Definition without (file : string) (records : list (string * value))
  : list (string * value) :=
  List.filter (fun r => negb (String.eqb (fst r) file)) records.

(** What opening [file] in mode ["w"] does to it. *)
Definition truncate (file : string) (s : state) : state :=
  mk_state (without file (written s)) (printed_lines s).

Definition print (p : printed) (s : state) : state :=
  mk_state (written s) (printed_lines s ++ [p]).

Definition default_parameters : value :=
  VDict [("max_new_tokens", VInt 128); ("top_p", VFloat "0.9");
         ("temperature", VFloat "0.6")].

Definition default_input_file : string := "trex_sample_subset.jsonl".

Definition create_payload {S} (prompt parameters : value) : M S value :=
  n <- lift (len prompt) ;;
  if Nat.eqb n 0
  then raise (mk_exn ValueError "Please provide a non-empty prompt.")
  else ret (VDict [("inputs", prompt); ("parameters", parameters)]).

(** The body of the [for] loop, for one item the reader yields. *)
Definition eval_line (e : env) (endpoint_name model_outputs_file : string)
    (item : result value) : M state unit :=
  line <- lift item ;;
  has_question <- lift (contains "question" line) ;;
  if has_question : bool then
    question <- lift (getitem line "question") ;;
    payload <- create_payload question default_parameters ;;
    response <- lift (invoke_endpoint e endpoint_name payload) ;;
    model_output <- lift (getitem response "generated_text") ;;
    line' <- lift (setitem line "model_output" model_output) ;;
    lift (write e model_outputs_file line') ;;
    modify (record_write model_outputs_file line')
  else ret tt.

(** The [try] block. *)
Definition create_eval_files_try (e : env)
    (endpoint_name model_outputs_file input_file : string) : M state unit :=
  lines <- lift (open_read e input_file) ;;
  lift (open_write e model_outputs_file) ;;
  modify (truncate model_outputs_file) ;;
  for_each lines (eval_line e endpoint_name model_outputs_file).

(** The function: no [return] statement, so the call evaluates to [None]. *)
Definition create_eval_files (e : env)
    (endpoint_name model_outputs_file input_file : string) : M state value :=
  try_except
    (create_eval_files_try e endpoint_name model_outputs_file input_file)
    Exception
    (fun err => modify (print (Text ("An error occurred: " ++ msg err)))) ;;
  modify (print (Text ("Created Model Outputs File: " ++ model_outputs_file))) ;;
  ret VNone.

(** The two assignments that end the cell; the result is the pair
    [(quantized_model_output_file, base_model_output_file)]. *)
Definition eval_cell (e : env) (quantized_endpoint base_endpoint : string)
  : M state (value * value) :=
  quantized_model_output_file <-
    create_eval_files e quantized_endpoint "quantized_model_outputs.jsonl"
      default_input_file ;;
  base_model_output_file <-
    create_eval_files e base_endpoint "base_model_outputs.jsonl"
      default_input_file ;;
  ret (quantized_model_output_file, base_model_output_file).

End EvalFiles.

(** ** The calls that create and delete remote resources

    Each notebook is read as the sequence of control-plane calls its cells
    issue, top to bottom.  Names that the platform or the SDK generates at
    run time ([prefix], the names of deployed models, endpoints and
    inference components) are parameters.

    Some cells go through the SageMaker Python SDK, which is not part of
    the repository.  [Model.deploy] issues CreateModel, CreateEndpointConfig
    and CreateEndpoint, the configuration under the name of the endpoint;
    onto an endpoint that exists, for a model deployed as an inference
    component, it issues CreateModel and CreateInferenceComponent.
    [Predictor.delete_endpoint] issues DeleteEndpointConfig when asked to
    and then DeleteEndpoint; it never deletes the model. *)

Module Notebooks.

(** The key of an Application Auto Scaling request. *)
Record scaling_id : Type := mk_scaling_id {
  ServiceNamespace : string;
  ResourceId : string;
  ScalableDimension : string
}.

Definition scaling_id_eqb (a b : scaling_id) : bool :=
  String.eqb (ServiceNamespace a) (ServiceNamespace b)
  && String.eqb (ResourceId a) (ResourceId b)
  && String.eqb (ScalableDimension a) (ScalableDimension b).

(** The [Specification] of an inference component names the model it
    runs or, for an adapter, the inference component it extends. *)
Inductive specification : Type :=
| of_model (ModelName : string)
| of_base_component (BaseInferenceComponentName : string).

(** The ARN of a scaling policy, as [describe_scaling_policies] returns it
    for a policy name and a key: it stands for that policy. *)
Definition policy_arn : Type := (string * scaling_id)%type.

Inductive call : Type :=
| create_model (ModelName : string)
| create_endpoint_config (EndpointConfigName : string)
| create_endpoint (EndpointName EndpointConfigName : string)
| create_inference_component (InferenceComponentName EndpointName : string)
    (Specification : specification)
| update_inference_component (InferenceComponentName : string)
(** [model.deploy(...)] returning a predictor on a new endpoint;
    [model_name] and [endpoint_name] are the names the SDK gives the model
    and the endpoint *)
| deploy (model_name endpoint_name : string)
(** [final_model.deploy(endpoint_name=..., resources=...)] onto an endpoint
    that exists, adding an inference component for the model *)
| deploy_inference_component
    (model_name inference_component_name endpoint_name : string)
(** [model_builder.optimize(...)]: an optimization job, which ends by
    itself and leaves its output under [output_path] *)
| optimize (output_path : string)
| register_scalable_target (id : scaling_id)
| put_scaling_policy (PolicyName PolicyType : string) (id : scaling_id)
(** [put_metric_alarm(AlarmName=..., AlarmActions=[...],
    Dimensions=[{'Name': 'InferenceComponentName', 'Value': ...}], ...)] *)
| put_metric_alarm (AlarmName : string) (AlarmActions : list policy_arn)
    (InferenceComponentName : string)
| deregister_scalable_target (id : scaling_id)
| delete_alarms (AlarmNames : list string)
| delete_scaling_policy (PolicyName : string) (id : scaling_id)
| delete_inference_component (InferenceComponentName : string)
| delete_endpoint (EndpointName : string)
(** [predictor.delete_endpoint(delete_endpoint_config=...)] *)
| predictor_delete_endpoint (endpoint_name : string) (delete_endpoint_config : bool)
| delete_endpoint_config (EndpointConfigName : string)
| delete_model (ModelName : string)
(** [%run path]: the cells of another notebook *)
| run_notebook (path : string).

Inductive resource : Type :=
| Model (name : string)
| EndpointConfig (name : string)
| Endpoint (name : string)
| InferenceComponent (name : string)
| ScalableTarget (id : scaling_id)
| ScalingPolicy (name : string) (id : scaling_id)
| MetricAlarm (name : string).

Definition resource_eqb (r1 r2 : resource) : bool :=
  match r1, r2 with
  | Model a, Model b => String.eqb a b
  | EndpointConfig a, EndpointConfig b => String.eqb a b
  | Endpoint a, Endpoint b => String.eqb a b
  | InferenceComponent a, InferenceComponent b => String.eqb a b
  | ScalableTarget a, ScalableTarget b => scaling_id_eqb a b
  | ScalingPolicy n a, ScalingPolicy m b => String.eqb n m && scaling_id_eqb a b
  | MetricAlarm a, MetricAlarm b => String.eqb a b
  | _, _ => false
  end.

(** The resources a call asks the platform to create, in the order of the
    requests.  What a notebook run through [%run] creates is in that
    notebook. *)
Definition created (c : call) : list resource :=
  match c with
  | create_model n => [Model n]
  | create_endpoint_config n => [EndpointConfig n]
  | create_endpoint n _ => [Endpoint n]
  | create_inference_component n _ _ => [InferenceComponent n]
  | deploy m n => [Model m; EndpointConfig n; Endpoint n]
  | deploy_inference_component m n _ => [Model m; InferenceComponent n]
  | register_scalable_target id => [ScalableTarget id]
  | put_scaling_policy n _ id => [ScalingPolicy n id]
  | put_metric_alarm n _ _ => [MetricAlarm n]
  | _ => []
  end.

(** The resources a call asks the platform to delete, in the order of the
    requests.  The configuration a predictor deletes is the one of its
    endpoint, which [deploy] created under the endpoint's name. *)
Definition deleted (c : call) : list resource :=
  match c with
  | deregister_scalable_target id => [ScalableTarget id]
  | delete_alarms names => map MetricAlarm names
  | delete_scaling_policy n id => [ScalingPolicy n id]
  | delete_inference_component n => [InferenceComponent n]
  | delete_endpoint n => [Endpoint n]
  | predictor_delete_endpoint n true => [EndpointConfig n; Endpoint n]
  | predictor_delete_endpoint n false => [Endpoint n]
  | delete_endpoint_config n => [EndpointConfig n]
  | delete_model n => [Model n]
  | _ => []
  end.

Definition notebook : Type := list call.

Definition creations (nb : notebook) : list resource := flat_map created nb.
Definition deletions (nb : notebook) : list resource := flat_map deleted nb.

(** Position of the first occurrence. *)
Fixpoint position (r : resource) (l : list resource) : option nat :=
  match l with
  | [] => None
  | x :: l' =>
      if resource_eqb r x then Some 0
      else match position r l' with Some i => Some (S i) | None => None end
  end.

Definition occurs (r : resource) (l : list resource) : bool :=
  existsb (resource_eqb r) l.

(** [r1] comes before [r2] in [l]. *)
Definition precedes (r1 r2 : resource) (l : list resource) : bool :=
  match position r1 l, position r2 l with
  | Some i, Some j => Nat.ltb i j
  | _, _ => false
  end.

(** *** Scale-to-zero notebook *)

Section ScaleToZero.

Variable prefix : string.
(** [final_model.inference_component_name] *)
Variable inference_component_name : string.
(** [final_model.name], the model [final_model.deploy] creates *)
Variable model_name : string.

Definition endpoint_config_name : string :=
  prefix ++ "-llama3-8b-scale-to-zero-aas-config".
Definition endpoint_name : string :=
  prefix ++ "-llama3-8b-scale-to-zero-aas-endpoint".
Definition output_path (model_bucket : string) : string :=
  "s3://" ++ model_bucket ++ "/llama3-8b/sharding".

Definition resource_id : string :=
  "inference-component/" ++ inference_component_name.
Definition service_namespace : string := "sagemaker".
Definition scalable_dimension : string :=
  "sagemaker:inference-component:DesiredCopyCount".

Definition target_tracking_policy_name : string :=
  "Target-tracking-policy-llama3-8b-scale-to-zero-aas-" ++ inference_component_name.
Definition step_scaling_policy_name : string :=
  "Step-scaling-policy-llama3-8b-scale-to-zero-aas-" ++ inference_component_name.
Definition step_scaling_alarm_name : string :=
  "step-scaling-alarm-llama3-8b-scale-to-zero-aas-" ++ inference_component_name.

(** The requests of the cells that set autoscaling up. *)
Definition registered_id : scaling_id :=
  mk_scaling_id service_namespace resource_id scalable_dimension.

Definition put_target_tracking_policy : call :=
  put_scaling_policy target_tracking_policy_name "TargetTrackingScaling"
    registered_id.

Definition put_step_scaling_policy : call :=
  put_scaling_policy step_scaling_policy_name "StepScaling" registered_id.

(** [resp['ScalingPolicies'][0]['PolicyARN']] of
    [describe_scaling_policies(PolicyNames=[step_scaling_policy_name], ...)]
    under the key the policy was put with *)
Definition step_scaling_policy_arn : policy_arn :=
  (step_scaling_policy_name, registered_id).

Definition put_step_scaling_alarm : call :=
  put_metric_alarm step_scaling_alarm_name [step_scaling_policy_arn]
    inference_component_name.

(** The three requests of the autoscaling cleanup cell. *)
Definition cleanup_deregister : call :=
  deregister_scalable_target
    (mk_scaling_id "sagemaker" resource_id scalable_dimension).

Definition cleanup_delete_alarms : call :=
  delete_alarms [step_scaling_alarm_name].

Definition cleanup_delete_scaling_policy : call :=
  delete_scaling_policy step_scaling_policy_name
    (mk_scaling_id "sagemaker" resource_id
       "sagemaker:variant:DesiredInstanceCount").

(** The last cell. *)
Definition final_cleanup_cell : notebook :=
  [ delete_inference_component inference_component_name;
    delete_endpoint endpoint_name;
    delete_endpoint_config endpoint_config_name ].

Definition scale_to_zero (model_bucket : string) : notebook :=
  [ create_endpoint_config endpoint_config_name;
    create_endpoint endpoint_name endpoint_config_name;
    optimize (output_path model_bucket);
    deploy_inference_component model_name inference_component_name endpoint_name;
    register_scalable_target registered_id;
    put_target_tracking_policy;
    put_step_scaling_policy;
    put_step_scaling_alarm;
    cleanup_deregister;
    cleanup_delete_alarms;
    cleanup_delete_scaling_policy ]
  ++ final_cleanup_cell.

End ScaleToZero.

(** *** Multi-adapter notebook *)

Section MultiAdapter.

(** [sagemaker.utils.name_from_base("llama-3-1-8b-instruct")] *)
Variable model_name : string.

Definition ma_endpoint_config_name : string := model_name.
Definition ma_endpoint_name : string := model_name.
Definition base_inference_component_name : string := "base-" ++ model_name.
Definition ic_ectsum_name : string :=
  "ic-ectsum-" ++ base_inference_component_name.

Definition multi_adapter : notebook :=
  [ create_model model_name;
    create_endpoint_config ma_endpoint_config_name;
    create_endpoint ma_endpoint_name ma_endpoint_config_name;
    create_inference_component base_inference_component_name ma_endpoint_name
      (of_model model_name);
    create_inference_component ic_ectsum_name ma_endpoint_name
      (of_base_component base_inference_component_name);
    update_inference_component ic_ectsum_name;
    delete_inference_component ic_ectsum_name;
    delete_inference_component base_inference_component_name;
    delete_endpoint ma_endpoint_name;
    delete_endpoint_config ma_endpoint_config_name;
    delete_model model_name ].

End MultiAdapter.

(** *** Llama 3.3 notebook: one deployment, deleted through its predictor
<<
    predictor = huggingface_model.deploy(initial_instance_count=1, ...)
    ...
    predictor.delete_endpoint(delete_endpoint_config=True)
>> *)
Definition llama33 (model_name predictor_endpoint_name : string) : notebook :=
  [ deploy model_name predictor_endpoint_name;
    predictor_delete_endpoint predictor_endpoint_name true ].

(** *** Quantization notebook: two deployments and an optimization job; its
    last cells run the evaluation
<<
    base_predictor = base_model.deploy(instance_type=..., accept_eula=True)
    optimized_model = quantized_model_builder.optimize(...)
    quantized_predictor = optimized_model.deploy(instance_type=..., accept_eula=True)
>> *)
Definition quantization
    (artifacts_bucket_name base_model base_endpoint
       quantized_model quantized_endpoint : string)
  : notebook :=
  [ deploy base_model base_endpoint;
    optimize ("s3://" ++ artifacts_bucket_name ++ "/awq-quantization/");
    deploy quantized_model quantized_endpoint ].

(** *** NIM notebooks: the model, endpoint configuration and endpoint are
    set up by the base notebook, whose variables come back through
    [%store -r endpoint_name sm_model_name endpoint_config_name] *)
Definition nim (endpoint_name sm_model_name endpoint_config_name : string)
  : notebook :=
  [ run_notebook "../base_nim_NVIDIA.ipynb";
    delete_model sm_model_name;
    delete_endpoint_config endpoint_config_name;
    delete_endpoint endpoint_name ].

End Notebooks.

(** ** Autoscaling cleanup cell of the scale-to-zero notebook
<<
    try:
        aas_client.deregister_scalable_target(
            ServiceNamespace="sagemaker", ResourceId=resource_id,
            ScalableDimension=scalable_dimension)
        print(f"Scalable target for [b]{resource_id}[/b] deregistered. ...")
    except aas_client.exceptions.ObjectNotFoundException:
        print(f"Scalable target for [b]{resource_id}[/b] not found!.")

    print("---" * 10)

    try:
        cloudwatch_client.delete_alarms(AlarmNames=[step_scaling_alarm_name])
        print(f"Deleted CloudWatch step scaling scale-out alarm [b]{step_scaling_alarm_name} ...")
    except cloudwatch_client.exceptions.ResourceNotFoundException:
        print(f"CloudWatch scale-out alarm [b]{step_scaling_alarm_name}[/b] not found.")

    print("---" * 10)

    try:
        aas_client.delete_scaling_policy(
            PolicyName=step_scaling_policy_name, ServiceNamespace="sagemaker",
            ResourceId=resource_id,
            ScalableDimension="sagemaker:variant:DesiredInstanceCount")
        print(f"Deleted scaling policy [i green]{step_scaling_policy_name} ...")
    except aas_client.exceptions.ObjectNotFoundException:
        print(f"Scaling policy [i]{step_scaling_policy_name}[/i] not found.")
>>
    The platform is the answer it gives to each request: [None] when the
    request succeeds, the exception it raises otherwise. *)

Module Cleanup.
Import Py Notebooks.
Local Open Scope py_scope.

Definition platform : Type := call -> option exn.

Record state : Type := mk_state {
  attempted : list call;
  printed_lines : list printed
}.

Definition initial : state := mk_state [] [].

Definition record_call (c : call) (s : state) : state :=
  mk_state (attempted s ++ [c]) (printed_lines s).

Definition print (text : string) : M state unit :=
  modify (fun s => mk_state (attempted s) (printed_lines s ++ [Text text])).

(** Issues the request. *)
Definition request (p : platform) (c : call) : M state unit :=
  modify (record_call c) ;;
  match p c with
  | None => ret tt
  | Some e => raise e
  end.

Definition check_mark : string := " ✅".

(** ["---" * 10] *)
Definition dashes : string := "------------------------------".

Section Cell.

Variable p : platform.
Variable inference_component_name : string.

Local Abbreviation resource_id := (Notebooks.resource_id inference_component_name).
Local Abbreviation step_scaling_alarm_name :=
  (Notebooks.step_scaling_alarm_name inference_component_name).
Local Abbreviation step_scaling_policy_name :=
  (Notebooks.step_scaling_policy_name inference_component_name).

Definition deregistered_message : string :=
  "Scalable target for [b]" ++ resource_id ++ "[/b] deregistered." ++ check_mark.
Definition target_not_found_message : string :=
  "Scalable target for [b]" ++ resource_id ++ "[/b] not found!.".
Definition alarm_deleted_message : string :=
  "Deleted CloudWatch step scaling scale-out alarm [b]"
    ++ step_scaling_alarm_name ++ check_mark.
Definition alarm_not_found_message : string :=
  "CloudWatch scale-out alarm [b]" ++ step_scaling_alarm_name ++ "[/b] not found.".
Definition policy_deleted_message : string :=
  "Deleted scaling policy [i green]" ++ step_scaling_policy_name ++ check_mark.
Definition policy_not_found_message : string :=
  "Scaling policy [i]" ++ step_scaling_policy_name ++ "[/i] not found.".

Definition deregister_statement : M state unit :=
  try_except
    (request p (cleanup_deregister inference_component_name) ;;
     print deregistered_message)
    ObjectNotFoundException
    (fun _ => print target_not_found_message).

Definition delete_alarms_statement : M state unit :=
  try_except
    (request p (cleanup_delete_alarms inference_component_name) ;;
     print alarm_deleted_message)
    ResourceNotFoundException
    (fun _ => print alarm_not_found_message).

Definition delete_scaling_policy_statement : M state unit :=
  try_except
    (request p (cleanup_delete_scaling_policy inference_component_name) ;;
     print policy_deleted_message)
    ObjectNotFoundException
    (fun _ => print policy_not_found_message).

Definition autoscaling_cleanup_cell : M state unit :=
  deregister_statement ;;
  print dashes ;;
  delete_alarms_statement ;;
  print dashes ;;
  delete_scaling_policy_statement.

End Cell.

(** The class each of the three requests is guarded against. *)
Definition guard (c : call) : option exn_class :=
  match c with
  | deregister_scalable_target _ => Some ObjectNotFoundException
  | delete_alarms _ => Some ResourceNotFoundException
  | delete_scaling_policy _ _ => Some ObjectNotFoundException
  | _ => None
  end.

(** The request succeeds or raises the not-found exception it is guarded
    against. *)
Definition tolerated (p : platform) (c : call) : bool :=
  match p c, guard c with
  | None, _ => true
  | Some e, Some g => isinstance e g
  | Some _, None => false
  end.

(** The exception of a request that leaves its [try] statement. *)
Definition unhandled (p : platform) (c : call) : option exn :=
  match p c with
  | Some e => if tolerated p c then None else Some e
  | None => None
  end.

(** The requests of the cell, in the order of its statements. *)
Definition requests (inference_component_name : string) : list call :=
  [ cleanup_deregister inference_component_name;
    cleanup_delete_alarms inference_component_name;
    cleanup_delete_scaling_policy inference_component_name ].

(** Of requests made one after the other, those that get issued: all up to
    and including the first whose exception is not handled. *)
Fixpoint issued (p : platform) (cs : list call) : list call :=
  match cs with
  | [] => []
  | c :: rest =>
      match unhandled p c with
      | Some _ => [c]
      | None => c :: issued p rest
      end
  end.

(** How they end: with the first exception that is not handled. *)
Fixpoint outcome (p : platform) (cs : list call) : completion unit :=
  match cs with
  | [] => Done tt
  | c :: rest =>
      match unhandled p c with
      | Some e => Raised e
      | None => outcome p rest
      end
  end.

(** What a tolerated request prints: its success message, or its not-found
    message when it raised. *)
Definition reported (p : platform) (c : call) (done missing : string)
  : printed :=
  match p c with
  | None => Text done
  | Some _ => Text missing
  end.

End Cleanup.

(** ** Names bound and read by the cells of the multi-adapter notebook

    A cell is read as the statements that bind names (imports and
    assignments), the expressions that read names, and the [!command] lines
    whose [{name}] fields IPython expands from the user namespace.  The
    expansion is IPython's [var_expand]:
<<
        try:
            cmd = formatter.vformat(cmd, args=[], kwargs=ns)
        except Exception:
            # if formatter couldn't format, just let it go untransformed
            pass
        return cmd
>> *)

Module Namespace.
Import Py.
Local Open Scope py_scope.

(** A [!command] line is literal text with [{name}] fields. *)
Inductive piece : Type :=
| Lit (text : string)
| Field (name : string).

Inductive stmt : Type :=
(** import, or assignment whose right-hand side reads [reads] *)
| Bind (targets : list string) (reads : list string)
(** expression statement *)
| Eval (reads : list string)
(** [!command] *)
| Shell (command : list piece).

Definition cell : Type := list stmt.

(** The text handed to the shell: literal text, or the [str] of the value
    bound to a name. *)
Inductive word : Type :=
| Plain (text : string)
| ValueOf (name : string).

Record state : Type := mk_state {
  user_ns : gset string;
  shell_commands : list (list word)
}.

(** The builtins the cells call. *)
Definition builtins : gset string := {[ "print"; "range" ]}.

(** Looking a name up, as evaluating it does. *)
Definition lookup_name (name : string) : M state unit :=
  s <- get ;;
  if bool_decide (name ∈ user_ns s ∪ builtins) then ret tt
  else raise (mk_exn NameError ("name '" ++ name ++ "' is not defined")).

Definition bind_names (targets : list string) (s : state) : state :=
  mk_state (user_ns s ∪ list_to_set targets) (shell_commands s).

Definition run_shell (cmd : list word) (s : state) : state :=
  mk_state (user_ns s) (shell_commands s ++ [cmd]).

(** The command as written. *)
Definition raw (p : piece) : string :=
  match p with
  | Lit text => text
  | Field name => "{" ++ name ++ "}"
  end.

Definition untransformed (cmd : list piece) : list word :=
  [Plain (String.concat "" (map raw cmd))].

(** [formatter.vformat]: every field is evaluated in the namespace. *)
Fixpoint vformat (cmd : list piece) : M state (list word) :=
  match cmd with
  | [] => ret []
  | Lit text :: cmd' =>
      rest <- vformat cmd' ;; ret (Plain text :: rest)
  | Field name :: cmd' =>
      lookup_name name ;;
      rest <- vformat cmd' ;; ret (ValueOf name :: rest)
  end.

Definition var_expand (cmd : list piece) : M state (list word) :=
  try_except (vformat cmd) Exception (fun _ => ret (untransformed cmd)).

Definition exec_stmt (st : stmt) : M state unit :=
  match st with
  | Bind targets reads =>
      for_each reads lookup_name ;;
      modify (bind_names targets)
  | Eval reads => for_each reads lookup_name
  | Shell command =>
      cmd <- var_expand command ;;
      modify (run_shell cmd)
  end.

Definition exec_cell (c : cell) : M state unit := for_each c exec_stmt.

Definition exec_cells (cs : list cell) : M state unit := for_each cs exec_cell.

Definition targets_of (st : stmt) : list string :=
  match st with
  | Bind targets _ => targets
  | _ => []
  end.

(** Every name some statement of the cells binds. *)
Definition bound_names (cs : list cell) : list string :=
  flat_map (flat_map targets_of) cs.

(** *** The cells *)

Definition invoke_reads : list string :=
  ["sm_runtime"; "endpoint_name"; "component_to_invoke"; "json"; "prompt"].

(** The cells before the re-upload cell. *)
Definition cells_before : list cell :=
  [ [ Shell [Lit "pip install boto3==1.35.68 --quiet --upgrade"];
      Shell [Lit "pip install sagemaker==2.235.2 --quiet --upgrade"] ];
    [ Bind ["sagemaker"] []; Bind ["boto3"] []; Bind ["json"] [];
      Eval ["print"; "boto3"]; Eval ["print"; "sagemaker"] ];
    [ Bind ["role"] ["sagemaker"]; Bind ["sess"] ["sagemaker"];
      Bind ["bucket"] ["sess"]; Bind ["region"] ["sess"];
      Bind ["sm_client"] ["boto3"]; Bind ["sm_runtime"] ["boto3"] ];
    [ Bind ["HF_TOKEN"] []; Bind ["model_id"] [];
      Bind ["model_id_pathsafe"] ["model_id"];
      Bind ["local_model_path"] ["model_id_pathsafe"];
      Bind ["s3_model_path"] ["bucket"; "model_id_pathsafe"] ];
    [ Bind ["snapshot_download"] [];
      Eval ["snapshot_download"; "model_id"; "HF_TOKEN"; "local_model_path"] ];
    [ Shell [Lit "aws s3 cp --recursive "; Field "local_model_path"; Lit " ";
             Field "s3_model_path"] ];
    [ Bind ["inference_image_uri"] []; Eval ["print"; "inference_image_uri"] ];
    [ Bind ["env"] ["s3_model_path"]; Eval ["env"] ];
    [ Bind ["model_name"] ["sagemaker"]; Eval ["print"; "model_name"] ];
    [ Bind ["create_model_response"]
        ["sm_client"; "model_name"; "role"; "inference_image_uri"; "env"];
      Bind ["model_arn"] ["create_model_response"];
      Eval ["print"; "model_arn"] ];
    [ Bind ["endpoint_config_name"] ["model_name"];
      Bind ["variant_name"] []; Bind ["instance_type"] [];
      Bind ["model_data_download_timeout_in_seconds"] [];
      Bind ["container_startup_health_check_timeout_in_seconds"] [];
      Bind ["initial_instance_count"] [] ];
    [ Bind ["create_endpoint_config_response"]
        ["sm_client"; "endpoint_config_name"; "role"; "variant_name";
         "instance_type"; "initial_instance_count";
         "model_data_download_timeout_in_seconds";
         "container_startup_health_check_timeout_in_seconds"];
      Eval ["print"; "create_endpoint_config_response"] ];
    [ Bind ["endpoint_name"] ["model_name"]; Eval ["print"; "endpoint_name"] ];
    [ Bind ["create_endpoint_response"]
        ["sm_client"; "endpoint_name"; "endpoint_config_name"];
      Eval ["sess"; "endpoint_name"];
      Eval ["print"; "create_endpoint_response"] ];
    [ Bind ["base_inference_component_name"] ["model_name"];
      Eval ["print"; "base_inference_component_name"];
      Bind ["variant_name"] []; Bind ["initial_copy_count"] [];
      Bind ["min_memory_required_in_mb"] [];
      Bind ["number_of_accelerator_devices_required"] [];
      Bind ["base_create_inference_component_response"]
        ["sm_client"; "base_inference_component_name"; "endpoint_name";
         "variant_name"; "model_name";
         "model_data_download_timeout_in_seconds";
         "container_startup_health_check_timeout_in_seconds";
         "min_memory_required_in_mb";
         "number_of_accelerator_devices_required"; "initial_copy_count"];
      Eval ["sess"; "base_inference_component_name"];
      Eval ["print"; "base_create_inference_component_response"] ];
    [ Bind ["urllib"] [];
      Bind ["cw_path"] ["urllib"; "base_inference_component_name"];
      Eval ["print"; "region"; "cw_path"] ];
    [ Bind ["ectsum_adapter_filename"] [];
      Bind ["ectsum_adapter_local_path"] [];
      Bind ["ectsum_adapter_s3_uri"] ["bucket"; "ectsum_adapter_filename"];
      Shell [Lit "tar -cvzf "; Field "ectsum_adapter_filename"; Lit " -C ";
             Field "ectsum_adapter_local_path"; Lit " . "];
      Shell [Lit "aws s3 cp ./"; Field "ectsum_adapter_filename"; Lit " ";
             Field "ectsum_adapter_s3_uri"] ];
    [ Bind ["ic_ectsum_name"] ["base_inference_component_name"];
      Eval ["sm_client"; "ic_ectsum_name"; "endpoint_name";
            "base_inference_component_name"; "ectsum_adapter_s3_uri"];
      Eval ["sess"; "ic_ectsum_name"] ];
    [ Bind ["load_dataset"] []; Bind ["dataset_name"] [];
      Bind ["test_dataset"] ["load_dataset"; "dataset_name"];
      Bind ["test_item"] ["test_dataset"; "range"];
      Bind ["ground_truth_response"] ["test_item"] ];
    [ Bind ["prompt"] ["test_item"] ];
    [ Bind ["component_to_invoke"] ["base_inference_component_name"];
      Bind ["response_model"] invoke_reads;
      Bind ["base_response"] ["json"; "response_model"];
      Eval ["print"; "test_item"]; Eval ["print"; "base_response"] ];
    [ Bind ["component_to_invoke"] ["ic_ectsum_name"];
      Bind ["response_model"] invoke_reads;
      Bind ["adapter_response"] ["json"; "response_model"];
      Eval ["print"; "test_item"]; Eval ["print"; "adapter_response"] ];
    [ Eval ["print"; "test_item"]; Eval ["print"];
      Eval ["print"; "base_response"]; Eval ["print"];
      Eval ["print"; "adapter_response"] ] ].

(** The re-upload cell:
<<
    new_ectsum_adapter_s3_uri = f"s3://{bucket}/lora-adapters/new-ectsum-adapter.tar.gz"

    !aws s3 cp ./adapters/ectsum-adapter.tar.gz {new_prt_adapter_s3_uri}
>> *)
Definition reupload_command : list piece :=
  [Lit "aws s3 cp ./adapters/ectsum-adapter.tar.gz ";
   Field "new_prt_adapter_s3_uri"].

Definition reupload_cell : cell :=
  [ Bind ["new_ectsum_adapter_s3_uri"] ["bucket"];
    Shell reupload_command ].

(** The cells after it. *)
Definition cells_after : list cell :=
  [ [ Bind ["update_inference_component_response"]
        ["sm_client"; "ic_ectsum_name"; "new_ectsum_adapter_s3_uri"];
      Eval ["sess"; "ic_ectsum_name"];
      Eval ["print"; "update_inference_component_response"] ];
    [ Eval ["print"; "region"; "cw_path"] ];
    [ Bind ["component_to_invoke"] ["ic_ectsum_name"];
      Bind ["response_model"] invoke_reads;
      Eval ["response_model"] ];
    [ Eval ["sess"; "ic_ectsum_name"] ];
    [ Eval ["sess"; "base_inference_component_name"] ];
    [ Eval ["sess"; "endpoint_name"]; Eval ["sess"; "endpoint_config_name"];
      Eval ["sess"; "model_name"] ] ].

Definition all_cells : list cell :=
  cells_before ++ [reupload_cell] ++ cells_after.

(** A kernel that has run nothing yet. *)
Definition fresh_kernel : state := mk_state ∅ [].

End Namespace.

(** ** Sample data for runs of the stream loops *)

Module Samples.
Import Py Streams.

Definition quoted (s : string) : string := double_quote ++ s ++ double_quote.

(** [{"choices":[{"delta":{"content":"Hi"},"finish_reason":null}]}] *)
Definition sample_fragment : string :=
  "{" ++ quoted "choices" ++ ":[{" ++ quoted "delta" ++ ":{"
    ++ quoted "content" ++ ":" ++ quoted "Hi" ++ "}," ++ end_marker.

Definition sample_chunk : value :=
  VDict [("choices",
          VList [VDict [("delta", VDict [("content", VStr "Hi")]);
                        ("finish_reason", VNone)]])].

(** [{"token": {"text": "Hello"}}] *)
Definition sample_token_text : string :=
  "{" ++ quoted "token" ++ ": {" ++ quoted "text" ++ ": " ++ quoted "Hello" ++ "}}".

Definition sample_token : value :=
  VDict [("token", VDict [("text", VStr "Hello")])].

Definition sample_json_loads (s : string) : result value :=
  if String.eqb s sample_fragment then Ok sample_chunk
  else if String.eqb s sample_token_text then Ok sample_token
  else Raise (mk_exn JSONDecodeError "Expecting value").

Definition sample_decode (bytes : string) : result string := Ok bytes.

Definition sample_events : iterator stream_event :=
  [ Ok (PayloadPart (Some ("data:" ++ "{" ++ quoted "choices")%string));
    Ok (PayloadPart (Some (":[{" ++ quoted "delta" ++ ":{" ++ quoted "content"
                             ++ ":" ++ quoted "Hi" ++ "}," ++ end_marker)%string));
    Ok (PayloadPart (Some ("data:oops" ++ end_marker)%string));
    Ok (PayloadPart None);
    Ok (PayloadPart (Some "data: [DONE]")) ].

(** What the iterator raises on an error event of the stream. *)
Definition model_stream_error : exn :=
  mk_exn EventStreamError
    "An error occurred (ModelStreamError) when calling the InvokeEndpointWithResponseStream operation".

Definition sample_lines : list (timed_event nat) :=
  [ mk_timed nat (PayloadPart (Some ("data: " ++ sample_token_text)%string)) 103;
    mk_timed nat (PayloadPart (Some "data: {broken")) 104;
    mk_timed nat (PayloadPart (Some ": keep-alive")) 105;
    mk_timed nat (PayloadPart (Some ("data: " ++ sample_token_text)%string)) 107 ].

(** The same events as a stream that delivers them all. *)
Definition sample_stream : iterator (timed_event nat) := map Ok sample_lines.

End Samples.

(** ** The streaming cell of the Llama 3.3 notebook, from start to end
<<
    start_time = time.time()
    first_token_received = False
    ttft = None
    token_count = 0

    print(f"Prompt: {prompt}\n")
    print("Response:", end=' ', flush=True)

    response = client.invoke_endpoint_with_response_stream(...)

    for event in response['Body']:
        ...

    end_time = time.time()
    total_latency = end_time - start_time

    print("\n\nMetrics:")
    print(f"Time to First Token (TTFT): {ttft:.2f} seconds")
    print(f"Total Tokens Generated: {token_count}")
    print(f"Total Latency: {total_latency:.2f} seconds")
>>
    The invocation yields the events of the stream or raises.  The format
    [.2f] of a time is a parameter; applied to [None] it raises. *)

Module StreamingCell.
Import Py Streams.
Local Open Scope py_scope.

(** [str(z)] of an integer. *)
Definition string_of_Z (z : Z) : string := NilZero.string_of_int (Z.to_int z).

Section Cell.

Variable json_loads : string -> result value.
Variable decode : string -> result string.
Variable time : Type.
Variable time_sub : time -> time -> time.
Variable format_2f : time -> string.

(** [f"{ttft:.2f}"] *)
Definition format_ttft (t : option time) : result string :=
  match t with
  | Some x => Ok (format_2f x)
  | None => Raise (mk_exn TypeError
                     "unsupported format string passed to NoneType.__format__")
  end.

(** The statements after the loop. *)
Definition metrics (start_time end_time : time) : M (tgi_state time) unit :=
  let total_latency := time_sub end_time start_time in
  modify (tgi_print time (Text (newline ++ newline ++ "Metrics:"))) ;;
  s <- get ;;
  shown <- lift (format_ttft (ttft time s)) ;;
  modify (tgi_print time (Text ("Time to First Token (TTFT): " ++ shown ++ " seconds"))) ;;
  modify (tgi_print time (Text ("Total Tokens Generated: "
                             ++ string_of_Z (token_count time s)))) ;;
  modify (tgi_print time (Text ("Total Latency: " ++ format_2f total_latency
                             ++ " seconds"))).

Definition streaming_cell (prompt : string) (start_time : time)
    (response : result (iterator (timed_event time))) (end_time : time)
  : M (tgi_state time) unit :=
  modify (tgi_print time (Text ("Prompt: " ++ prompt ++ newline))) ;;
  modify (tgi_print time (Text "Response:")) ;;
  events <- lift response ;;
  tgi_loop json_loads decode time time_sub start_time events ;;
  metrics start_time end_time.

(** The bookkeeping of the loop variables: the first-token flag is set
    exactly when a time to first token has been recorded. *)
Definition first_token_recorded (s : tgi_state time) : Prop :=
  first_token_received time s = true <-> ttft time s <> None.

(** The loop variables once a chunk with a token has been counted:
    [token_count += 1], and the time to first token if it is the first. *)
Definition counted (start_time now : time) (s : tgi_state time)
  : tgi_state time :=
  let s1 := incr_token_count time s in
  if first_token_received time s1 then s1
  else set_first_token time (time_sub now start_time) s1.

(** [chunk['token']['text']] for the chunk an event carries: the event is
    a payload part whose bytes decode to a line that starts with
    ["data: "], and what follows the prefix is JSON. *)
Definition token_text (ev : stream_event) : option value :=
  match payload_bytes ev with
  | Ok bytes =>
      match decode bytes with
      | Ok line =>
          if startswith line "data: " then
            match json_loads (slice_from line 6) with
            | Ok chunk =>
                match getitem chunk "token" with
                | Ok token =>
                    match getitem token "text" with
                    | Ok text => Some text
                    | Raise _ => None
                    end
                | Raise _ => None
                end
            | Raise _ => None
            end
          else None
      | Raise _ => None
      end
  | Raise _ => None
  end.

(** The token texts of a list of events, in order. *)
Definition token_texts (events : list (timed_event time)) : list value :=
  flat_map (fun te => match token_text (event time te) with
                      | Some text => [text]
                      | None => []
                      end) events.

(** What one pass of the loop can do: nothing (the line is skipped or an
    exception leaves before anything is assigned), count and print a
    token, or count a token and fail to print it. *)
Inductive pass_effect (start_time now : time) (s : tgi_state time)
  : completion unit -> tgi_state time -> Prop :=
| pass_skipped : pass_effect start_time now s (Done tt) s
| pass_failed (e : exn) : pass_effect start_time now s (Raised e) s
| pass_printed (text : value) :
    pass_effect start_time now s (Done tt)
      (tgi_print time (Str text) (counted start_time now s))
| pass_counted_then_failed (e : exn) :
    pass_effect start_time now s (Raised e) (counted start_time now s).

End Cell.

End StreamingCell.

(** ** What a polling loop prints and how long it sleeps *)

Module PollingOutput.
Import Polling.

(** The statuses printed, in order. *)
Fixpoint printed_statuses (tr : list event) : list string :=
  match tr with
  | [] => []
  | Print s :: tr' => s :: printed_statuses tr'
  | _ :: tr' => printed_statuses tr'
  end.

(** The seconds spent in [time.sleep]. *)
Definition seconds_slept (tr : list event) : Z :=
  fold_right Z.add 0%Z (sleeps tr).

End PollingOutput.

(** ** The resources alive while a notebook runs

    A table of the resources the calls so far have created and no call has
    deleted, kept while the calls of a notebook are issued in order.  A
    call is dangling when it refers to, or deletes, a resource that is not
    in the table at that point.  The table follows the requests of the
    notebook only: what the platform removes on its own is not in it. *)

Module Lifecycle.
Import Notebooks.

(** [s] without its prefix [prefix], when it starts with it. *)
Fixpoint strip_prefix (prefix s : string) : option string :=
  match prefix, s with
  | EmptyString, _ => Some s
  | String a prefix', String b s' =>
      if Ascii.eqb a b then strip_prefix prefix' s' else None
  | String _ _, EmptyString => None
  end.

(** The resource a [ResourceId] of Application Auto Scaling names. *)
Definition scaled_resource (id : scaling_id) : list resource :=
  match strip_prefix "inference-component/" (ResourceId id) with
  | Some name => [InferenceComponent name]
  | None => []
  end.

Definition policy_of (arn : policy_arn) : resource :=
  ScalingPolicy (fst arn) (snd arn).

(** The resources a call refers to by name, other than those it creates
    or deletes: the configuration of an endpoint, the endpoint and the
    model or base component of an inference component, the component a
    scalable target scales, the target a policy is attached to, the
    policies an alarm triggers and the component it watches. *)
Definition requires (c : call) : list resource :=
  match c with
  | create_endpoint _ config => [EndpointConfig config]
  | create_inference_component _ endpoint (of_model m) =>
      [Endpoint endpoint; Model m]
  | create_inference_component _ endpoint (of_base_component b) =>
      [Endpoint endpoint; InferenceComponent b]
  | deploy_inference_component _ _ endpoint => [Endpoint endpoint]
  | update_inference_component n => [InferenceComponent n]
  | register_scalable_target id => scaled_resource id
  | put_scaling_policy _ _ id => [ScalableTarget id]
  | put_metric_alarm _ actions ic =>
      map policy_of actions ++ [InferenceComponent ic]
  | _ => []
  end.

Definition remove (r : resource) (live : list resource) : list resource :=
  List.filter (fun x => negb (resource_eqb r x)) live.

Record table : Type := mk_table {
  live : list resource;
  dangling : list call
}.

Definition empty : table := mk_table [] [].

Definition refers_to_missing (t : table) (c : call) : bool :=
  existsb (fun r => negb (occurs r (live t))) (requires c ++ deleted c).

Definition step (t : table) (c : call) : table :=
  mk_table
    (fold_right remove (live t) (deleted c) ++ created c)
    (if refers_to_missing t c then dangling t ++ [c] else dangling t).

Definition run (nb : notebook) : table := fold_left step nb empty.

End Lifecycle.

(** ** What the evaluation helper is meant to write

    For a line of the input file that is a dictionary: nothing when it has
    no question, otherwise the line with the answer of the endpoint under
    ["model_output"]. *)

Module EvalSpec.
Import Py EvalFiles.

Definition payload_of (question : value) : value :=
  VDict [("inputs", question); ("parameters", default_parameters)].

Definition answered_line (answer : value -> value)
    (items : list (string * value)) : list value :=
  match assoc "question" items with
  | Some question =>
      [VDict (assoc_set "model_output" (answer (payload_of question)) items)]
  | None => []
  end.

Definition answered_file (answer : value -> value) (file : string)
    (lines : list (list (string * value))) : list (string * value) :=
  map (pair file) (flat_map (answered_line answer) lines).

(** A record the helper may write to [file]: a dictionary with a question
    and a model output. *)
Definition well_formed_record (file : string) (record : string * value) : Prop :=
  fst record = file
  /\ exists items question model_output,
       snd record = VDict items
       /\ assoc "question" items = Some question
       /\ assoc "model_output" items = Some model_output.

End EvalSpec.

(** * Properties *)

(** ** Status-polling loops *)

Section PollingFacts.
Import Polling.

Variable api : describe_api.
Variable name : string.
Variable platform : nat -> string.

Lemma is_terminal_spec (status : string) :
  is_terminal status = true <-> status = "InService" \/ status = "Failed".
Proof.
  unfold is_terminal; simpl.
  rewrite !orb_true_iff, !String.eqb_eq. intuition discriminate.
Qed.

Lemma iteration_break (status : string) :
  is_terminal status = true ->
  iteration api name status = ([Describe api name; Print status; Flush], Break).
Proof. intros H. unfold iteration. now rewrite H. Qed.

Lemma iteration_continue (status : string) :
  is_terminal status = false ->
  iteration api name status =
    ([Describe api name; Print status; Flush; Sleep 30%Z], Continue).
Proof. intros H. unfold iteration. now rewrite H. Qed.

(** The loop leaves at the first terminal status, [d] passes after call [k],
    as soon as the model unfolds more than [d] passes. *)
Lemma while_true_run (d : nat) :
  forall fuel k,
    (forall j, j < d -> is_terminal (platform (k + j)) = false) ->
    is_terminal (platform (k + d)) = true ->
    d < fuel ->
    while_true fuel api name platform k
      = Some (k + d, run_trace api name platform k d).
Proof.
  induction d as [|d IH]; intros fuel k Hwait Hterm Hfuel.
  - destruct fuel as [|fuel]; [lia|]. simpl.
    rewrite Nat.add_0_r in Hterm. rewrite (iteration_break _ Hterm).
    unfold run_trace, breaking_pass. simpl. now rewrite Nat.add_0_r.
  - destruct fuel as [|fuel]; [lia|]. simpl.
    assert (H0 : is_terminal (platform k) = false).
    { specialize (Hwait 0). rewrite Nat.add_0_r in Hwait. apply Hwait. lia. }
    rewrite (iteration_continue _ H0).
    rewrite (IH fuel (S k)).
    + unfold run_trace. simpl. now rewrite Nat.add_succ_r.
    + intros j Hj. replace (S k + j) with (k + S j) by lia. apply Hwait. lia.
    + now replace (S k + d) with (k + S d) by lia.
    + lia.
Qed.

(** While no terminal status has been observed the loop is still running. *)
Lemma while_true_waiting (fuel : nat) :
  forall k,
    (forall j, j < fuel -> is_terminal (platform (k + j)) = false) ->
    while_true fuel api name platform k = None.
Proof.
  induction fuel as [|fuel IH]; intros k Hwait; [reflexivity|].
  simpl.
  assert (H0 : is_terminal (platform k) = false).
  { specialize (Hwait 0). rewrite Nat.add_0_r in Hwait. apply Hwait. lia. }
  rewrite (iteration_continue _ H0), IH; [reflexivity|].
  intros j Hj. replace (S k + j) with (k + S j) by lia. apply Hwait. lia.
Qed.

(** A loop that left did so at the first terminal status. *)
Lemma while_true_exit (fuel : nat) :
  forall k n tr,
    while_true fuel api name platform k = Some (n, tr) ->
    exists d, n = k + d /\
      is_terminal (platform (k + d)) = true /\
      (forall j, j < d -> is_terminal (platform (k + j)) = false) /\
      tr = run_trace api name platform k d.
Proof.
  induction fuel as [|fuel IH]; intros k n tr H; [discriminate|].
  simpl in H. destruct (is_terminal (platform k)) eqn:Hk.
  - rewrite (iteration_break _ Hk) in H. injection H as <- <-.
    exists 0. rewrite Nat.add_0_r. repeat split; auto.
    + intros j Hj; lia.
    + unfold run_trace, breaking_pass. simpl. now rewrite Nat.add_0_r.
  - rewrite (iteration_continue _ Hk) in H.
    destruct (while_true fuel api name platform (S k)) as [[n' tr']|] eqn:Hrec;
      [|discriminate].
    injection H as <- <-.
    destruct (IH _ _ _ Hrec) as (d & -> & Hterm & Hwait & ->).
    exists (S d). repeat split.
    + lia.
    + now replace (k + S d) with (S k + d) by lia.
    + intros [|j] Hj.
      * now rewrite Nat.add_0_r.
      * replace (k + S j) with (S k + j) by lia. apply Hwait. lia.
    + unfold run_trace. simpl. now rewrite Nat.add_succ_r.
Qed.

Lemma first_terminal_exists (m : nat) :
  is_terminal (platform m) = true -> exists n, first_terminal platform n.
Proof.
  induction m as [m IH] using lt_wf_ind. intros Hm.
  destruct (forallb (fun k => negb (is_terminal (platform k))) (seq 0 m)) eqn:E.
  - exists m. split; [assumption|]. intros k Hk.
    rewrite forallb_forall in E. specialize (E k).
    rewrite in_seq in E. apply negb_true_iff, E. lia.
  - assert (Hex : exists k, k < m /\ is_terminal (platform k) = true).
    { clear IH Hm. induction m as [|m IHm]; [discriminate|].
      rewrite seq_S, forallb_app in E; simpl in E.
      rewrite andb_true_r in E. apply andb_false_iff in E as [E|E].
      - destruct (IHm E) as (k & Hk & Ht). exists k. split; [lia|assumption].
      - exists m. split; [lia|]. now apply negb_false_iff in E. }
    destruct Hex as (k & Hk & Ht). exact (IH k Hk Ht).
Qed.

Lemma last_printed_app (tr1 tr2 : list event) (s : string) :
  last_printed tr2 = Some s -> last_printed (tr1 ++ tr2) = Some s.
Proof.
  intros H. induction tr1 as [|e tr1 IH]; [assumption|].
  simpl. now rewrite IH.
Qed.

Lemma last_printed_run (k d : nat) :
  last_printed (run_trace api name platform k d) = Some (platform (k + d)).
Proof. unfold run_trace. now apply last_printed_app. Qed.

Lemma sleeps_app (tr1 tr2 : list event) :
  sleeps (tr1 ++ tr2) = sleeps tr1 ++ sleeps tr2.
Proof.
  induction tr1 as [|e tr1 IH]; [reflexivity|].
  destruct e; simpl; now rewrite IH.
Qed.

Lemma describes_app (tr1 tr2 : list event) :
  describes (tr1 ++ tr2) = describes tr1 + describes tr2.
Proof.
  induction tr1 as [|e tr1 IH]; [reflexivity|].
  destruct e; simpl; now rewrite IH.
Qed.

Lemma sleeps_run (d : nat) :
  forall k, sleeps (run_trace api name platform k d) = repeat 30%Z d.
Proof.
  unfold run_trace. induction d as [|d IH]; intros k; [reflexivity|].
  simpl. f_equal. replace (k + S d) with (S k + d) by lia. apply IH.
Qed.

Lemma describes_run (d : nat) :
  forall k, describes (run_trace api name platform k d) = S d.
Proof.
  unfold run_trace. induction d as [|d IH]; intros k; [reflexivity|].
  simpl. f_equal. replace (k + S d) with (S k + d) by lia. apply IH.
Qed.

End PollingFacts.

(** C1.  A pass of a status-polling loop breaks exactly when the status it
    just read is ["InService"] or ["Failed"].  If the statuses the describe
    call returns ever contain one of the two, the loop leaves at the first
    such observation [n]: it is still running after [n] passes and has left
    after [n + 1], the status printed last being the terminal one.  A loop
    that left did so at the first terminal observation.  If no status is
    terminal the loop never leaves. *)
Theorem C1_polling_exit (api : Polling.describe_api) (name : string)
    (platform : nat -> string) :
  (forall status,
      snd (Polling.iteration api name status) = Polling.Break
      <-> status = "InService" \/ status = "Failed")
  /\ ((exists m, Polling.is_terminal (platform m) = true) ->
      exists n,
        Polling.first_terminal platform n
        /\ (forall fuel, fuel <= n ->
              Polling.while_true fuel api name platform 0 = None)
        /\ (forall fuel, n < fuel ->
              Polling.while_true fuel api name platform 0
                = Some (n, Polling.run_trace api name platform 0 n))
        /\ Polling.last_printed (Polling.run_trace api name platform 0 n)
             = Some (platform n))
  /\ (forall fuel n tr,
        Polling.while_true fuel api name platform 0 = Some (n, tr) ->
        Polling.first_terminal platform n
        /\ Polling.last_printed tr = Some (platform n))
  /\ ((forall k, Polling.is_terminal (platform k) = false) ->
      forall fuel, Polling.while_true fuel api name platform 0 = None).
Proof.
  split; [|split; [|split]].
  - intros status. rewrite <- is_terminal_spec. unfold Polling.iteration.
    destruct (Polling.is_terminal status); simpl; split; congruence.
  - intros [m Hm]. destruct (first_terminal_exists platform m Hm) as [n Hn].
    exists n. destruct Hn as [Hterm Hwait]. repeat split; auto.
    + intros fuel Hfuel. apply while_true_waiting.
      intros j Hj. apply Hwait. lia.
    + intros fuel Hfuel.
      exact (while_true_run api name platform n fuel 0 Hwait Hterm Hfuel).
    + apply (last_printed_run api name platform 0 n).
  - intros fuel n tr H.
    destruct (while_true_exit api name platform fuel 0 n tr H)
      as (d & -> & Hterm & Hwait & ->).
    simpl. repeat split; auto.
    apply (last_printed_run api name platform 0 d).
  - intros Hnever fuel. apply while_true_waiting. intros j _. apply Hnever.
Qed.

(** The endpoint is created within two polls: the loop leaves at the third
    describe call. *)
Lemma C1_polling_exit_witness :
  let platform := fun k => if Nat.ltb k 2 then "Creating" else "InService" in
  exists n,
    Polling.first_terminal platform n
    /\ Polling.endpoint_status_loop "demo-endpoint" (S n) platform
         = Some (n, Polling.run_trace Polling.describe_endpoint
                      "demo-endpoint" platform 0 n).
Proof.
  intros platform.
  destruct (C1_polling_exit Polling.describe_endpoint "demo-endpoint" platform)
    as (_ & Hexit & _).
  destruct Hexit as (n & Hfirst & _ & Hrun & _).
  - exists 2. reflexivity.
  - exists n. split; [exact Hfirst|]. apply Hrun. lia.
Defined.

(** C6.  Every pass that does not break ends with one [time.sleep(30)],
    whatever the status and whichever the pass: a loop that left after [n]
    waiting passes slept [n] times 30 seconds, once between each two
    consecutive describe calls.  The loop has no bound on the number of
    passes: for every [n] there are statuses under which it makes [n]
    waiting passes, and while no terminal status shows up it never leaves. *)
Theorem C6_polling_fixed_delay (api : Polling.describe_api) (name : string)
    (platform : nat -> string) :
  (forall status,
      Polling.sleeps (fst (Polling.iteration api name status))
        = if Polling.is_terminal status then [] else [30%Z])
  /\ (forall fuel n tr,
        Polling.while_true fuel api name platform 0 = Some (n, tr) ->
        tr = flat_map (Polling.waiting_pass api name platform) (seq 0 n)
               ++ Polling.breaking_pass api name platform n
        /\ Polling.sleeps tr = repeat 30%Z n
        /\ Polling.describes tr = S n)
  /\ (forall n, exists statuses,
        Polling.while_true (S n) api name statuses 0
          = Some (n, Polling.run_trace api name statuses 0 n))
  /\ ((forall k, Polling.is_terminal (platform k) = false) ->
      forall fuel, Polling.while_true fuel api name platform 0 = None).
Proof.
  split; [|split; [|split]].
  - intros status. unfold Polling.iteration.
    destruct (Polling.is_terminal status); reflexivity.
  - intros fuel n tr H.
    destruct (while_true_exit api name platform fuel 0 n tr H)
      as (d & -> & Hterm & Hwait & ->).
    simpl. repeat split.
    + apply sleeps_run.
    + apply describes_run.
  - intros n. exists (fun k => if Nat.ltb k n then "Creating" else "InService").
    apply (while_true_run api name _ n (S n) 0).
    + intros j Hj. simpl. destruct (Nat.ltb_spec j n); [reflexivity|lia].
    + simpl. rewrite Nat.ltb_irrefl. reflexivity.
    + lia.
  - intros Hnever fuel. apply while_true_waiting. intros j _. apply Hnever.
Qed.

(** Two waiting passes of the scale-out loop: two sleeps of 30 seconds,
    three describe calls. *)
Lemma C6_polling_fixed_delay_witness :
  let platform := fun k => if Nat.ltb k 2 then "Creating" else "InService" in
  exists tr,
    Polling.scale_out_status_loop "demo-ic" 3 platform = Some (2, tr)
    /\ Polling.sleeps tr = [30%Z; 30%Z]
    /\ Polling.describes tr = 3.
Proof.
  intros platform.
  destruct (C6_polling_fixed_delay Polling.describe_inference_component
              "demo-ic" platform) as (_ & Htrace & _).
  eexists. split; [reflexivity|].
  destruct (Htrace 3 2 _ eq_refl) as (_ & Hs & Hd).
  split; [exact Hs | exact Hd].
Defined.

(** ** Creation and cleanup order *)

Section NotebookFacts.
Import Notebooks.

Lemma creations_scale_to_zero (prefix ic model bucket : string) :
  creations (scale_to_zero prefix ic model bucket)
    = [ EndpointConfig (endpoint_config_name prefix);
        Endpoint (endpoint_name prefix);
        Model model;
        InferenceComponent ic;
        ScalableTarget (registered_id ic);
        ScalingPolicy (target_tracking_policy_name ic) (registered_id ic);
        ScalingPolicy (step_scaling_policy_name ic) (registered_id ic);
        MetricAlarm (step_scaling_alarm_name ic) ].
Proof. reflexivity. Qed.

Lemma deletions_scale_to_zero (prefix ic model bucket : string) :
  deletions (scale_to_zero prefix ic model bucket)
    = [ ScalableTarget (registered_id ic);
        MetricAlarm (step_scaling_alarm_name ic);
        ScalingPolicy (step_scaling_policy_name ic)
          (mk_scaling_id "sagemaker" (resource_id ic)
             "sagemaker:variant:DesiredInstanceCount");
        InferenceComponent ic;
        Endpoint (endpoint_name prefix);
        EndpointConfig (endpoint_config_name prefix) ].
Proof. reflexivity. Qed.

Lemma dimensions_differ :
  "sagemaker:inference-component:DesiredCopyCount"
    <> "sagemaker:variant:DesiredInstanceCount".
Proof. discriminate. Qed.

Lemma position_head (r : resource) (l : list resource) :
  resource_eqb r r = true -> position r (r :: l) = Some 0.
Proof. intros H. simpl. now rewrite H. Qed.

End NotebookFacts.

(** C2, as stated, fails on the scale-to-zero notebook: its deletions are
    not the reverse of its creations, and the scalable target, registered
    before the alarm was put, is also deregistered before the alarm is
    deleted. *)
Lemma C2_counterexample :
  let nb := Notebooks.scale_to_zero "DEMO" "ic" "model" "bucket" in
  let target := Notebooks.ScalableTarget (Notebooks.registered_id "ic") in
  let alarm := Notebooks.MetricAlarm (Notebooks.step_scaling_alarm_name "ic") in
  Notebooks.deletions nb <> rev (Notebooks.creations nb)
  /\ Notebooks.precedes target alarm (Notebooks.creations nb) = true
  /\ Notebooks.precedes target alarm (Notebooks.deletions nb) = true.
Proof.
  split; [|split].
  - vm_compute. discriminate.
  - vm_compute. reflexivity.
  - vm_compute. reflexivity.
Qed.

(** C2, amended.  The deletions are the exact reverse of the creations in
    the multi-adapter notebook only.  In the Llama 3.3 notebook [deploy]
    creates a model, an endpoint configuration and an endpoint, and
    [predictor.delete_endpoint(delete_endpoint_config=True)] deletes the
    endpoint configuration and then the endpoint: the order in which the
    two were created, not its reverse, and the model is not deleted.  In
    the scale-to-zero notebook the last cell deletes the inference
    component, the endpoint and the endpoint configuration in the reverse
    of the order in which these three were created, after the autoscaling
    cleanup cell has issued its three requests in the order deregister,
    delete alarms, delete scaling policy.  The quantization notebook
    deletes nothing; the NIM notebooks create nothing themselves and delete
    the model, the endpoint configuration and the endpoint, in that
    order. *)
Theorem C2_cleanup_order :
  (forall model_name,
      Notebooks.deletions (Notebooks.multi_adapter model_name)
        = rev (Notebooks.creations (Notebooks.multi_adapter model_name)))
  /\ (forall model endpoint,
        let nb := Notebooks.llama33 model endpoint in
        Notebooks.creations nb
          = [ Notebooks.Model model; Notebooks.EndpointConfig endpoint;
              Notebooks.Endpoint endpoint ]
        /\ Notebooks.deletions nb
           = [ Notebooks.EndpointConfig endpoint; Notebooks.Endpoint endpoint ]
        /\ Notebooks.deletions nb <> rev (Notebooks.creations nb))
  /\ (forall prefix ic model bucket,
        let nb := Notebooks.scale_to_zero prefix ic model bucket in
        let hosting :=
          [ Notebooks.EndpointConfig (Notebooks.endpoint_config_name prefix);
            Notebooks.Endpoint (Notebooks.endpoint_name prefix);
            Notebooks.InferenceComponent ic ] in
        Notebooks.creations nb
          = [ Notebooks.EndpointConfig (Notebooks.endpoint_config_name prefix);
              Notebooks.Endpoint (Notebooks.endpoint_name prefix);
              Notebooks.Model model;
              Notebooks.InferenceComponent ic ]
            ++ Notebooks.creations
                 [ Notebooks.register_scalable_target (Notebooks.registered_id ic);
                   Notebooks.put_target_tracking_policy ic;
                   Notebooks.put_step_scaling_policy ic;
                   Notebooks.put_step_scaling_alarm ic ]
        /\ Notebooks.deletions nb
           = Notebooks.deletions
               [ Notebooks.cleanup_deregister ic;
                 Notebooks.cleanup_delete_alarms ic;
                 Notebooks.cleanup_delete_scaling_policy ic ]
             ++ rev hosting
        /\ Notebooks.deletions (Notebooks.final_cleanup_cell prefix ic)
           = rev hosting
        /\ Notebooks.deletions nb <> rev (Notebooks.creations nb))
  /\ (forall bucket base_model base quantized_model quantized,
        Notebooks.deletions
          (Notebooks.quantization bucket base_model base quantized_model quantized)
          = [])
  /\ (forall endpoint model config,
        Notebooks.creations (Notebooks.nim endpoint model config) = []
        /\ Notebooks.deletions (Notebooks.nim endpoint model config)
           = [Notebooks.Model model; Notebooks.EndpointConfig config;
              Notebooks.Endpoint endpoint]).
Proof.
  split; [|split; [|split; [|split]]].
  - reflexivity.
  - intros model endpoint nb. subst nb.
    split; [reflexivity|]. split; [reflexivity|].
    simpl. discriminate.
  - intros prefix ic model bucket nb hosting. subst nb hosting.
    split; [reflexivity|]. split; [reflexivity|]. split; [reflexivity|].
    rewrite creations_scale_to_zero, deletions_scale_to_zero.
    simpl. discriminate.
  - reflexivity.
  - split; reflexivity.
Qed.




(** C8.  In the scale-to-zero notebook every [put_scaling_policy] request
    for a step scaling policy is keyed by the scalable dimension
    ["sagemaker:inference-component:DesiredCopyCount"], every
    [delete_scaling_policy] request by
    ["sagemaker:variant:DesiredInstanceCount"]: the two keys differ, and no
    delete request of the notebook names the policy that was put. *)
Theorem C8_scaling_policy_key_mismatch (prefix ic model bucket : string)
    (put_name delete_name : string) (put_id delete_id : Notebooks.scaling_id) :
  In (Notebooks.put_scaling_policy put_name "StepScaling" put_id)
     (Notebooks.scale_to_zero prefix ic model bucket) ->
  In (Notebooks.delete_scaling_policy delete_name delete_id)
     (Notebooks.scale_to_zero prefix ic model bucket) ->
  Notebooks.ScalableDimension put_id
    = "sagemaker:inference-component:DesiredCopyCount"
  /\ Notebooks.ScalableDimension delete_id
     = "sagemaker:variant:DesiredInstanceCount"
  /\ Notebooks.ServiceNamespace put_id = Notebooks.ServiceNamespace delete_id
  /\ Notebooks.ResourceId put_id = Notebooks.ResourceId delete_id
  /\ put_id <> delete_id
  /\ ~ In (Notebooks.ScalingPolicy put_name put_id)
       (Notebooks.deletions (Notebooks.scale_to_zero prefix ic model bucket)).
Proof.
  intros Hput Hdel.
  assert (Hp : put_name = Notebooks.step_scaling_policy_name ic
               /\ put_id = Notebooks.registered_id ic).
  { simpl in Hput.
    repeat (destruct Hput as [Hput|Hput]; try discriminate Hput);
      try contradiction.
    injection Hput as <- <-. split; reflexivity. }
  assert (Hd : delete_id
               = Notebooks.mk_scaling_id "sagemaker" (Notebooks.resource_id ic)
                   "sagemaker:variant:DesiredInstanceCount").
  { simpl in Hdel.
    repeat (destruct Hdel as [Hdel|Hdel]; try discriminate Hdel);
      try contradiction.
    injection Hdel as <- <-. reflexivity. }
  destruct Hp as [-> ->]. subst delete_id.
  repeat split.
  - intros H. apply (f_equal Notebooks.ScalableDimension) in H.
    exact (dimensions_differ H).
  - rewrite deletions_scale_to_zero. simpl.
    intros [H|[H|[H|[H|[H|[H|[]]]]]]]; discriminate H.
Qed.

Lemma C8_scaling_policy_key_mismatch_witness :
  Notebooks.registered_id "ic"
    <> Notebooks.mk_scaling_id "sagemaker" (Notebooks.resource_id "ic")
         "sagemaker:variant:DesiredInstanceCount".
Proof.
  refine (proj1 (proj2 (proj2 (proj2 (proj2
    (C8_scaling_policy_key_mismatch "DEMO" "ic" "model" "bucket"
       (Notebooks.step_scaling_policy_name "ic")
       (Notebooks.step_scaling_policy_name "ic")
       (Notebooks.registered_id "ic")
       (Notebooks.mk_scaling_id "sagemaker" (Notebooks.resource_id "ic")
          "sagemaker:variant:DesiredInstanceCount") _ _)))))).
  - simpl. auto 20.
  - simpl. auto 20.
Defined.

(** ** Sequencing in the monad *)

Section MonadFacts.
Import Py.
Context {S A B : Type}.

Lemma bind_done (c : M S A) (k : A -> M S B) (s s' : S) (a : A) :
  c s = (Done a, s') -> bind c k s = k a s'.
Proof. intros H. unfold bind. now rewrite H. Qed.

(** An exception raised by a statement skips the statements after it. *)
Lemma bind_raised (c : M S A) (k : A -> M S B) (s s' : S) (e : exn) :
  c s = (Raised e, s') -> bind c k s = (Raised e, s').
Proof. intros H. unfold bind. now rewrite H. Qed.

Lemma bind_unfinished (c : M S A) (k : A -> M S B) (s s' : S) :
  c s = (Unfinished, s') -> bind c k s = (Unfinished, s').
Proof. intros H. unfold bind. now rewrite H. Qed.

Lemma try_except_done (c : M S A) (g : exn_class) (h : exn -> M S A)
    (s s' : S) (a : A) :
  c s = (Done a, s') -> try_except c g h s = (Done a, s').
Proof. intros H. unfold try_except. now rewrite H. Qed.

Lemma try_except_caught (c : M S A) (g : exn_class) (h : exn -> M S A)
    (s s' : S) (e : exn) :
  c s = (Raised e, s') -> isinstance e g = true ->
  try_except c g h s = h e s'.
Proof. intros H He. unfold try_except. now rewrite H, He. Qed.


End MonadFacts.

(** Every exception of the model is an instance of [Exception]. *)
Lemma isinstance_Exception (e : Py.exn) : Py.isinstance e Py.Exception = true.
Proof. destruct e as [[] m]; reflexivity. Qed.

(** ** Autoscaling cleanup cell *)

Section CleanupFacts.
Import Py Notebooks Cleanup.
Local Open Scope py_scope.

Variable p : platform.

(** A guarded request: the request is recorded, then either it succeeded,
    or its exception is of the guarded class and the handler prints, or the
    exception leaves the statement. *)
Lemma guarded_request (c : call) (g : exn_class) (done missing : string)
    (s : state) :
  try_except (request p c ;; print done) g (fun _ => print missing) s
    = match p c with
      | None =>
          (Done tt, mk_state (attempted s ++ [c])
                      (printed_lines s ++ [Text done]))
      | Some e =>
          if isinstance e g
          then (Done tt, mk_state (attempted s ++ [c])
                           (printed_lines s ++ [Text missing]))
          else (Raised e, mk_state (attempted s ++ [c]) (printed_lines s))
      end.
Proof.
  unfold try_except, bind, request, print, modify, record_call, ret, raise.
  simpl. destruct (p c) as [e|]; simpl; [|reflexivity].
  destruct (isinstance e g); reflexivity.
Qed.

Lemma guarded_request_tolerated (c : call) (g : exn_class)
    (done missing : string) (s : state) :
  guard c = Some g ->
  tolerated p c = true ->
  try_except (request p c ;; print done) g (fun _ => print missing) s
    = (Done tt, mk_state (attempted s ++ [c])
                  (printed_lines s ++ [reported p c done missing])).
Proof.
  intros Hg Ht. rewrite guarded_request. unfold tolerated, reported in *.
  rewrite Hg in Ht. destruct (p c) as [e|]; [|reflexivity].
  now rewrite Ht.
Qed.

Lemma guarded_request_raises (c : call) (g : exn_class)
    (done missing : string) (s : state) (e : exn) :
  p c = Some e ->
  isinstance e g = false ->
  try_except (request p c ;; print done) g (fun _ => print missing) s
    = (Raised e, mk_state (attempted s ++ [c]) (printed_lines s)).
Proof.
  intros Hc He. rewrite guarded_request, Hc. now rewrite He.
Qed.

End CleanupFacts.

(** C5.  Each of the three requests of the cleanup cell is guarded on its
    own.  When each of them either succeeds or raises the not-found
    exception of its client, the cell ends normally, all three requests
    have been issued in order, and each one has printed its own message,
    the not-found message when it raised.  An exception of any other class
    leaves the cell from the request that raised it: the requests before it
    have been issued, the ones after it have not. *)
Theorem C5_cleanup_guards (p : Cleanup.platform) (ic : string)
    (s : Cleanup.state) :
  let c1 := Notebooks.cleanup_deregister ic in
  let c2 := Notebooks.cleanup_delete_alarms ic in
  let c3 := Notebooks.cleanup_delete_scaling_policy ic in
  let run := Cleanup.autoscaling_cleanup_cell p ic s in
  Cleanup.guard c1 = Some Py.ObjectNotFoundException
  /\ Cleanup.guard c2 = Some Py.ResourceNotFoundException
  /\ Cleanup.guard c3 = Some Py.ObjectNotFoundException
  /\ (Cleanup.tolerated p c1 = true ->
      Cleanup.tolerated p c2 = true ->
      Cleanup.tolerated p c3 = true ->
      fst run = Py.Done tt
      /\ Cleanup.attempted (snd run) = Cleanup.attempted s ++ [c1; c2; c3]
      /\ Cleanup.printed_lines (snd run)
         = Cleanup.printed_lines s
           ++ [ Cleanup.reported p c1 (Cleanup.deregistered_message ic)
                  (Cleanup.target_not_found_message ic);
                Py.Text Cleanup.dashes;
                Cleanup.reported p c2 (Cleanup.alarm_deleted_message ic)
                  (Cleanup.alarm_not_found_message ic);
                Py.Text Cleanup.dashes;
                Cleanup.reported p c3 (Cleanup.policy_deleted_message ic)
                  (Cleanup.policy_not_found_message ic) ])
  /\ (forall e,
        p c1 = Some e ->
        Py.isinstance e Py.ObjectNotFoundException = false ->
        fst run = Py.Raised e
        /\ Cleanup.attempted (snd run) = Cleanup.attempted s ++ [c1])
  /\ (forall e,
        Cleanup.tolerated p c1 = true ->
        p c2 = Some e ->
        Py.isinstance e Py.ResourceNotFoundException = false ->
        fst run = Py.Raised e
        /\ Cleanup.attempted (snd run) = Cleanup.attempted s ++ [c1; c2])
  /\ (forall e,
        Cleanup.tolerated p c1 = true ->
        Cleanup.tolerated p c2 = true ->
        p c3 = Some e ->
        Py.isinstance e Py.ObjectNotFoundException = false ->
        fst run = Py.Raised e
        /\ Cleanup.attempted (snd run) = Cleanup.attempted s ++ [c1; c2; c3]).
Proof.
  intros c1 c2 c3 run.
  assert (G1 : Cleanup.guard c1 = Some Py.ObjectNotFoundException) by reflexivity.
  assert (G2 : Cleanup.guard c2 = Some Py.ResourceNotFoundException) by reflexivity.
  assert (G3 : Cleanup.guard c3 = Some Py.ObjectNotFoundException) by reflexivity.
  split; [exact G1|]. split; [exact G2|]. split; [exact G3|].
  subst run. unfold Cleanup.autoscaling_cleanup_cell,
    Cleanup.deregister_statement, Cleanup.delete_alarms_statement,
    Cleanup.delete_scaling_policy_statement.
  fold c1 c2 c3.
  split; [|split; [|split]].
  - intros T1 T2 T3.
    erewrite bind_done by (apply (guarded_request_tolerated p c1); eauto).
    erewrite bind_done by reflexivity.
    erewrite bind_done by (apply (guarded_request_tolerated p c2); eauto).
    erewrite bind_done by reflexivity.
    rewrite (guarded_request_tolerated p c3 _ _ _ _ G3 T3). simpl.
    rewrite <- !app_assoc. repeat split.
  - intros e Hc He.
    erewrite bind_raised by (apply (guarded_request_raises p c1); eauto).
    split; reflexivity.
  - intros e T1 Hc He.
    erewrite bind_done by (apply (guarded_request_tolerated p c1); eauto).
    erewrite bind_done by reflexivity.
    erewrite bind_raised by (apply (guarded_request_raises p c2); eauto).
    simpl. rewrite <- !app_assoc. split; reflexivity.
  - intros e T1 T2 Hc He.
    erewrite bind_done by (apply (guarded_request_tolerated p c1); eauto).
    erewrite bind_done by reflexivity.
    erewrite bind_done by (apply (guarded_request_tolerated p c2); eauto).
    erewrite bind_done by reflexivity.
    rewrite (guarded_request_raises p c3 _ _ _ _ e Hc He).
    simpl. rewrite <- !app_assoc. split; reflexivity.
Qed.

Lemma C5_cleanup_guards_witness :
  let p := fun c =>
    match c with
    | Notebooks.deregister_scalable_target _ =>
        Some (Py.mk_exn Py.ObjectNotFoundException "No scalable target found")
    | _ => None
    end in
  let run := Cleanup.autoscaling_cleanup_cell p "ic" Cleanup.initial in
  fst run = Py.Done tt
  /\ Cleanup.attempted (snd run)
     = [Notebooks.cleanup_deregister "ic"; Notebooks.cleanup_delete_alarms "ic";
        Notebooks.cleanup_delete_scaling_policy "ic"].
Proof.
  intros p run.
  destruct (C5_cleanup_guards p "ic" Cleanup.initial) as (_ & _ & _ & H & _).
  destruct H as (H1 & H2 & _); try reflexivity.
  split; [exact H1 | exact H2].
Defined.

(** ** Streaming-response loops *)

Section StreamFacts.
Import Py Streams.
Local Open Scope py_scope.

Variable json_loads : string -> result value.
Variable decode : string -> result string.
Variable time : Type.
Variable time_sub : time -> time -> time.

Local Abbreviation tgi_body := (Streams.tgi_body json_loads decode time time_sub).
Local Abbreviation tgi_try := (Streams.tgi_try json_loads time time_sub).
Local Abbreviation nim_try := (Streams.nim_try json_loads).
Local Abbreviation nim_fragment := (Streams.nim_fragment json_loads).
Local Abbreviation nim_while := (Streams.nim_while json_loads).
Local Abbreviation nim_outer_try := (Streams.nim_outer_try json_loads decode).
Local Abbreviation nim_body := (Streams.nim_body json_loads decode).
Local Abbreviation nim_loop := (Streams.nim_loop json_loads decode).

(** A fragment that fails to decode leaves the [try] block at its first
    statement. *)
Lemma tgi_try_decode_error (start now : time) (line : string) (e : exn)
    (s : tgi_state time) :
  json_loads (slice_from line 6) = Raise e ->
  tgi_try start now line s = (Raised e, s).
Proof. intros H. unfold Streams.tgi_try, bind, lift. now rewrite H. Qed.

Lemma nim_try_decode_error (full_response : string) (e : exn) (s : nim_state) :
  json_loads full_response = Raise e ->
  nim_try full_response s = (Raised e, s).
Proof. intros H. unfold Streams.nim_try, bind, lift. now rewrite H. Qed.

Lemma nim_fragment_skips (full_response : string) (e : exn) (s : nim_state) :
  json_loads full_response = Raise e ->
  isinstance e JSONDecodeError = true ->
  nim_fragment full_response s = (Done tt, s).
Proof.
  intros H He. unfold Streams.nim_fragment.
  now rewrite (try_except_caught _ _ _ s s e (nim_try_decode_error _ _ _ H) He).
Qed.

(** The inner [try] statement never touches [accumulated_data] and never
    stays unfinished. *)
Lemma nim_fragment_accumulated (full_response : string) (s : nim_state) :
  accumulated_data (snd (nim_fragment full_response s)) = accumulated_data s
  /\ fst (nim_fragment full_response s) <> Unfinished.
Proof.
  unfold Streams.nim_fragment, Streams.nim_try, try_except, bind, lift, ret,
    raise, modify.
  destruct (json_loads full_response) as [data|e]; simpl.
  2: { destruct (isinstance e JSONDecodeError); simpl; split; congruence. }
  destruct (dict_get data "choices" _) as [choices|e]; simpl.
  2: { destruct (isinstance e JSONDecodeError); simpl; split; congruence. }
  destruct (getitem0 choices) as [choice|e]; simpl.
  2: { destruct (isinstance e JSONDecodeError); simpl; split; congruence. }
  destruct (dict_get choice "delta" _) as [delta|e]; simpl.
  2: { destruct (isinstance e JSONDecodeError); simpl; split; congruence. }
  destruct (dict_get delta "content" _) as [content|e]; simpl.
  2: { destruct (isinstance e JSONDecodeError); simpl; split; congruence. }
  destruct (truthy content); simpl; split; congruence.
Qed.






End StreamFacts.

(** C4.  In the token streaming loop, an event whose line starts with
    ["data: "] and whose text fails to decode with [JSONDecodeError] leaves
    the body normally with the state it found ([token_count],
    [first_token_received], [ttft] and the printed output), and the loop
    goes on with the next event.  In the loops of the NIM notebooks, a pass
    of the [while] loop whose fragment fails to decode ends normally,
    prints nothing, and the loop goes on with the rest of the accumulated
    data. *)
Theorem C4_decode_failure_skipped
    (json_loads : string -> Py.result Py.value)
    (decode : string -> Py.result string)
    (time : Type) (time_sub : time -> time -> time) :
  (forall (start : time) (te : Streams.timed_event time) bytes line e
          (s : Streams.tgi_state time) rest,
      Streams.payload_bytes (Streams.event time te) = Py.Ok bytes ->
      decode bytes = Py.Ok line ->
      Py.startswith line "data: " = true ->
      json_loads (Py.slice_from line 6) = Py.Raise e ->
      Py.isinstance e Py.JSONDecodeError = true ->
      Streams.tgi_body json_loads decode time time_sub start te s
        = (Py.Done tt, s)
      /\ Streams.tgi_loop json_loads decode time time_sub start
           (Py.Ok te :: rest) s
         = Streams.tgi_loop json_loads decode time time_sub start rest s)
  /\ (forall fuel (s : Streams.nim_state) e,
        let a := Streams.accumulated_data s in
        let s' := Streams.set_accumulated
                    (Py.slice_from a (Streams.nim_end_idx a)) s in
        Streams.markers_present a = true ->
        json_loads (Streams.nim_full_response a) = Py.Raise e ->
        Py.isinstance e Py.JSONDecodeError = true ->
        Streams.nim_fragment json_loads (Streams.nim_full_response a) s'
          = (Py.Done tt, s')
        /\ Streams.nim_printed s' = Streams.nim_printed s
        /\ Streams.nim_while json_loads (S fuel) s
           = Streams.nim_while json_loads fuel s').
Proof.
  split.
  - intros start te bytes line e s rest Hbytes Hline Hprefix Hjson He.
    assert (Hbody : Streams.tgi_body json_loads decode time time_sub start te s
                    = (Py.Done tt, s)).
    { unfold Streams.tgi_body, Py.bind at 1. rewrite Hbytes. simpl.
      unfold Py.bind at 1. rewrite Hline. simpl. rewrite Hprefix.
      rewrite (try_except_caught _ _ _ s s e); auto.
      apply tgi_try_decode_error. exact Hjson. }
    split; [exact Hbody|].
    unfold Streams.tgi_loop. simpl.
    now rewrite (bind_done _ _ s s tt Hbody).
  - intros fuel s e a s' Hm Hjson He.
    assert (Hfrag : Streams.nim_fragment json_loads
                      (Streams.nim_full_response a) s' = (Py.Done tt, s'))
      by (apply (nim_fragment_skips json_loads _ e); assumption).
    split; [exact Hfrag|]. split; [reflexivity|].
    simpl. fold a. rewrite Hm.
    unfold Py.bind at 1. unfold Py.modify at 1. fold s'.
    now rewrite (bind_done _ _ s' s' tt Hfrag).
Qed.

(** A line that is not JSON, and accumulated data whose fragment is not
    JSON: the states are untouched and the loops go on. *)
Lemma C4_decode_failure_skipped_witness :
  let json_loads := fun _ : string =>
    Py.Raise (Py.mk_exn Py.JSONDecodeError "Expecting value") in
  let decode := fun b : string => Py.Ok b in
  let te := Streams.mk_timed nat (Streams.PayloadPart (Some "data: {broken")) 5 in
  let s := Streams.mk_nim
             ("data:oops" ++ Streams.end_marker ++ "data:") [] in
  Streams.tgi_body json_loads decode nat Nat.sub 0 te (Streams.tgi_initial nat)
    = (Py.Done tt, Streams.tgi_initial nat)
  /\ Streams.nim_while json_loads 1 s
     = (Py.Done tt, Streams.mk_nim "data:" []).
Proof.
  intros json_loads decode te s.
  destruct (C4_decode_failure_skipped json_loads decode nat Nat.sub)
    as [Htgi Hnim].
  split.
  - refine (proj1 (Htgi 0 te "data: {broken" "data: {broken" _
                     (Streams.tgi_initial nat) [] _ _ _ _ _));
      reflexivity.
  - destruct (Hnim 0 s (Py.mk_exn Py.JSONDecodeError "Expecting value"))
      as (_ & _ & Hwhile); [reflexivity ..|].
    rewrite Hwhile. reflexivity.
Defined.

(** ** Statements without [while] loops end *)

Section Finishes.
Import Py.
Context {S : Type}.

Lemma finishes_ret {A} (a : A) : finishes (@ret S A a).
Proof. intros s. simpl. congruence. Qed.

Lemma finishes_raise {A} (e : exn) : finishes (@raise S A e).
Proof. intros s. simpl. congruence. Qed.

Lemma finishes_lift {A} (r : result A) : finishes (@lift S A r).
Proof. destruct r; [apply finishes_ret | apply finishes_raise]. Qed.

Lemma finishes_modify (f : S -> S) : finishes (modify f).
Proof. intros s. simpl. congruence. Qed.

Lemma finishes_get : finishes (@get S).
Proof. intros s. simpl. congruence. Qed.

Lemma finishes_bind {A B} (c : M S A) (k : A -> M S B) :
  finishes c -> (forall a, finishes (k a)) -> finishes (bind c k).
Proof.
  intros Hc Hk s. unfold bind. specialize (Hc s).
  destruct (c s) as [[a|e|] s']; simpl in *; [apply Hk | congruence ..].
Qed.

Lemma finishes_try_except {A} (c : M S A) (g : exn_class) (h : exn -> M S A) :
  finishes c -> (forall e, finishes (h e)) -> finishes (try_except c g h).
Proof.
  intros Hc Hh s. unfold try_except. specialize (Hc s).
  destruct (c s) as [[a|e|] s']; simpl in *; [congruence| |congruence].
  destruct (isinstance e g); [apply Hh | simpl; congruence].
Qed.

Lemma finishes_for_each {A} (xs : list A) (body : A -> M S unit) :
  (forall x, finishes (body x)) -> finishes (for_each xs body).
Proof.
  intros Hbody. induction xs as [|x xs IH]; simpl.
  - apply finishes_ret.
  - apply finishes_bind; [apply Hbody | intros _; exact IH].
Qed.

Lemma finishes_if {A} (b : bool) (c1 c2 : M S A) :
  finishes c1 -> finishes c2 -> finishes (if b then c1 else c2).
Proof. destruct b; auto. Qed.


End Finishes.

Create HintDb finishes.

#[local] Hint Resolve finishes_ret finishes_raise finishes_lift finishes_modify
  finishes_get finishes_for_each finishes_try_except finishes_if : finishes.

Ltac finishes :=
  repeat first
    [ apply finishes_bind; [|intros ?]
    | apply finishes_if
    | solve [auto with finishes] ].

(** ** Evaluation helper *)

Section EvalFacts.
Import Py EvalFiles.
Local Open Scope py_scope.

Variable e : env.

Lemma finishes_create_payload {S} (prompt parameters : value) :
  finishes (@create_payload S prompt parameters).
Proof. unfold create_payload. finishes. Qed.

Lemma finishes_eval_line (endpoint_name file : string) (item : result value) :
  finishes (eval_line e endpoint_name file item).
Proof.
  unfold eval_line. finishes.
Qed.

Lemma finishes_create_eval_files_try (endpoint_name file input : string) :
  finishes (create_eval_files_try e endpoint_name file input).
Proof.
  unfold create_eval_files_try. finishes.
  apply finishes_for_each. intros item. apply finishes_eval_line.
Qed.

(** The function, by the way its [try] block ends. *)
Lemma create_eval_files_run (endpoint_name file input : string) (s : state) :
  create_eval_files e endpoint_name file input s
    = match create_eval_files_try e endpoint_name file input s with
      | (Done _, s') =>
          (Done VNone,
           print (Text ("Created Model Outputs File: " ++ file)) s')
      | (Raised err, s') =>
          (Done VNone,
           print (Text ("Created Model Outputs File: " ++ file))
             (print (Text ("An error occurred: " ++ msg err)) s'))
      | (Unfinished, s') => (Unfinished, s')
      end.
Proof.
  unfold create_eval_files, bind, try_except, modify, ret.
  destruct (create_eval_files_try e endpoint_name file input s)
    as [[[]|err|] s']; simpl; try reflexivity.
  now rewrite isinstance_Exception.
Qed.

Lemma create_eval_files_None (endpoint_name file input : string) (s : state) :
  exists s',
    create_eval_files e endpoint_name file input s = (Done VNone, s')
    /\ exists before,
         printed_lines s'
           = before ++ [Text ("Created Model Outputs File: " ++ file)].
Proof.
  rewrite create_eval_files_run.
  pose proof (finishes_create_eval_files_try endpoint_name file input s) as Hfin.
  destruct (create_eval_files_try e endpoint_name file input s)
    as [[[]|err|] s']; simpl in Hfin; try congruence.
  - eexists. split; [reflexivity|]. simpl. eexists. reflexivity.
  - eexists. split; [reflexivity|]. simpl. eexists. reflexivity.
Qed.

End EvalFacts.

(** C10.  [create_eval_files] has no [return] statement: whatever the
    files and the endpoint do, the call ends normally with [None], the
    completion message being the last line printed; so the cell binds
    [quantized_model_output_file] and [base_model_output_file] to [None]. *)
Theorem C10_create_eval_files_returns_None (e : EvalFiles.env)
    (endpoint_name model_outputs_file input_file : string)
    (s : EvalFiles.state) :
  (exists s',
      EvalFiles.create_eval_files e endpoint_name model_outputs_file
        input_file s = (Py.Done Py.VNone, s')
      /\ exists before,
           EvalFiles.printed_lines s'
             = before ++ [Py.Text ("Created Model Outputs File: "
                                     ++ model_outputs_file)])
  /\ (forall quantized_endpoint base_endpoint,
        fst (EvalFiles.eval_cell e quantized_endpoint base_endpoint s)
          = Py.Done (Py.VNone, Py.VNone)).
Proof.
  split; [apply create_eval_files_None|].
  intros q b. unfold EvalFiles.eval_cell.
  destruct (create_eval_files_None e q "quantized_model_outputs.jsonl"
              EvalFiles.default_input_file s) as (s1 & H1 & _).
  rewrite (bind_done _ _ s s1 _ H1).
  destruct (create_eval_files_None e b "base_model_outputs.jsonl"
              EvalFiles.default_input_file s1) as (s2 & H2 & _).
  now rewrite (bind_done _ _ s1 s2 _ H2).
Qed.

(** ** Handlers that catch and continue *)

Section HandlerFacts.
Import Py Streams.
Local Open Scope py_scope.

Variable json_loads : string -> result value.
Variable decode : string -> result string.





End HandlerFacts.




(** ** Names of the multi-adapter notebook *)

Section NamespaceFacts.
Import Py Namespace.
Local Open Scope py_scope.

Lemma lookup_name_run (name : string) (s : state) :
  lookup_name name s
    = (if bool_decide (name ∈ user_ns s ∪ builtins) then Done tt
       else Raised (mk_exn NameError ("name '" ++ name ++ "' is not defined")),
       s).
Proof.
  unfold lookup_name, bind, get. destruct (bool_decide _); reflexivity.
Qed.

Lemma lookup_names_run (names : list string) (s : state) :
  exists r, for_each names lookup_name s = (r, s) /\ r <> Unfinished.
Proof.
  induction names as [|n names IH]; simpl.
  - eexists. split; [reflexivity|congruence].
  - unfold bind. rewrite lookup_name_run.
    destruct (bool_decide _); [exact IH|].
    eexists. split; [reflexivity|congruence].
Qed.

Lemma vformat_run (cmd : list piece) (s : state) :
  exists r, vformat cmd s = (r, s) /\ r <> Unfinished.
Proof.
  induction cmd as [|[text|name] cmd IH]; simpl.
  - eexists. split; [reflexivity|congruence].
  - unfold bind. destruct IH as (r & -> & Hr).
    destruct r; eexists; (split; [reflexivity|congruence]).
  - unfold bind. rewrite lookup_name_run.
    destruct (bool_decide _).
    + destruct IH as (r & -> & Hr).
      destruct r; eexists; (split; [reflexivity|congruence]).
    + eexists. split; [reflexivity|congruence].
Qed.

(** The expansion never raises and leaves the namespace alone. *)
Lemma var_expand_done (cmd : list piece) (s : state) :
  exists words, var_expand cmd s = (Done words, s).
Proof.
  unfold var_expand, try_except.
  destruct (vformat_run cmd s) as (r & -> & Hr).
  destruct r as [words|e|]; [eauto| |congruence].
  rewrite isinstance_Exception. simpl. eauto.
Qed.

(** A field that names nothing leaves the command as written. *)
Lemma var_expand_unbound (cmd : list piece) (name : string) (s : state) :
  name ∉ user_ns s ∪ builtins ->
  In (Field name) cmd ->
  var_expand cmd s = (Done (untransformed cmd), s).
Proof.
  intros Hn Hin. unfold var_expand, try_except.
  assert (H : exists e, vformat cmd s = (Raised e, s)).
  { induction cmd as [|[text|n] cmd IH]; simpl in *; [contradiction| |].
    - destruct Hin as [Hin|Hin]; [discriminate|].
      destruct (IH Hin) as [e He]. exists e. unfold bind. now rewrite He.
    - unfold bind. rewrite lookup_name_run.
      destruct (bool_decide (n ∈ user_ns s ∪ builtins)) eqn:Hb.
      + destruct Hin as [Hin|Hin].
        * injection Hin as ->. apply bool_decide_eq_true in Hb. contradiction.
        * destruct (IH Hin) as [e He]. exists e. now rewrite He.
      + eauto. }
  destruct H as [e He]. rewrite He, isinstance_Exception. reflexivity.
Qed.

(** A statement that ends normally has bound its targets, and nothing
    else. *)
Lemma exec_stmt_names (st : stmt) (s s' : state) :
  exec_stmt st s = (Done tt, s') ->
  user_ns s' = user_ns s ∪ list_to_set (targets_of st).
Proof.
  destruct st as [targets reads|reads|command]; simpl.
  - unfold bind. destruct (lookup_names_run reads s) as (r & -> & Hr).
    destruct r as [[]|e|]; intros H; [|discriminate..].
    injection H as <-. reflexivity.
  - destruct (lookup_names_run reads s) as (r & -> & Hr).
    intros H. injection H as _ <-. set_solver.
  - unfold bind. destruct (var_expand_done command s) as [words ->].
    simpl. intros H. injection H as <-. simpl. set_solver.
Qed.

Lemma exec_cell_names (c : cell) :
  forall s s',
    exec_cell c s = (Done tt, s') ->
    user_ns s' = user_ns s ∪ list_to_set (flat_map targets_of c).
Proof.
  unfold exec_cell. induction c as [|st c IH]; intros s s'; simpl.
  - intros H. injection H as <-. set_solver.
  - unfold bind. destruct (exec_stmt st s) as [[[]|e|] s1] eqn:Hst;
      [|discriminate..].
    intros H. rewrite (IH _ _ H), (exec_stmt_names _ _ _ Hst).
    rewrite list_to_set_app_L. set_solver.
Qed.

Lemma exec_cells_names (cs : list cell) :
  forall s s',
    exec_cells cs s = (Done tt, s') ->
    user_ns s' = user_ns s ∪ list_to_set (bound_names cs).
Proof.
  unfold exec_cells, bound_names.
  induction cs as [|c cs IH]; intros s s'; simpl.
  - intros H. injection H as <-. set_solver.
  - unfold bind. destruct (exec_cell c s) as [[[]|e|] s1] eqn:Hc;
      [|discriminate..].
    intros H. rewrite (IH _ _ H), (exec_cell_names _ _ _ Hc).
    rewrite list_to_set_app_L. set_solver.
Qed.

Lemma not_bound (name : string) (cs : list cell) :
  existsb (String.eqb name) (bound_names cs) = false ->
  ~ In name (bound_names cs).
Proof.
  intros H Hin. apply not_true_iff_false in H. apply H.
  apply existsb_exists. exists name. split; [assumption|apply String.eqb_refl].
Qed.

End NamespaceFacts.

(** C9, as stated, fails: run from a fresh kernel, the cells up to and
    including the re-upload cell end normally.  The lookup of
    [new_prt_adapter_s3_uri] fails inside the expansion of the [!aws]
    line, which swallows the failure and hands the line to the shell as
    written. *)
Lemma C9_counterexample :
  let run := Namespace.exec_cells
               (Namespace.cells_before ++ [Namespace.reupload_cell])
               Namespace.fresh_kernel in
  fst run = Py.Done tt
  /\ List.last (Namespace.shell_commands (snd run)) []
     = [Namespace.Plain
          "aws s3 cp ./adapters/ectsum-adapter.tar.gz {new_prt_adapter_s3_uri}"].
Proof.
  split; vm_compute; reflexivity.
Qed.

Section ReuploadFacts.
Import Py Namespace.

Lemma bound (name : string) (cs : list cell) :
  existsb (String.eqb name) (bound_names cs) = true ->
  In name (bound_names cs).
Proof.
  intros H. apply existsb_exists in H as (n & Hin & Heq).
  apply String.eqb_eq in Heq. now subst n.
Qed.

Lemma lookup_name_bound (name : string) (s : state) :
  name ∈ user_ns s -> lookup_name name s = (Done tt, s).
Proof.
  intros H. rewrite lookup_name_run, bool_decide_eq_true_2; [reflexivity|].
  set_solver.
Qed.

Lemma lookup_name_unbound (name : string) (s : state) :
  name ∉ user_ns s ∪ builtins ->
  lookup_name name s
    = (Raised (mk_exn NameError ("name '" ++ name ++ "' is not defined")), s).
Proof.
  intros H. now rewrite lookup_name_run, bool_decide_eq_false_2.
Qed.

Lemma new_prt_not_builtin : "new_prt_adapter_s3_uri" ∉ builtins.
Proof.
  unfold builtins. rewrite elem_of_union, !elem_of_singleton.
  intros [H|H]; discriminate H.
Qed.

(** The re-upload cell, run where [bucket] is bound and
    [new_prt_adapter_s3_uri] is not. *)
Lemma reupload_cell_run (s : state) :
  "bucket" ∈ user_ns s ->
  "new_prt_adapter_s3_uri" ∉ user_ns s ->
  exec_cell reupload_cell s
    = (Done tt,
       run_shell (untransformed reupload_command)
         (bind_names ["new_ectsum_adapter_s3_uri"] s)).
Proof.
  intros Hbucket Hprt. unfold exec_cell, reupload_cell. simpl.
  unfold bind at 1. unfold bind at 1. unfold bind at 1.
  rewrite (lookup_name_bound _ _ Hbucket). simpl.
  unfold bind at 1. unfold bind at 1.
  rewrite (var_expand_unbound reupload_command "new_prt_adapter_s3_uri").
  - reflexivity.
  - simpl. rewrite !elem_of_union, elem_of_singleton.
    intros [[H|[H|H]]|H].
    + contradiction.
    + discriminate H.
    + now apply elem_of_empty in H.
    + now apply new_prt_not_builtin.
  - simpl. auto.
Qed.

End ReuploadFacts.

(** C9, amended.  No cell of the multi-adapter notebook binds
    [new_prt_adapter_s3_uri]; the re-upload cell binds
    [new_ectsum_adapter_s3_uri] only.  In every execution in which the
    cells before it ran as written, from a kernel where the name is not
    bound, the name is unbound when the cell runs and evaluating it raises
    [NameError]; the cell itself does not raise: the expansion of its
    [!aws] line swallows the failed lookup and the shell receives the line
    as written, with the field unexpanded. *)
Theorem C9_reupload_cell (s0 s : Namespace.state) :
  "new_prt_adapter_s3_uri" ∉ Namespace.user_ns s0 ->
  Namespace.exec_cells Namespace.cells_before s0 = (Py.Done tt, s) ->
  ~ In "new_prt_adapter_s3_uri" (Namespace.bound_names Namespace.all_cells)
  /\ ("new_prt_adapter_s3_uri" ∉ Namespace.user_ns s)
  /\ Namespace.exec_stmt (Namespace.Eval ["new_prt_adapter_s3_uri"]) s
     = (Py.Raised (Py.mk_exn Py.NameError
                     "name 'new_prt_adapter_s3_uri' is not defined"), s)
  /\ exists s',
       Namespace.exec_cell Namespace.reupload_cell s = (Py.Done tt, s')
       /\ Namespace.user_ns s'
          = Namespace.user_ns s ∪ {[ "new_ectsum_adapter_s3_uri" ]}
       /\ Namespace.shell_commands s'
          = Namespace.shell_commands s
            ++ [[Namespace.Plain
                   "aws s3 cp ./adapters/ectsum-adapter.tar.gz {new_prt_adapter_s3_uri}"]].
Proof.
  intros H0 Hrun.
  pose proof (exec_cells_names _ _ _ Hrun) as Hns.
  assert (Hprt : "new_prt_adapter_s3_uri" ∉ Namespace.user_ns s).
  { rewrite Hns, elem_of_union, elem_of_list_to_set, list_elem_of_In.
    intros [H|H]; [contradiction|].
    revert H. apply not_bound. reflexivity. }
  assert (Hbucket : "bucket" ∈ Namespace.user_ns s).
  { rewrite Hns, elem_of_union, elem_of_list_to_set, list_elem_of_In.
    right. apply bound. reflexivity. }
  split; [apply not_bound; reflexivity|].
  split; [exact Hprt|].
  split.
  - simpl. unfold Py.bind.
    rewrite lookup_name_unbound; [reflexivity|].
    rewrite elem_of_union. intros [H|H]; [contradiction|].
    now apply new_prt_not_builtin.
  - eexists. split; [apply reupload_cell_run; assumption|].
    split; [|reflexivity].
    simpl. now rewrite union_empty_r_L.
Qed.

Lemma C9_reupload_cell_witness :
  let s := snd (Namespace.exec_cells Namespace.cells_before
                  Namespace.fresh_kernel) in
  Namespace.exec_stmt (Namespace.Eval ["new_prt_adapter_s3_uri"]) s
    = (Py.Raised (Py.mk_exn Py.NameError
                    "name 'new_prt_adapter_s3_uri' is not defined"), s)
  /\ exists s',
       Namespace.exec_cell Namespace.reupload_cell s = (Py.Done tt, s').
Proof.
  intros s.
  assert (Hfresh : "new_prt_adapter_s3_uri"
                     ∉ Namespace.user_ns Namespace.fresh_kernel)
    by apply not_elem_of_empty.
  assert (Hrun : Namespace.exec_cells Namespace.cells_before
                   Namespace.fresh_kernel = (Py.Done tt, s)).
  { assert (Hfst : fst (Namespace.exec_cells Namespace.cells_before
                             Namespace.fresh_kernel) = Py.Done tt)
      by (vm_compute; reflexivity).
    subst s. rewrite (surjective_pairing (Namespace.exec_cells _ _)) at 1.
    now rewrite Hfst. }
  destruct (C9_reupload_cell Namespace.fresh_kernel s Hfresh Hrun)
    as (_ & _ & Heval & s' & Hcell & _).
  split; [exact Heval|]. exists s'. exact Hcell.
Defined.

(** ** Runs on sample inputs *)

Section SampleRuns.
Import Py Streams Samples.

Example is_terminal_samples :
  map Polling.is_terminal ["Creating"; "InService"; "Updating"; "Failed"; "inservice"]
    = [false; true; false; true; false].
Proof. reflexivity. Qed.

Example slice_samples :
  slice "abcdef" 2 4 = "cd"
  /\ slice "abc" 5 2 = ""
  /\ slice_from "data: x" 6 = "x"
  /\ slice_from "abc" 7 = ""
  /\ find "xxdata:" "data:" = 2%Z
  /\ find "abc" "z" = (-1)%Z
  /\ String.length end_marker = 23.
Proof. repeat split; reflexivity. Qed.

(** A fragment split over two events, followed by a fragment that is not
    JSON and by the end of the stream. *)
Example nim_loop_sample :
  nim_loop sample_json_loads sample_decode sample_events nim_initial
  = (Done tt, mk_nim "data: [DONE]" [Str (VStr "Hi")]).
Proof. vm_compute. reflexivity. Qed.

(** A payload that is not UTF-8: the handler of the event prints and the
    loop goes on. *)
Example nim_loop_undecodable :
  nim_loop sample_json_loads
    (fun _ => Raise (mk_exn UnicodeDecodeError "invalid start byte"))
    [ Ok (PayloadPart (Some "data:x")); Ok (PayloadPart None) ]
    nim_initial
  = (Done tt,
     mk_nim "" [Text (newline ++ "Error processing event: invalid start byte")]).
Proof. vm_compute. reflexivity. Qed.

(** An error event of the stream: the iterator raises, outside the [try]
    of the loop, and the event after it is not read. *)
Example nim_loop_stream_error :
  nim_loop sample_json_loads sample_decode
    [ Ok (PayloadPart (Some ("data:" ++ sample_fragment)%string));
      Raise model_stream_error;
      Ok (PayloadPart (Some ("data:" ++ sample_fragment)%string)) ]
    nim_initial
  = (Raised model_stream_error, mk_nim "" [Str (VStr "Hi")]).
Proof. vm_compute. reflexivity. Qed.

(** Two tokens around a line that is not JSON and a line without the
    prefix. *)
Example tgi_loop_sample :
  tgi_loop sample_json_loads sample_decode nat Nat.sub 100 sample_stream
    (tgi_initial nat)
  = (Done tt,
     mk_tgi nat 2 true (Some 3) [Str (VStr "Hello"); Str (VStr "Hello")]).
Proof. vm_compute. reflexivity. Qed.

(** An event without a payload part ends the token streaming loop. *)
Example tgi_loop_other_event :
  tgi_loop sample_json_loads sample_decode nat Nat.sub 100
    [ Ok (mk_timed nat (OtherEvent "Metadata") 101);
      Ok (mk_timed nat (PayloadPart (Some "data: 1")) 103) ]
    (tgi_initial nat)
  = (Raised (mk_exn KeyError "'PayloadPart'"), tgi_initial nat).
Proof. vm_compute. reflexivity. Qed.

(** An error event of the stream after the first token. *)
Example tgi_loop_stream_error :
  tgi_loop sample_json_loads sample_decode nat Nat.sub 100
    [ Ok (mk_timed nat (PayloadPart (Some ("data: " ++ sample_token_text)%string)) 103);
      Raise model_stream_error ]
    (tgi_initial nat)
  = (Raised model_stream_error,
     mk_tgi nat 1 true (Some 3) [Str (VStr "Hello")]).
Proof. vm_compute. reflexivity. Qed.

(** One question answered and written, one line without a question. *)
Example create_eval_files_sample :
  let e := EvalFiles.mk_env
             (fun _ => Ok [Ok (VDict [("question", VStr "Capital of Cantal?");
                                      ("answers", VStr "Aurillac")]);
                           Ok (VDict [("answers", VStr "x")])])
             (fun _ => Ok tt)
             (fun _ _ => Ok (VDict [("generated_text", VStr "Aurillac")]))
             (fun _ _ => Ok tt) in
  EvalFiles.create_eval_files e "endpoint" "out.jsonl" "in.jsonl"
    EvalFiles.initial
  = (Done VNone,
     EvalFiles.mk_state
       [("out.jsonl",
         VDict [("question", VStr "Capital of Cantal?");
                ("answers", VStr "Aurillac");
                ("model_output", VStr "Aurillac")])]
       [Text "Created Model Outputs File: out.jsonl"]).
Proof. reflexivity. Qed.

(** The input file is missing: the function still reports completion. *)
Example create_eval_files_missing_input :
  let e := EvalFiles.mk_env
             (fun _ => Raise (mk_exn OSError "No such file or directory"))
             (fun _ => Ok tt)
             (fun _ _ => Ok VNone)
             (fun _ _ => Ok tt) in
  EvalFiles.create_eval_files e "endpoint" "out.jsonl" "in.jsonl"
    EvalFiles.initial
  = (Done VNone,
     EvalFiles.mk_state []
       [Text "An error occurred: No such file or directory";
        Text "Created Model Outputs File: out.jsonl"]).
Proof. reflexivity. Qed.

End SampleRuns.

(** * Further properties *)

(** ** Token streaming loop: counters and output *)

Section TokenFacts.
Import Py Streams StreamingCell.
Local Open Scope py_scope.

Variable json_loads : string -> result value.
Variable decode : string -> result string.
Variable time : Type.
Variable time_sub : time -> time -> time.

Local Abbreviation state := (tgi_state time).
Local Abbreviation body := (Streams.tgi_body json_loads decode time time_sub).
Local Abbreviation loop := (Streams.tgi_loop json_loads decode time time_sub).
Local Abbreviation effect := (pass_effect time time_sub).
Local Abbreviation counted := (StreamingCell.counted time time_sub).

Lemma getitem_not_decode_error (v : value) (key : string) (e : exn) :
  getitem v key = Raise e -> isinstance e JSONDecodeError = false.
Proof.
  destruct v as [| | | | |items|items]; simpl; try (intros H; injection H as <-; reflexivity).
  destruct (assoc key items); [discriminate|].
  intros H; injection H as <-; reflexivity.
Qed.

Lemma contains_not_decode_error (v : value) (key : string) (e : exn) :
  contains key v = Raise e -> isinstance e JSONDecodeError = false.
Proof.
  destruct v; simpl; try discriminate; intros H; injection H as <-; reflexivity.
Qed.

(** The [try] block, by cases. *)
Lemma tgi_try_run (start now : time) (line : string) (s : state) :
  Streams.tgi_try json_loads time time_sub start now line s
    = match json_loads (slice_from line 6) with
      | Raise e => (Raised e, s)
      | Ok chunk =>
          match contains "token" chunk with
          | Raise e => (Raised e, s)
          | Ok false => (Done tt, s)
          | Ok true =>
              match getitem chunk "token" with
              | Raise e => (Raised e, counted start now s)
              | Ok token =>
                  match getitem token "text" with
                  | Raise e => (Raised e, counted start now s)
                  | Ok text =>
                      (Done tt,
                       tgi_print time (Str text) (counted start now s))
                  end
              end
          end
      end.
Proof.
  unfold Streams.tgi_try, bind, lift, ret, raise, modify, get,
    StreamingCell.counted.
  destruct (json_loads (slice_from line 6)) as [chunk|e]; [|reflexivity].
  destruct (contains "token" chunk) as [[|]|e]; try reflexivity.
  simpl. destruct (first_token_received time s); simpl;
    (destruct (getitem chunk "token") as [token|e]; [|reflexivity]);
    destruct (getitem token "text"); reflexivity.
Qed.

Lemma tgi_try_effect (start now : time) (line : string) (s : state) :
  let run := try_except (Streams.tgi_try json_loads time time_sub start now line)
               JSONDecodeError (fun _ => ret tt) s in
  effect start now s (fst run) (snd run).
Proof.
  unfold try_except. rewrite tgi_try_run.
  destruct (json_loads (slice_from line 6)) as [chunk|e]; simpl.
  2: { destruct (isinstance e JSONDecodeError); simpl; constructor. }
  destruct (contains "token" chunk) as [[|]|e] eqn:Hc; simpl.
  3: { rewrite (contains_not_decode_error _ _ _ Hc). simpl. constructor. }
  2: constructor.
  destruct (getitem chunk "token") as [token|e] eqn:Ht; simpl.
  2: { rewrite (getitem_not_decode_error _ _ _ Ht). simpl. constructor. }
  destruct (getitem token "text") as [text|e] eqn:Hx; simpl.
  2: { rewrite (getitem_not_decode_error _ _ _ Hx). simpl. constructor. }
  constructor.
Qed.

Lemma tgi_body_effect (start : time) (te : timed_event time) (s : state) :
  effect start (clock time te) s (fst (body start te s)) (snd (body start te s)).
Proof.
  unfold Streams.tgi_body, bind, lift.
  destruct (payload_bytes (event time te)) as [bytes|e]; simpl; [|constructor].
  destruct (decode bytes) as [line|e]; simpl; [|constructor].
  destruct (startswith line "data: "); [|constructor].
  apply tgi_try_effect.
Qed.

(** A chunk without the entry has no [chunk['token']]. *)
Lemma contains_false_getitem (v : value) (key : string) :
  contains key v = Ok false -> exists e, getitem v key = Raise e.
Proof.
  destruct v as [| | | | | |items]; simpl; try discriminate; eauto.
  destruct (assoc key items); [discriminate|eauto].
Qed.

(** One pass of the loop against the token text of its event: a pass that
    ends normally printed the text if the event has one and did nothing
    otherwise; a pass that raises printed nothing. *)
Lemma tgi_body_token (start : time) (te : timed_event time) (s : state) :
  match body start te s with
  | (Done _, s1) =>
      match token_text json_loads decode (event time te) with
      | Some text =>
          s1 = tgi_print time (Str text) (counted start (clock time te) s)
      | None => s1 = s
      end
  | (Raised _, s1) => s1 = s \/ s1 = counted start (clock time te) s
  | (Unfinished, _) => False
  end.
Proof.
  unfold Streams.tgi_body, StreamingCell.token_text, bind, lift.
  destruct (payload_bytes (event time te)) as [bytes|e]; simpl; [|auto].
  destruct (decode bytes) as [line|e]; simpl; [|auto].
  destruct (startswith line "data: "); [|reflexivity].
  unfold try_except. rewrite tgi_try_run.
  destruct (json_loads (slice_from line 6)) as [chunk|e]; simpl.
  2: { destruct (isinstance e JSONDecodeError); simpl; auto. }
  destruct (contains "token" chunk) as [[|]|e] eqn:Hc; simpl.
  3: { rewrite (contains_not_decode_error _ _ _ Hc). simpl. auto. }
  2: { destruct (contains_false_getitem _ _ Hc) as [e ->]. reflexivity. }
  destruct (getitem chunk "token") as [token|e] eqn:Ht; simpl.
  2: { rewrite (getitem_not_decode_error _ _ _ Ht). simpl. auto. }
  destruct (getitem token "text") as [text|e] eqn:Hx; simpl.
  2: { rewrite (getitem_not_decode_error _ _ _ Hx). simpl. auto. }
  reflexivity.
Qed.

End TokenFacts.

Section TokenLoopFacts.
Import Py Streams StreamingCell.
Local Open Scope py_scope.

Variable json_loads : string -> result value.
Variable decode : string -> result string.
Variable time : Type.
Variable time_sub : time -> time -> time.

Local Abbreviation state := (tgi_state time).
Local Abbreviation body := (Streams.tgi_body json_loads decode time time_sub).
Local Abbreviation loop := (Streams.tgi_loop json_loads decode time time_sub).
Local Abbreviation counted := (StreamingCell.counted time time_sub).
Local Abbreviation texts := (StreamingCell.token_texts json_loads decode time).

Lemma tgi_loop_cons (start : time) (te : timed_event time)
    (rest : iterator (timed_event time)) (s : state) :
  loop start (Ok te :: rest) s
    = match body start te s with
      | (Done _, s1) => loop start rest s1
      | (Raised e, s1) => (Raised e, s1)
      | (Unfinished, s1) => (Unfinished, s1)
      end.
Proof. reflexivity. Qed.

Lemma token_count_counted (start now : time) (s : state) :
  token_count time (counted start now s) = (token_count time s + 1)%Z.
Proof.
  unfold StreamingCell.counted. simpl.
  destruct (first_token_received time s); reflexivity.
Qed.

Lemma tgi_printed_counted (start now : time) (s : state) :
  tgi_printed time (counted start now s) = tgi_printed time s.
Proof.
  unfold StreamingCell.counted. simpl.
  destruct (first_token_received time s); reflexivity.
Qed.

Lemma first_counted (start now : time) (s : state) :
  first_token_received time (counted start now s) = true.
Proof.
  unfold StreamingCell.counted. simpl.
  destruct (first_token_received time s) eqn:H; simpl; auto.
Qed.

Lemma ttft_counted (start now : time) (s : state) :
  ttft time (counted start now s)
    = if first_token_received time s then ttft time s
      else Some (time_sub now start).
Proof.
  unfold StreamingCell.counted. simpl.
  destruct (first_token_received time s); reflexivity.
Qed.

Lemma token_texts_cons (te : timed_event time) (events : list (timed_event time)) :
  texts (te :: events)
    = match token_text json_loads decode (event time te) with
      | Some text => text :: texts events
      | None => texts events
      end.
Proof.
  unfold StreamingCell.token_texts. simpl.
  now destruct (token_text json_loads decode (event time te)).
Qed.

(** A run that ends normally: every event was delivered, and the loop
    printed the token texts of the events and counted them. *)
Lemma tgi_loop_done (start : time) (events : iterator (timed_event time)) :
  forall s s',
    loop start events s = (Done tt, s') ->
    iterator_failure events = None
    /\ tgi_printed time s'
       = tgi_printed time s ++ map Str (texts (yielded events))
    /\ token_count time s'
       = (token_count time s
          + Z.of_nat (List.length (texts (yielded events))))%Z.
Proof.
  induction events as [|[te|e] rest IH]; intros s s' Hrun.
  - injection Hrun as <-. simpl. rewrite app_nil_r. repeat split. lia.
  - rewrite tgi_loop_cons in Hrun.
    pose proof (tgi_body_token json_loads decode time time_sub start te s) as Hte.
    destruct (body start te s) as [[[]|e|] s1]; [|discriminate..].
    destruct (IH s1 s' Hrun) as (Hf & Hp & Hn).
    cbn [yielded iterator_failure]. rewrite token_texts_cons.
    destruct (token_text json_loads decode (event time te)) as [text|];
      subst s1.
    + simpl in Hp, Hn.
      rewrite tgi_printed_counted, <- app_assoc in Hp.
      rewrite token_count_counted in Hn.
      split; [exact Hf|]. split; [exact Hp|].
      rewrite Hn. simpl List.length. lia.
    + auto.
  - discriminate.
Qed.

(** A run that an exception ends: the events before the item that raised
    went through as in a run that ends normally, and that item printed
    nothing. *)
Lemma tgi_loop_raised (start : time) (events : iterator (timed_event time)) :
  forall s e s',
    loop start events s = (Raised e, s') ->
    exists processed bad rest s1,
      events = map Ok processed ++ bad :: rest
      /\ loop start (map Ok processed) s = (Done tt, s1)
      /\ loop start [bad] s1 = (Raised e, s')
      /\ tgi_printed time s' = tgi_printed time s1
      /\ (token_count time s1 <= token_count time s'
          <= token_count time s1 + 1)%Z.
Proof.
  induction events as [|[te|e0] rest IH]; intros s e s' Hrun.
  - discriminate.
  - rewrite tgi_loop_cons in Hrun.
    pose proof (tgi_body_token json_loads decode time time_sub start te s) as Hte.
    destruct (body start te s) as [[[]|e1|] s1] eqn:Hbody; [| |discriminate].
    + destruct (IH s1 e s' Hrun) as (processed & bad & rest' & s2 & -> & H1 & H2 & H3).
      exists (te :: processed), bad, rest', s2.
      split; [reflexivity|]. split; [|split; [exact H2|exact H3]].
      simpl map. now rewrite tgi_loop_cons, Hbody.
    + injection Hrun as <- <-.
      exists [], (Ok te), rest, s.
      split; [reflexivity|]. split; [reflexivity|]. split.
      * now rewrite tgi_loop_cons, Hbody.
      * destruct Hte as [->| ->];
          rewrite ?tgi_printed_counted, ?token_count_counted; split; auto; lia.
  - injection Hrun as <- <-.
    exists [], (Raise e0), rest, s.
    repeat split; lia.
Qed.

Lemma tgi_loop_finishes (start : time) (events : iterator (timed_event time)) :
  forall s, fst (loop start events s) <> Unfinished.
Proof.
  induction events as [|[te|e] rest IH]; intros s; [discriminate| |discriminate].
  rewrite tgi_loop_cons.
  pose proof (tgi_body_token json_loads decode time time_sub start te s) as Hte.
  destruct (body start te s) as [[[]|e1|] s1]; [apply IH|discriminate|contradiction].
Qed.

(** The first-token flag and the time to first token along a run. *)
Lemma tgi_loop_first_token (start : time) (events : iterator (timed_event time)) :
  forall s,
    let s' := snd (loop start events s) in
    (first_token_received time s = true ->
     first_token_received time s' = true /\ ttft time s' = ttft time s)
    /\ (first_token_recorded time s -> first_token_recorded time s')
    /\ (first_token_received time s' = true ->
        first_token_received time s = true
        \/ (token_count time s < token_count time s')%Z)
    /\ (token_count time s <= token_count time s')%Z
    /\ ((token_count time s < token_count time s')%Z ->
        first_token_received time s' = true).
Proof.
  induction events as [|[te|e0] rest IH]; intros s s'; subst s'.
  - change (snd (loop start [] s)) with s. intuition lia.
  - rewrite tgi_loop_cons.
    pose proof (tgi_body_effect json_loads decode time time_sub start te s) as E.
    destruct (body start te s) as [r s1]. simpl in E.
    assert (Hc : forall now,
               (first_token_received time s = true ->
                ttft time (counted start now s) = ttft time s)
               /\ (first_token_recorded time s ->
                   first_token_recorded time (counted start now s))).
    { intros now. split.
      - intros H. now rewrite ttft_counted, H.
      - unfold first_token_recorded. rewrite first_counted, ttft_counted.
        intros [H1 H2]. split; [|reflexivity]. intros _.
        destruct (first_token_received time s); [auto|discriminate]. }
    inversion E; subst r; try subst s1.
    + exact (IH s).
    + simpl. intuition lia.
    + set (s2 := tgi_print time (Str text) (counted start (clock time te) s)).
      destruct (IH s2) as (H1 & H2 & H3 & H4 & H5).
      destruct (Hc (clock time te)) as [Hc1 Hc2].
      assert (Hf2 : first_token_received time s2 = true)
        by apply (first_counted start (clock time te) s).
      assert (Hn2 : token_count time s2 = (token_count time s + 1)%Z)
        by apply (token_count_counted start (clock time te) s).
      assert (Ht2 : ttft time s2 = ttft time (counted start (clock time te) s))
        by reflexivity.
      destruct (H1 Hf2) as [Hf' Ht'].
      split; [|split; [|split; [|split]]].
      * intros Hs. split; [exact Hf'|]. now rewrite Ht', Ht2, (Hc1 Hs).
      * intros Hr. apply H2. exact (Hc2 Hr).
      * intros _. right. lia.
      * lia.
      * intros _. exact Hf'.
    + simpl. rewrite first_counted, token_count_counted.
      destruct (Hc (clock time te)) as [Hc1 Hc2].
      split; [|split; [|split; [|split]]]; auto.
      * intros _. right. lia.
      * lia.
  - change (snd (loop start (Raise e0 :: rest) s)) with s. intuition lia.
Qed.

End TokenLoopFacts.

(** X1.  What the token streaming loop prints is [chunk['token']['text']]
    of the events of the stream, in stream order.  When the loop ends
    normally the stream delivered all its events, the loop printed the
    token text of each event that has one and nothing else, and
    [token_count] grew by their number.  When an exception ends the loop,
    the events before the item that raised went through in that way, the
    item that raised printed nothing and the items after it were not
    processed; [token_count] is then at most one ahead of the tokens
    printed (a token counted whose text could not be read). *)
Theorem X1_token_count_matches_output
    (json_loads : string -> Py.result Py.value)
    (decode : string -> Py.result string)
    (time : Type) (time_sub : time -> time -> time)
    (start : time) (events : Py.iterator (Streams.timed_event time))
    (s : Streams.tgi_state time) :
  let loop := Streams.tgi_loop json_loads decode time time_sub start in
  let texts := StreamingCell.token_texts json_loads decode time in
  (forall s',
      loop events s = (Py.Done tt, s') ->
      Py.iterator_failure events = None
      /\ Streams.tgi_printed time s'
         = Streams.tgi_printed time s ++ map Py.Str (texts (Py.yielded events))
      /\ Streams.token_count time s'
         = (Streams.token_count time s
            + Z.of_nat (List.length (texts (Py.yielded events))))%Z)
  /\ (forall e s',
        loop events s = (Py.Raised e, s') ->
        exists processed bad rest s1,
          events = map Py.Ok processed ++ bad :: rest
          /\ loop (map Py.Ok processed) s = (Py.Done tt, s1)
          /\ loop [bad] s1 = (Py.Raised e, s')
          /\ Streams.tgi_printed time s'
             = Streams.tgi_printed time s ++ map Py.Str (texts processed)
          /\ (Streams.token_count time s
                + Z.of_nat (List.length (texts processed))
              <= Streams.token_count time s'
              <= Streams.token_count time s
                 + Z.of_nat (List.length (texts processed)) + 1)%Z)
  /\ fst (loop events s) <> Py.Unfinished.
Proof.
  intros loop texts. subst loop texts. split; [|split].
  - apply tgi_loop_done.
  - intros e s' Hrun.
    destruct (tgi_loop_raised json_loads decode time time_sub start events
                s e s' Hrun)
      as (processed & bad & rest & s1 & Hev & Hdone & Hbad & Hp & Hn).
    exists processed, bad, rest, s1.
    destruct (tgi_loop_done json_loads decode time time_sub start
                (map Py.Ok processed) s s1 Hdone) as (_ & Hp1 & Hn1).
    assert (Hy : Py.yielded (map Py.Ok processed) = processed).
    { clear. induction processed as [|te l IH]; simpl; [reflexivity|].
      now rewrite IH. }
    rewrite Hy in Hp1, Hn1.
    split; [exact Hev|]. split; [exact Hdone|]. split; [exact Hbad|].
    split; [now rewrite Hp, Hp1|]. lia.
  - apply tgi_loop_finishes.
Qed.

(** The sample stream: two tokens, a line that is not JSON and a line
    without the prefix. *)
Lemma X1_token_count_matches_output_witness :
  let run := Streams.tgi_loop Samples.sample_json_loads Samples.sample_decode
               nat Nat.sub 100 Samples.sample_stream (Streams.tgi_initial nat) in
  Streams.tgi_printed nat (snd run)
    = [Py.Str (Py.VStr "Hello"); Py.Str (Py.VStr "Hello")]
  /\ Streams.token_count nat (snd run) = 2%Z.
Proof.
  intros run.
  destruct (X1_token_count_matches_output Samples.sample_json_loads
              Samples.sample_decode nat Nat.sub 100 Samples.sample_stream
              (Streams.tgi_initial nat)) as (Hdone & _).
  destruct (Hdone (snd run)) as (_ & Hp & Hn); [reflexivity|].
  split; [exact Hp|exact Hn].
Defined.

(** X2.  The time to first token is taken once: along any run of the
    token streaming loop, once [first_token_received] is set it stays set
    and [ttft] is never assigned again.  The flag is set exactly when
    [ttft] holds a time, provided that was so before the run;
    [token_count] never decreases, and the flag is set by the end of any
    run that counted a token. *)
Theorem X2_first_token_recorded_once
    (json_loads : string -> Py.result Py.value)
    (decode : string -> Py.result string)
    (time : Type) (time_sub : time -> time -> time)
    (start : time) (events : Py.iterator (Streams.timed_event time))
    (s : Streams.tgi_state time) :
  let s' := snd (Streams.tgi_loop json_loads decode time time_sub start events s) in
  (Streams.first_token_received time s = true ->
   Streams.first_token_received time s' = true
   /\ Streams.ttft time s' = Streams.ttft time s)
  /\ (StreamingCell.first_token_recorded time s ->
      StreamingCell.first_token_recorded time s')
  /\ (Streams.first_token_received time s' = true ->
      Streams.first_token_received time s = true
      \/ (Streams.token_count time s < Streams.token_count time s')%Z)
  /\ (Streams.token_count time s <= Streams.token_count time s')%Z
  /\ ((Streams.token_count time s < Streams.token_count time s')%Z ->
      Streams.first_token_received time s' = true).
Proof. apply tgi_loop_first_token. Qed.

(** The first token of the sample arrives at 103, the second at 107: the
    time to first token stays 3. *)
Lemma X2_first_token_recorded_once_witness :
  let s := Streams.mk_tgi nat 1 true (Some 3) [] in
  let s' := snd (Streams.tgi_loop Samples.sample_json_loads
                   Samples.sample_decode nat Nat.sub 100
                   Samples.sample_stream s) in
  Streams.first_token_received nat s' = true
  /\ Streams.ttft nat s' = Some 3.
Proof.
  intros s s'.
  destruct (X2_first_token_recorded_once Samples.sample_json_loads
              Samples.sample_decode nat Nat.sub 100 Samples.sample_stream s)
    as (H & _).
  exact (H eq_refl).
Defined.

Section MetricsFacts.
Import Py Streams StreamingCell.
Local Open Scope py_scope.

Variable json_loads : string -> result value.
Variable decode : string -> result string.
Variable time : Type.
Variable time_sub : time -> time -> time.
Variable format_2f : time -> string.

(** The state when the loop starts: two lines printed, nothing counted. *)
Lemma streaming_cell_run (prompt : string) (start end_time : time)
    (events : iterator (timed_event time)) (s1 : tgi_state time) :
  let s0 := tgi_print time (Text "Response:")
              (tgi_print time (Text ("Prompt: " ++ prompt ++ newline))
                 (tgi_initial time)) in
  tgi_loop json_loads decode time time_sub start events s0 = (Done tt, s1) ->
  streaming_cell json_loads decode time time_sub format_2f prompt start
    (Ok events) end_time (tgi_initial time)
    = metrics time time_sub format_2f start end_time s1.
Proof.
  intros s0 Hloop. unfold streaming_cell.
  do 3 (erewrite bind_done by reflexivity).
  now rewrite (bind_done _ _ s0 s1 tt Hloop).
Qed.

Lemma metrics_without_token (start end_time : time) (s : tgi_state time) :
  ttft time s = None ->
  metrics time time_sub format_2f start end_time s
    = (Raised (mk_exn TypeError
                 "unsupported format string passed to NoneType.__format__"),
       tgi_print time (Text (newline ++ newline ++ "Metrics:")) s).
Proof.
  intros H. unfold metrics, bind, modify, get, lift. simpl. now rewrite H.
Qed.

Lemma metrics_with_token (start end_time t : time) (s : tgi_state time) :
  ttft time s = Some t ->
  metrics time time_sub format_2f start end_time s
    = (Done tt,
       tgi_print time
         (Text ("Total Latency: " ++ format_2f (time_sub end_time start)
                  ++ " seconds"))
         (tgi_print time
            (Text ("Total Tokens Generated: "
                     ++ string_of_Z (token_count time s)))
            (tgi_print time
               (Text ("Time to First Token (TTFT): " ++ format_2f t
                        ++ " seconds"))
               (tgi_print time (Text (newline ++ newline ++ "Metrics:")) s)))).
Proof.
  intros H. unfold metrics, bind, modify, get, lift. simpl. now rewrite H.
Qed.

End MetricsFacts.

(** X3.  The streaming cell of the Llama 3.3 notebook reports its metrics
    only if the stream held a token.  When the loop ends normally without
    having counted a token (an empty stream, or only lines that are not
    token chunks), [ttft] is still [None] and the cell raises [TypeError]
    at the time-to-first-token line, after printing the metrics header;
    when at least one token was counted the cell ends normally with its
    three metric lines. *)
Theorem X3_metrics_need_a_token
    (json_loads : string -> Py.result Py.value)
    (decode : string -> Py.result string)
    (time : Type) (time_sub : time -> time -> time)
    (format_2f : time -> string)
    (prompt : string) (start end_time : time)
    (events : Py.iterator (Streams.timed_event time))
    (s1 : Streams.tgi_state time) :
  let s0 := Streams.tgi_print time (Py.Text "Response:")
              (Streams.tgi_print time
                 (Py.Text ("Prompt: " ++ prompt ++ Streams.newline))
                 (Streams.tgi_initial time)) in
  let cell := StreamingCell.streaming_cell json_loads decode time time_sub
                format_2f prompt start (Py.Ok events) end_time
                (Streams.tgi_initial time) in
  let header := Py.Text (Streams.newline ++ Streams.newline ++ "Metrics:") in
  Streams.tgi_loop json_loads decode time time_sub start events s0
    = (Py.Done tt, s1) ->
  (Streams.token_count time s1 = 0%Z \/ (0 < Streams.token_count time s1)%Z)
  /\ (Streams.token_count time s1 = 0%Z ->
      cell = (Py.Raised
                (Py.mk_exn Py.TypeError
                   "unsupported format string passed to NoneType.__format__"),
              Streams.tgi_print time header s1))
  /\ ((0 < Streams.token_count time s1)%Z ->
      exists t,
        Streams.ttft time s1 = Some t
        /\ cell
           = (Py.Done tt,
              Streams.tgi_print time
                (Py.Text ("Total Latency: "
                            ++ format_2f (time_sub end_time start) ++ " seconds"))
                (Streams.tgi_print time
                   (Py.Text ("Total Tokens Generated: "
                               ++ StreamingCell.string_of_Z
                                    (Streams.token_count time s1)))
                   (Streams.tgi_print time
                      (Py.Text ("Time to First Token (TTFT): " ++ format_2f t
                                  ++ " seconds"))
                      (Streams.tgi_print time header s1))))).
Proof.
  intros s0 cell header Hloop.
  pose proof (tgi_loop_first_token json_loads decode time time_sub start events s0)
    as Hinv.
  rewrite Hloop in Hinv. simpl in Hinv.
  destruct Hinv as (_ & Hrec & Hflag & Hmono & Hset).
  assert (Hrec1 : StreamingCell.first_token_recorded time s1).
  { apply Hrec. split; [discriminate|intros H; now elim H]. }
  subst cell.
  rewrite (streaming_cell_run json_loads decode time time_sub format_2f
             prompt start end_time events s1 Hloop).
  split; [lia|]. split.
  - intros Hzero. apply metrics_without_token.
    destruct (Streams.ttft time s1) as [t|] eqn:Ht; [|reflexivity].
    assert (Hf : Streams.first_token_received time s1 = true)
      by (apply Hrec1; rewrite Ht; discriminate).
    destruct (Hflag Hf) as [H|H]; [discriminate|lia].
  - intros Hpos.
    assert (Hf : Streams.first_token_received time s1 = true) by (apply Hset; lia).
    destruct (Streams.ttft time s1) as [t|] eqn:Ht.
    + exists t. split; [reflexivity|]. now apply metrics_with_token.
    + exfalso. apply Hrec1 in Hf. now rewrite Ht in Hf.
Qed.

(** A stream with one keep-alive line and no token: the cell raises. *)
Lemma X3_metrics_need_a_token_witness :
  fst (StreamingCell.streaming_cell Samples.sample_json_loads
         Samples.sample_decode nat Nat.sub (fun _ => "0.00") "Hello" 100
         (Py.Ok [Py.Ok (Streams.mk_timed nat
                          (Streams.PayloadPart (Some ": keep-alive")) 101)])
         102 (Streams.tgi_initial nat))
  = Py.Raised (Py.mk_exn Py.TypeError
                 "unsupported format string passed to NoneType.__format__").
Proof.
  destruct (X3_metrics_need_a_token Samples.sample_json_loads
              Samples.sample_decode nat Nat.sub (fun _ => "0.00") "Hello" 100 102
              [Py.Ok (Streams.mk_timed nat
                        (Streams.PayloadPart (Some ": keep-alive")) 101)]
              _ eq_refl) as (_ & Hzero & _).
  exact (f_equal fst (Hzero eq_refl)).
Defined.

(** ** What a polling loop prints *)

Section PollingOutputFacts.
Import Polling PollingOutput.

Variable api : describe_api.
Variable name : string.
Variable platform : nat -> string.

Lemma printed_statuses_app (tr1 tr2 : list event) :
  printed_statuses (tr1 ++ tr2) = printed_statuses tr1 ++ printed_statuses tr2.
Proof.
  induction tr1 as [|e tr1 IH]; [reflexivity|].
  destruct e; simpl; now rewrite IH.
Qed.

Lemma printed_statuses_run (d : nat) :
  forall k,
    printed_statuses (run_trace api name platform k d)
      = map platform (seq k d) ++ [platform (k + d)].
Proof.
  unfold run_trace. induction d as [|d IH]; intros k.
  - reflexivity.
  - simpl. f_equal. replace (k + S d) with (S k + d) by lia. apply IH.
Qed.

Lemma seconds_slept_repeat (n : nat) :
  fold_right Z.add 0%Z (repeat 30%Z n) = (30 * Z.of_nat n)%Z.
Proof. induction n as [|n IH]; simpl repeat; simpl fold_right; lia. Qed.

End PollingOutputFacts.

(** X4.  A polling loop that left after [n] waiting passes has printed
    exactly the statuses it observed, one line per describe call and in
    the order observed: [n] non-terminal statuses followed by the terminal
    one; and it has spent [30 * n] seconds in [time.sleep]. *)
Theorem X4_polling_prints_observed_statuses
    (api : Polling.describe_api) (name : string) (platform : nat -> string)
    (fuel n : nat) (tr : list Polling.event) :
  Polling.while_true fuel api name platform 0 = Some (n, tr) ->
  PollingOutput.printed_statuses tr
    = map platform (seq 0 n) ++ [platform n]
  /\ Forall (fun status => Polling.is_terminal status = false)
       (map platform (seq 0 n))
  /\ Polling.is_terminal (platform n) = true
  /\ List.length (PollingOutput.printed_statuses tr) = Polling.describes tr
  /\ PollingOutput.seconds_slept tr = (30 * Z.of_nat n)%Z.
Proof.
  intros H.
  destruct (while_true_exit api name platform fuel 0 n tr H)
    as (d & -> & Hterm & Hwait & ->).
  simpl in *.
  split; [apply (printed_statuses_run api name platform d 0)|].
  split.
  { apply List.Forall_forall. intros status Hin.
    apply List.in_map_iff in Hin as (k & <- & Hk). apply List.in_seq in Hk.
    apply Hwait. lia. }
  split; [exact Hterm|]. split.
  - rewrite (printed_statuses_run api name platform d 0), describes_run.
    rewrite length_app, length_map, length_seq. simpl. lia.
  - unfold PollingOutput.seconds_slept. rewrite sleeps_run.
    apply seconds_slept_repeat.
Qed.

Lemma X4_polling_prints_observed_statuses_witness :
  let platform := fun k => if Nat.ltb k 2 then "Creating" else "Failed" in
  exists tr,
    Polling.inference_component_status_loop "demo-ic" 5 platform = Some (2, tr)
    /\ PollingOutput.printed_statuses tr = ["Creating"; "Creating"; "Failed"]
    /\ PollingOutput.seconds_slept tr = 60%Z.
Proof.
  intros platform. eexists. split; [reflexivity|].
  destruct (X4_polling_prints_observed_statuses
              Polling.describe_inference_component "demo-ic" platform 5 2 _
              eq_refl) as (Hp & _ & _ & _ & Hs).
  split; [exact Hp | exact Hs].
Defined.

(** ** Framing of the NIM stream *)

Section FramingFacts.
Import Py Streams.

Lemma length_substring (s : string) :
  forall n m,
    String.length (String.substring n m s) = Nat.min m (String.length s - n).
Proof.
  induction s as [|c s IH]; intros n m.
  - destruct n, m; reflexivity.
  - destruct n as [|n]; simpl.
    + destruct m as [|m]; simpl; [reflexivity|]. rewrite IH. f_equal. f_equal. lia.
    + apply IH.
Qed.

Lemma substring_split (s : string) :
  forall n m k,
    String.substring n (m + k) s
      = (String.substring n m s ++ String.substring (n + m) k s)%string.
Proof.
  induction s as [|c s IH]; intros n m k.
  - destruct n, m, k; reflexivity.
  - destruct n as [|n]; simpl.
    + destruct m as [|m]; simpl.
      * destruct k; reflexivity.
      * exact (f_equal (String c) (IH 0 m k)).
    + apply IH.
Qed.

Lemma substring_full (s : string) :
  String.substring 0 (String.length s) s = s.
Proof. induction s as [|c s IH]; simpl; [reflexivity|now rewrite IH]. Qed.

(** Where a marker is found there is room for it. *)
Lemma index_bound (marker a : string) (i : nat) :
  String.index 0 marker a = Some i ->
  0 < String.length marker ->
  String.substring i (String.length marker) a = marker
  /\ i + String.length marker <= String.length a.
Proof.
  intros H Hlen. pose proof (String.index_correct1 _ _ _ _ H) as Hsub.
  split; [exact Hsub|].
  apply (f_equal String.length) in Hsub. rewrite length_substring in Hsub. lia.
Qed.

Lemma is_substring_index (marker a : string) :
  is_substring marker a = true ->
  exists i, String.index 0 marker a = Some i /\ find a marker = Z.of_nat i.
Proof.
  unfold is_substring, find.
  destruct (String.index 0 marker a) as [i|]; [eauto|discriminate].
Qed.

(** A slice within bounds is a substring. *)
Lemma slice_substring (a : string) (i j : nat) :
  i <= j <= String.length a ->
  slice a (Z.of_nat i) (Z.of_nat j) = String.substring i (j - i) a.
Proof.
  intros H. unfold slice, clamp.
  destruct (Z.ltb_spec (Z.of_nat i) 0); [lia|].
  destruct (Z.ltb_spec (Z.of_nat j) 0); [lia|].
  rewrite !Z.min_l by lia. rewrite Nat2Z.id. f_equal. lia.
Qed.

Lemma nim_end_idx_bound (a : string) :
  markers_present a = true ->
  exists j,
    find a end_marker = Z.of_nat j
    /\ nim_end_idx a = Z.of_nat (j + 23)
    /\ j + 23 <= String.length a
    /\ String.substring j 23 a = end_marker.
Proof.
  unfold markers_present. intros H. apply andb_true_iff in H as [_ H].
  apply is_substring_index in H as (j & Hidx & Hfind).
  destruct (index_bound _ _ _ Hidx) as [Hsub Hlen]; [simpl; lia|].
  exists j. unfold nim_end_idx. rewrite Hfind.
  change (String.length end_marker) with 23 in *.
  repeat split; auto. lia.
Qed.

(** A pass of the [while] loop takes the text through the end marker off
    [accumulated_data]: at least the 23 characters of the marker. *)
Lemma nim_pass_consumes (a : string) :
  markers_present a = true ->
  (Z.of_nat (String.length (slice_from a (nim_end_idx a))) + nim_end_idx a
     = Z.of_nat (String.length a))%Z
  /\ (23 <= nim_end_idx a)%Z.
Proof.
  intros H. destruct (nim_end_idx_bound a H) as (j & _ & -> & Hlen & _).
  unfold slice_from.
  rewrite (slice_substring a (j + 23) (String.length a)) by lia.
  rewrite length_substring. lia.
Qed.

End FramingFacts.

Section WhileFacts.
Import Py Streams.
Local Open Scope py_scope.

Variable json_loads : string -> result value.

Lemma nim_while_unfold (fuel : nat) (s : nim_state) :
  markers_present (accumulated_data s) = true ->
  Streams.nim_while json_loads (S fuel) s
    = let a := accumulated_data s in
      let s1 := set_accumulated (slice_from a (nim_end_idx a)) s in
      match Streams.nim_fragment json_loads (nim_full_response a) s1 with
      | (Done _, s2) => Streams.nim_while json_loads fuel s2
      | (Raised e, s2) => (Raised e, s2)
      | (Unfinished, s2) => (Unfinished, s2)
      end.
Proof. intros H. simpl. rewrite H. reflexivity. Qed.

Lemma nim_while_stop (fuel : nat) (s : nim_state) :
  markers_present (accumulated_data s) = false ->
  Streams.nim_while json_loads fuel s = (Done tt, s).
Proof. intros H. destruct fuel; simpl; now rewrite H. Qed.

(** The unfoldings left over do not matter. *)
Lemma nim_while_fuel (fuel1 : nat) :
  forall fuel2 s,
    String.length (accumulated_data s) < 23 * (fuel1 + 1) ->
    String.length (accumulated_data s) < 23 * (fuel2 + 1) ->
    Streams.nim_while json_loads fuel1 s = Streams.nim_while json_loads fuel2 s
    /\ fst (Streams.nim_while json_loads fuel1 s) <> Unfinished.
Proof.
  induction fuel1 as [|fuel1 IH]; intros fuel2 s H1 H2.
  - destruct (markers_present (accumulated_data s)) eqn:Hm.
    + destruct (nim_pass_consumes _ Hm). lia.
    + rewrite !nim_while_stop by assumption. split; simpl; congruence.
  - destruct (markers_present (accumulated_data s)) eqn:Hm.
    2: { rewrite !nim_while_stop by assumption. split; simpl; congruence. }
    destruct (nim_pass_consumes _ Hm) as [Hlen Hend].
    destruct fuel2 as [|fuel2]; [lia|].
    rewrite !nim_while_unfold by assumption. cbv zeta.
    set (s1 := set_accumulated _ s).
    destruct (nim_fragment_accumulated json_loads
                (nim_full_response (accumulated_data s)) s1) as [Hacc Hfin].
    destruct (Streams.nim_fragment json_loads _ s1) as [[[]|e|] s2];
      simpl in *; [|split; congruence|congruence].
    apply IH; rewrite Hacc; subst s1; simpl; lia.
Qed.

End WhileFacts.

(** X5.  Every pass of the [while] loop of the NIM notebooks removes the
    text through the first end marker, at least the 23 characters of the
    marker, from [accumulated_data]; so the loop ends after at most
    [len(accumulated_data) // 23] passes.  In the model: any number of
    unfoldings above that bound gives the result the loop has with
    [len(accumulated_data)] unfoldings, and the loop is never left
    unfinished. *)
Theorem X5_while_loop_ends
    (json_loads : string -> Py.result Py.value)
    (fuel : nat) (s : Streams.nim_state) :
  let a := Streams.accumulated_data s in
  (Streams.markers_present a = true ->
   (Z.of_nat (String.length (Py.slice_from a (Streams.nim_end_idx a)))
      + Streams.nim_end_idx a = Z.of_nat (String.length a))%Z
   /\ (23 <= Streams.nim_end_idx a)%Z)
  /\ (String.length a < 23 * (fuel + 1) ->
      Streams.nim_while json_loads fuel s
        = Streams.nim_while json_loads (String.length a) s
      /\ fst (Streams.nim_while json_loads fuel s) <> Py.Unfinished).
Proof.
  intros a. split; [apply nim_pass_consumes|].
  intros H. apply nim_while_fuel; [exact H|]. subst a. lia.
Qed.

(** 33 characters holding one frame: two unfoldings are enough, and the
    loop leaves the text after the end marker. *)
Lemma X5_while_loop_ends_witness :
  let json_loads := fun _ : string =>
    Py.Raise (Py.mk_exn Py.JSONDecodeError "Expecting value") in
  let s := Streams.mk_nim ("data:" ++ Streams.end_marker ++ "data:") [] in
  Streams.nim_while json_loads 1 s = (Py.Done tt, Streams.mk_nim "data:" []).
Proof.
  intros json_loads s.
  destruct (X5_while_loop_ends json_loads 1 s) as [_ H].
  destruct H as [H _]; [vm_compute; lia|].
  rewrite H. reflexivity.
Defined.

Section FragmentFacts.
Import Py Streams.

(** When the first start marker ends before the first end marker starts,
    the data splits into the text skipped, the start marker, the payload,
    the end marker and the rest. *)
Lemma nim_frame (a : string) :
  markers_present a = true ->
  (find a start_marker + 5 <= find a end_marker)%Z ->
  exists skipped payload,
    a = (skipped ++ start_marker ++ payload ++ end_marker
           ++ slice_from a (nim_end_idx a))%string
    /\ nim_full_response a = (payload ++ end_marker)%string
    /\ Z.of_nat (String.length skipped) = find a start_marker
    /\ Z.of_nat (String.length skipped + 5 + String.length payload)
       = find a end_marker.
Proof.
  intros Hm Horder.
  destruct (nim_end_idx_bound a Hm) as (j & Hj & Hend & Hjlen & Hjsub).
  assert (Hs := Hm). unfold markers_present in Hs.
  apply andb_true_iff in Hs as [Hs _].
  apply is_substring_index in Hs as (i & Hidx & Hi).
  destruct (index_bound _ _ _ Hidx) as [Hisub Hilen]; [simpl; lia|].
  change (String.length start_marker) with 5 in *.
  rewrite Hi, Hj in Horder.
  assert (Hij : i + 5 <= j) by lia.
  exists (String.substring 0 i a), (String.substring (i + 5) (j - (i + 5)) a).
  assert (Hfull : nim_full_response a
                  = (String.substring (i + 5) (j - (i + 5)) a ++ end_marker)%string).
  { unfold nim_full_response. rewrite Hi, Hend.
    change (Z.of_nat (String.length start_marker)) with (Z.of_nat 5).
    rewrite <- Nat2Z.inj_add.
    rewrite (slice_substring a (i + 5) (j + 23)) by lia.
    replace (j + 23 - (i + 5)) with ((j - (i + 5)) + 23) by lia.
    rewrite substring_split.
    replace (i + 5 + (j - (i + 5))) with j by lia.
    now rewrite Hjsub. }
  assert (Hrest : slice_from a (nim_end_idx a)
                  = String.substring (j + 23) (String.length a - (j + 23)) a).
  { unfold slice_from. rewrite Hend.
    apply (slice_substring a (j + 23) (String.length a)). lia. }
  split; [|split; [|split]].
  - rewrite Hrest.
    rewrite <- (substring_full a) at 1.
    replace (String.length a)
      with (i + (5 + ((j - (i + 5)) + (23 + (String.length a - (j + 23))))))
      at 1 by lia.
    rewrite !substring_split, !Nat.add_0_l.
    replace (i + 5 + (j - (i + 5))) with j by lia.
    now rewrite Hisub, Hjsub.
  - exact Hfull.
  - rewrite length_substring. lia.
  - rewrite !length_substring. lia.
Qed.

(** When the first end marker ends before the text after the first start
    marker begins, the fragment is empty. *)
Lemma nim_frame_empty (a : string) :
  markers_present a = true ->
  (nim_end_idx a <= find a start_marker + 5)%Z ->
  nim_full_response a = "".
Proof.
  intros Hm Horder.
  destruct (nim_end_idx_bound a Hm) as (j & Hj & Hend & Hjlen & Hjsub).
  assert (Hs := Hm). unfold markers_present in Hs.
  apply andb_true_iff in Hs as [Hs _].
  apply is_substring_index in Hs as (i & Hidx & Hi).
  destruct (index_bound _ _ _ Hidx) as [Hisub Hilen]; [simpl; lia|].
  change (String.length start_marker) with 5 in *.
  unfold nim_full_response, slice, clamp. rewrite Hi, Hend in *.
  change (Z.of_nat (String.length start_marker)) with 5%Z.
  destruct (Z.ltb_spec (Z.of_nat i + 5) 0); [lia|].
  destruct (Z.ltb_spec (Z.of_nat (j + 23)) 0); [lia|].
  replace (Z.to_nat (_ - _)) with 0 by lia.
  generalize (Z.to_nat (Z.min (Z.of_nat i + 5) (Z.of_nat (String.length a)))).
  intros n. destruct (String.substring n 0 a) eqn:E; [reflexivity|].
  apply (f_equal String.length) in E. rewrite length_substring in E.
  simpl in E. discriminate.
Qed.

End FragmentFacts.

(** X6.  When the accumulated data of a NIM stream loop holds both
    markers and the first start marker ends before the first end marker
    starts, the data is the text skipped, the start marker, a payload, the
    end marker and a rest: the fragment handed to [json.loads] is the
    payload with the end marker, the rest is what stays in
    [accumulated_data], the text skipped is dropped, and no earlier
    position holds a start marker or an end marker. *)
Theorem X6_fragment_is_first_frame (a : string) :
  Streams.markers_present a = true ->
  (Py.find a Streams.start_marker + 5 <= Py.find a Streams.end_marker)%Z ->
  exists skipped payload,
    a = (skipped ++ Streams.start_marker ++ payload ++ Streams.end_marker
           ++ Py.slice_from a (Streams.nim_end_idx a))%string
    /\ Streams.nim_full_response a = (payload ++ Streams.end_marker)%string
    /\ (forall p, p < String.length skipped ->
                  String.substring p 5 a <> Streams.start_marker)
    /\ (forall p, p < String.length skipped + 5 + String.length payload ->
                  String.substring p 23 a <> Streams.end_marker).
Proof.
  intros Hm Horder.
  destruct (nim_frame a Hm Horder) as (skipped & payload & Ha & Hf & Hi & Hj).
  exists skipped, payload. split; [exact Ha|]. split; [exact Hf|].
  unfold Py.find in Hi, Hj.
  destruct (String.index 0 Streams.start_marker a) as [i|] eqn:Ei; [|lia].
  destruct (String.index 0 Streams.end_marker a) as [j|] eqn:Ej; [|lia].
  split; intros p Hp.
  - apply (String.index_correct2 _ _ _ _ Ei p); lia.
  - apply (String.index_correct2 _ _ _ _ Ej p); lia.
Qed.

Lemma X6_fragment_is_first_frame_witness :
  let a := ("junk" ++ "data:" ++ "{x}" ++ Streams.end_marker ++ "data:more")%string in
  exists skipped payload,
    a = (skipped ++ Streams.start_marker ++ payload ++ Streams.end_marker
           ++ Py.slice_from a (Streams.nim_end_idx a))%string
    /\ Streams.nim_full_response a = (payload ++ Streams.end_marker)%string.
Proof.
  intros a.
  destruct (X6_fragment_is_first_frame a) as (skipped & payload & Ha & Hf & _).
  - reflexivity.
  - vm_compute. discriminate.
  - exists skipped, payload. split; [exact Ha | exact Hf].
Defined.

(** X7.  When the first end marker ends before the text after the first
    start marker begins (an end marker left over in front of the next
    frame), the fragment is the empty string; if [json.loads] rejects it
    with [JSONDecodeError], the pass prints nothing and the text through
    that end marker is dropped from [accumulated_data]. *)
Theorem X7_stray_end_marker_dropped
    (json_loads : string -> Py.result Py.value)
    (fuel : nat) (s : Streams.nim_state) (e : Py.exn) :
  let a := Streams.accumulated_data s in
  Streams.markers_present a = true ->
  (Streams.nim_end_idx a <= Py.find a Streams.start_marker + 5)%Z ->
  Streams.nim_full_response a = ""
  /\ (json_loads "" = Py.Raise e ->
      Py.isinstance e Py.JSONDecodeError = true ->
      Streams.nim_while json_loads (S fuel) s
        = Streams.nim_while json_loads fuel
            (Streams.set_accumulated
               (Py.slice_from a (Streams.nim_end_idx a)) s)).
Proof.
  intros a Hm Horder.
  pose proof (nim_frame_empty a Hm Horder) as Hempty.
  split; [exact Hempty|].
  intros Hjson He. rewrite nim_while_unfold by exact Hm. cbv zeta. fold a.
  rewrite Hempty.
  now rewrite (nim_fragment_skips json_loads "" e _ Hjson He).
Qed.

Lemma X7_stray_end_marker_dropped_witness :
  let json_loads := fun _ : string =>
    Py.Raise (Py.mk_exn Py.JSONDecodeError "Expecting value") in
  let s := Streams.mk_nim (Streams.end_marker ++ "data:{x}") [] in
  Streams.nim_full_response (Streams.accumulated_data s) = ""
  /\ Streams.nim_while json_loads 1 s
     = (Py.Done tt, Streams.mk_nim "data:{x}" []).
Proof.
  intros json_loads s.
  destruct (X7_stray_end_marker_dropped json_loads 0 s
              (Py.mk_exn Py.JSONDecodeError "Expecting value"))
    as [Hempty Hwhile].
  - reflexivity.
  - vm_compute. discriminate.
  - split; [exact Hempty|]. rewrite Hwhile by reflexivity. reflexivity.
Defined.

(** ** Evaluation helper: what gets written *)

Section DictFacts.
Import Py.

Lemma assoc_set_same (key : string) (v : value) (items : list (string * value)) :
  assoc key (assoc_set key v items) = Some v.
Proof.
  induction items as [|[k w] items IH]; simpl.
  - now rewrite String.eqb_refl.
  - destruct (String.eqb k key) eqn:E; simpl; rewrite E; [reflexivity|exact IH].
Qed.

Lemma assoc_set_other (key other : string) (v : value)
    (items : list (string * value)) :
  other <> key ->
  assoc other (assoc_set key v items) = assoc other items.
Proof.
  intros Hne. induction items as [|[k w] items IH]; simpl.
  - apply String.eqb_neq in Hne. rewrite String.eqb_sym. now rewrite Hne.
  - destruct (String.eqb k key) eqn:E; simpl.
    + apply String.eqb_eq in E. subst k.
      assert (H : String.eqb key other = false)
        by (apply String.eqb_neq; congruence).
      now rewrite H.
    + destruct (String.eqb k other); [reflexivity|exact IH].
Qed.

Lemma for_each_app {S A} (l1 l2 : list A) (body : A -> M S unit) (s : S) :
  for_each (l1 ++ l2) body s
    = match for_each l1 body s with
      | (Done _, s1) => for_each l2 body s1
      | (Raised e, s1) => (Raised e, s1)
      | (Unfinished, s1) => (Unfinished, s1)
      end.
Proof.
  revert s. induction l1 as [|x l1 IH]; intros s; simpl; [reflexivity|].
  unfold bind. destruct (body x s) as [[[]|e|] s1]; [apply IH|reflexivity..].
Qed.

End DictFacts.

Section EvalLineFacts.
Import Py EvalFiles EvalSpec.
Local Open Scope py_scope.

Variable e : env.
Variable endpoint_name file : string.

(** A line that went through [line["model_output"] = ...] has a question
    and a model output. *)
Lemma record_after_setitem (line question out line' : value) :
  getitem line "question" = Ok question ->
  setitem line "model_output" out = Ok line' ->
  well_formed_record file (file, line')
  /\ getitem line' "model_output" = Ok out
  /\ getitem line' "question" = Ok question.
Proof.
  destruct line as [| | | | | |items]; simpl; try discriminate.
  destruct (assoc "question" items) as [q|] eqn:Hq; [|discriminate].
  intros H1 H2. injection H1 as <-. injection H2 as <-.
  split; [|simpl; rewrite assoc_set_same, assoc_set_other, Hq by discriminate;
           split; reflexivity].
  split; [reflexivity|]. exists (assoc_set "model_output" out items), q, out.
  split; [reflexivity|].
  rewrite assoc_set_same, assoc_set_other by discriminate. now split.
Qed.




(** One pass of the [for] loop writes at most one record, never prints,
    and never stays unfinished. *)
Lemma eval_line_effect (item : result value) (s : state) :
  let run := eval_line e endpoint_name file item s in
  fst run <> Unfinished
  /\ printed_lines (snd run) = printed_lines s
  /\ (written (snd run) = written s
      \/ exists line', written (snd run) = written s ++ [(file, line')]
                       /\ well_formed_record file (file, line')
                       /\ fst run = Done tt).
Proof.
  unfold eval_line, create_payload, bind, lift, ret, raise, modify.
  destruct item as [line|err]; simpl; [|repeat split; [congruence|auto]].
  destruct (contains "question" line) as [[|]|err]; simpl;
    try (repeat split; [congruence|auto]).
  destruct (getitem line "question") as [question|err] eqn:Hq; simpl;
    [|repeat split; [congruence|auto]].
  destruct (len question) as [n|err]; simpl;
    [|repeat split; [congruence|auto]].
  destruct (Nat.eqb n 0); simpl; [repeat split; [congruence|auto]|].
  destruct (invoke_endpoint e endpoint_name _) as [response|err]; simpl;
    [|repeat split; [congruence|auto]].
  destruct (getitem response "generated_text") as [out|err]; simpl;
    [|repeat split; [congruence|auto]].
  destruct (setitem line "model_output" out) as [line'|err] eqn:Hset; simpl;
    [|repeat split; [congruence|auto]].
  destruct (write e file line') as [[]|err]; simpl;
    [|repeat split; [congruence|auto]].
  split; [congruence|]. split; [reflexivity|]. right. exists line'.
  split; [reflexivity|]. split; [|reflexivity].
  apply (record_after_setitem line question out line' Hq Hset).
Qed.

Lemma eval_lines_effect (items : list (result value)) :
  forall s,
    let run := for_each items (eval_line e endpoint_name file) s in
    fst run <> Unfinished
    /\ printed_lines (snd run) = printed_lines s
    /\ exists new,
         written (snd run) = written s ++ new
         /\ Forall (well_formed_record file) new.
Proof.
  induction items as [|item items IH]; intros s run; subst run.
  - simpl. split; [congruence|]. split; [reflexivity|].
    exists []. now rewrite app_nil_r.
  - simpl. unfold bind.
    destruct (eval_line_effect item s) as (Hfin & Hp & Hw).
    destruct (eval_line e endpoint_name file item s) as [[[]|err|] s1];
      simpl in *; [|clear IH|congruence].
    + destruct (IH s1) as (Hfin' & Hp' & new & Hw' & Hwf).
      split; [exact Hfin'|]. split; [congruence|].
      destruct Hw as [Hw|(line' & Hw & Hrec & _)]; rewrite Hw in Hw'.
      * exists new. now split.
      * exists ((file, line') :: new). rewrite <- app_assoc in Hw'.
        split; [exact Hw'|]. now constructor.
    + split; [congruence|]. split; [exact Hp|].
      destruct Hw as [Hw|(line' & _ & _ & Hd)]; [|discriminate].
      exists []. now rewrite app_nil_r.
Qed.

(** A line with a usable question is answered and written. *)
Lemma eval_line_answered (answer : value -> value)
    (items : list (string * value)) (s : state) :
  (forall q, assoc "question" items = Some q -> exists n, len q = Ok (S n)) ->
  (forall payload, exists response,
      invoke_endpoint e endpoint_name payload = Ok response
      /\ getitem response "generated_text" = Ok (answer payload)) ->
  (forall line, write e file line = Ok tt) ->
  eval_line e endpoint_name file (Ok (VDict items)) s
    = (Done tt,
       mk_state (written s ++ map (pair file) (answered_line answer items))
         (printed_lines s)).
Proof.
  intros Hq Hinvoke Hwrite.
  unfold eval_line, create_payload, answered_line, bind, lift, ret, raise,
    modify. simpl.
  destruct (assoc "question" items) as [q|] eqn:Eq; simpl.
  - destruct (Hq q eq_refl) as [n ->]. simpl.
    destruct (Hinvoke (payload_of q)) as (response & Hr & Hg).
    unfold payload_of in Hr. rewrite Hr. simpl. rewrite Hg. simpl.
    rewrite Hwrite. reflexivity.
  - rewrite app_nil_r. destruct s; reflexivity.
Qed.

End EvalLineFacts.

(** X8.  When both files open, every line of the input is a dictionary
    whose question, if it has one, is not empty, every invocation returns
    a body with ["generated_text"], and every write succeeds, then after
    [create_eval_files] the model-outputs file holds exactly the lines
    that have a question, in input order, each with the endpoint's answer
    added under ["model_output"] and its other fields kept; what the file
    held before is gone, lines without a question are left out, and the
    records of the other files are as they were; the only line printed is
    the completion message. *)
Theorem X8_create_eval_files_writes_answers (e : EvalFiles.env)
    (answer : Py.value -> Py.value)
    (endpoint_name file input : string)
    (lines : list (list (string * Py.value))) (s : EvalFiles.state) :
  EvalFiles.open_read e input
    = Py.Ok (map (fun items => Py.Ok (Py.VDict items)) lines) ->
  EvalFiles.open_write e file = Py.Ok tt ->
  (forall items q,
      In items lines -> Py.assoc "question" items = Some q ->
      exists n, Py.len q = Py.Ok (S n)) ->
  (forall payload, exists response,
      EvalFiles.invoke_endpoint e endpoint_name payload = Py.Ok response
      /\ Py.getitem response "generated_text" = Py.Ok (answer payload)) ->
  (forall line, EvalFiles.write e file line = Py.Ok tt) ->
  EvalFiles.create_eval_files e endpoint_name file input s
    = (Py.Done Py.VNone,
       EvalFiles.mk_state
         (EvalFiles.without file (EvalFiles.written s)
            ++ EvalSpec.answered_file answer file lines)
         (EvalFiles.printed_lines s
            ++ [Py.Text ("Created Model Outputs File: " ++ file)])).
Proof.
  intros Hread Hopen Hq Hinvoke Hwrite.
  assert (Hloop : forall ls s0,
             (forall items, In items ls -> In items lines) ->
             Py.for_each (map (fun items => Py.Ok (Py.VDict items)) ls)
               (EvalFiles.eval_line e endpoint_name file) s0
             = (Py.Done tt,
                EvalFiles.mk_state
                  (EvalFiles.written s0 ++ EvalSpec.answered_file answer file ls)
                  (EvalFiles.printed_lines s0))).
  { induction ls as [|items ls IH]; intros s0 Hin.
    - simpl. unfold EvalSpec.answered_file. simpl. rewrite app_nil_r.
      destruct s0; reflexivity.
    - simpl. erewrite bind_done.
      2: { apply (eval_line_answered e endpoint_name file answer items);
             [|exact Hinvoke|exact Hwrite].
           intros q. apply (Hq items). apply Hin. now left. }
      rewrite IH by (intros i Hi; apply Hin; now right).
      simpl. unfold EvalSpec.answered_file. simpl.
      now rewrite map_app, app_assoc. }
  rewrite create_eval_files_run.
  unfold EvalFiles.create_eval_files_try.
  rewrite Hread, Hopen. simpl.
  do 3 (erewrite bind_done by reflexivity).
  rewrite Hloop by auto. reflexivity.
Qed.

(** The output file held a record of an earlier run: it is replaced. *)
Lemma X8_create_eval_files_writes_answers_witness :
  let e := EvalFiles.mk_env
             (fun _ => Py.Ok [Py.Ok (Py.VDict [("question", Py.VStr "Capital of Cantal?")]);
                              Py.Ok (Py.VDict [("answers", Py.VStr "x")])])
             (fun _ => Py.Ok tt)
             (fun _ _ => Py.Ok (Py.VDict [("generated_text", Py.VStr "Aurillac")]))
             (fun _ _ => Py.Ok tt) in
  EvalFiles.create_eval_files e "endpoint" "out.jsonl" "in.jsonl"
    (EvalFiles.mk_state
       [("out.jsonl", Py.VDict [("question", Py.VStr "old")]);
        ("other.jsonl", Py.VDict [("question", Py.VStr "kept")])] [])
  = (Py.Done Py.VNone,
     EvalFiles.mk_state
       [("other.jsonl", Py.VDict [("question", Py.VStr "kept")]);
        ("out.jsonl",
         Py.VDict [("question", Py.VStr "Capital of Cantal?");
                   ("model_output", Py.VStr "Aurillac")])]
       [Py.Text "Created Model Outputs File: out.jsonl"]).
Proof.
  intros e.
  apply (X8_create_eval_files_writes_answers e (fun _ => Py.VStr "Aurillac")
           "endpoint" "out.jsonl" "in.jsonl"
           [[("question", Py.VStr "Capital of Cantal?")];
            [("answers", Py.VStr "x")]]).
  - reflexivity.
  - reflexivity.
  - intros items q [<-|[<-|[]]] H; simpl in H.
    + injection H as <-. exists 17. reflexivity.
    + discriminate H.
  - intros payload. eexists. split; reflexivity.
  - reflexivity.
Defined.



(** X10.  A line that fails (it does not parse, its question is empty, the
    endpoint or the write raises) ends the evaluation: the records of the
    lines before it stay written, the lines after it are not looked at,
    and [create_eval_files] still ends with the message that the file was
    created, after the message of the error. *)
Theorem X10_create_eval_files_stops_at_first_failure (e : EvalFiles.env)
    (endpoint_name file input : string)
    (before after : list (Py.result Py.value)) (bad : Py.result Py.value)
    (err : Py.exn) (s s1 s2 : EvalFiles.state) :
  EvalFiles.open_read e input = Py.Ok (before ++ bad :: after) ->
  EvalFiles.open_write e file = Py.Ok tt ->
  Py.for_each before (EvalFiles.eval_line e endpoint_name file)
    (EvalFiles.truncate file s)
    = (Py.Done tt, s1) ->
  EvalFiles.eval_line e endpoint_name file bad s1 = (Py.Raised err, s2) ->
  EvalFiles.create_eval_files e endpoint_name file input s
    = (Py.Done Py.VNone,
       EvalFiles.print (Py.Text ("Created Model Outputs File: " ++ file))
         (EvalFiles.print (Py.Text ("An error occurred: " ++ Py.msg err)) s2))
  /\ EvalFiles.written s2 = EvalFiles.written s1.
Proof.
  intros Hread Hopen Hbefore Hbad.
  split.
  - rewrite create_eval_files_run.
    unfold EvalFiles.create_eval_files_try.
    rewrite Hread, Hopen. simpl.
    do 3 (erewrite bind_done by reflexivity).
    rewrite for_each_app, Hbefore. simpl.
    now rewrite (bind_raised _ _ s1 s2 err Hbad).
  - destruct (eval_line_effect e endpoint_name file bad s1) as (_ & _ & Hw).
    rewrite Hbad in Hw. simpl in Hw.
    destruct Hw as [Hw|(line' & _ & _ & Hd)]; [exact Hw|discriminate].
Qed.

Lemma X10_create_eval_files_stops_at_first_failure_witness :
  let answered := Py.VDict [("question", Py.VStr "Q1")] in
  let e := EvalFiles.mk_env
             (fun _ => Py.Ok [Py.Ok answered;
                              Py.Raise (Py.mk_exn Py.InvalidLineError "line 2");
                              Py.Ok answered])
             (fun _ => Py.Ok tt)
             (fun _ _ => Py.Ok (Py.VDict [("generated_text", Py.VStr "A1")]))
             (fun _ _ => Py.Ok tt) in
  EvalFiles.create_eval_files e "endpoint" "out.jsonl" "in.jsonl"
    EvalFiles.initial
  = (Py.Done Py.VNone,
     EvalFiles.mk_state
       [("out.jsonl",
         Py.VDict [("question", Py.VStr "Q1"); ("model_output", Py.VStr "A1")])]
       [Py.Text "An error occurred: line 2";
        Py.Text "Created Model Outputs File: out.jsonl"]).
Proof.
  intros answered e.
  refine (proj1 (X10_create_eval_files_stops_at_first_failure e "endpoint"
                   "out.jsonl" "in.jsonl" [Py.Ok answered]
                   [Py.Ok answered]
                   (Py.Raise (Py.mk_exn Py.InvalidLineError "line 2"))
                   (Py.mk_exn Py.InvalidLineError "line 2")
                   EvalFiles.initial
                   (EvalFiles.mk_state
                      [("out.jsonl",
                        Py.VDict [("question", Py.VStr "Q1");
                                  ("model_output", Py.VStr "A1")])] [])
                   (EvalFiles.mk_state
                      [("out.jsonl",
                        Py.VDict [("question", Py.VStr "Q1");
                                  ("model_output", Py.VStr "A1")])] [])
                   _ _ _ _));
    reflexivity.
Defined.

(** ** Autoscaling cleanup cell: when it completes *)

Section CleanupOutcome.
Import Py Notebooks Cleanup.

Variable p : platform.

Lemma not_tolerated (c : call) (g : exn_class) :
  guard c = Some g ->
  tolerated p c = false ->
  exists e, p c = Some e /\ isinstance e g = false.
Proof.
  unfold tolerated. intros -> H.
  destruct (p c) as [e|]; [eauto|discriminate].
Qed.

Lemma unhandled_tolerated (c : call) :
  tolerated p c = true -> unhandled p c = None.
Proof. unfold unhandled. intros ->. now destruct (p c). Qed.

Lemma unhandled_not_tolerated (c : call) :
  tolerated p c = false -> exists e, p c = Some e /\ unhandled p c = Some e.
Proof.
  unfold unhandled. intros H. rewrite H.
  unfold tolerated in H. destruct (p c) as [e|]; [eauto|discriminate].
Qed.

(** Requests made one after the other end normally exactly when each is
    tolerated, and then all were issued. *)
Lemma outcome_done (cs : list call) :
  outcome p cs = Done tt <-> forall c, In c cs -> tolerated p c = true.
Proof.
  induction cs as [|c cs IH]; simpl.
  - split; [intros _ c []|reflexivity].
  - destruct (tolerated p c) eqn:T.
    + rewrite (unhandled_tolerated c T), IH. split.
      * intros H c' [<-|Hc']; auto.
      * intros H c' Hc'. apply H. now right.
    + destruct (unhandled_not_tolerated c T) as (e & _ & ->). split.
      * discriminate.
      * intros H. specialize (H c (or_introl eq_refl)). congruence.
Qed.

Lemma issued_done (cs : list call) :
  outcome p cs = Done tt -> issued p cs = cs.
Proof.
  induction cs as [|c cs IH]; simpl; [reflexivity|].
  destruct (unhandled p c); [discriminate|]. intros H. now rewrite IH.
Qed.

(** They end with the exception of the first request that is not
    tolerated, which is the last request issued. *)
Lemma outcome_raised (cs : list call) (e : exn) :
  outcome p cs = Raised e ->
  exists before c after,
    cs = before ++ c :: after
    /\ (forall b, In b before -> tolerated p b = true)
    /\ tolerated p c = false
    /\ p c = Some e
    /\ issued p cs = before ++ [c].
Proof.
  induction cs as [|c cs IH]; simpl; [discriminate|].
  destruct (tolerated p c) eqn:T.
  - rewrite (unhandled_tolerated c T). intros H.
    destruct (IH H) as (before & c' & after & -> & Hb & Hc & He & Hi).
    exists (c :: before), c', after.
    split; [reflexivity|]. split; [|split; [exact Hc|split; [exact He|]]].
    + intros b [<-|Hin]; auto.
    + simpl. now rewrite Hi.
  - destruct (unhandled_not_tolerated c T) as (e' & Hc & ->).
    intros H. injection H as <-.
    exists [], c, cs. repeat split; auto; try (intros b []).
Qed.

(** The cell is its three requests made one after the other. *)
Lemma autoscaling_cleanup_cell_run (ic : string) (s : state) :
  let run := autoscaling_cleanup_cell p ic s in
  fst run = outcome p (requests ic)
  /\ attempted (snd run) = attempted s ++ issued p (requests ic).
Proof.
  intros run. subst run.
  unfold autoscaling_cleanup_cell, deregister_statement,
    delete_alarms_statement, delete_scaling_policy_statement, requests.
  set (c1 := cleanup_deregister ic).
  set (c2 := cleanup_delete_alarms ic).
  set (c3 := cleanup_delete_scaling_policy ic).
  assert (G1 : guard c1 = Some ObjectNotFoundException) by reflexivity.
  assert (G2 : guard c2 = Some ResourceNotFoundException) by reflexivity.
  assert (G3 : guard c3 = Some ObjectNotFoundException) by reflexivity.
  cbn [outcome issued].
  destruct (tolerated p c1) eqn:T1.
  2: { destruct (not_tolerated c1 _ G1 T1) as (e & Hc & He).
       destruct (unhandled_not_tolerated c1 T1) as (e' & Hc' & ->).
       assert (e' = e) by congruence. subst e'.
       erewrite bind_raised by (apply (guarded_request_raises p c1); eauto).
       split; reflexivity. }
  rewrite (unhandled_tolerated c1 T1).
  erewrite bind_done by (apply (guarded_request_tolerated p c1); eauto).
  erewrite bind_done by reflexivity.
  destruct (tolerated p c2) eqn:T2.
  2: { destruct (not_tolerated c2 _ G2 T2) as (e & Hc & He).
       destruct (unhandled_not_tolerated c2 T2) as (e' & Hc' & ->).
       assert (e' = e) by congruence. subst e'.
       erewrite bind_raised by (apply (guarded_request_raises p c2); eauto).
       simpl. rewrite <- app_assoc. split; reflexivity. }
  rewrite (unhandled_tolerated c2 T2).
  erewrite bind_done by (apply (guarded_request_tolerated p c2); eauto).
  erewrite bind_done by reflexivity.
  destruct (tolerated p c3) eqn:T3.
  2: { destruct (not_tolerated c3 _ G3 T3) as (e & Hc & He).
       destruct (unhandled_not_tolerated c3 T3) as (e' & Hc' & ->).
       assert (e' = e) by congruence. subst e'.
       rewrite (guarded_request_raises p c3 _ _ _ _ e Hc He).
       simpl. rewrite <- !app_assoc. split; reflexivity. }
  rewrite (unhandled_tolerated c3 T3).
  rewrite (guarded_request_tolerated p c3 _ _ _ _ G3 T3).
  simpl. rewrite <- !app_assoc. split; reflexivity.
Qed.

End CleanupOutcome.

(** X11.  The autoscaling cleanup cell ends normally exactly when each of
    its three requests (deregister, delete alarms, delete scaling policy)
    either succeeds or raises the not-found exception it is guarded
    against, and then it has issued all three, in that order.  Otherwise
    it raises the exception of the first request that is not tolerated:
    the requests before that one were all tolerated and issued in order,
    that request is the last one issued, and the requests after it are not
    issued. *)
Theorem X11_cleanup_completes_iff_tolerated (p : Cleanup.platform)
    (ic : string) (s : Cleanup.state) :
  let cs := Cleanup.requests ic in
  let run := Cleanup.autoscaling_cleanup_cell p ic s in
  (fst run = Py.Done tt
   <-> forall c, In c cs -> Cleanup.tolerated p c = true)
  /\ (fst run = Py.Done tt ->
      Cleanup.attempted (snd run) = Cleanup.attempted s ++ cs)
  /\ (forall e,
        fst run = Py.Raised e ->
        exists before c after,
          cs = before ++ c :: after
          /\ (forall b, In b before -> Cleanup.tolerated p b = true)
          /\ Cleanup.tolerated p c = false
          /\ p c = Some e
          /\ Cleanup.attempted (snd run)
             = Cleanup.attempted s ++ before ++ [c])
  /\ fst run <> Py.Unfinished.
Proof.
  intros cs run. subst cs run.
  destruct (autoscaling_cleanup_cell_run p ic s) as [Hfst Hsnd].
  rewrite Hfst, Hsnd. split; [|split; [|split]].
  - apply outcome_done.
  - intros H. now rewrite (issued_done p _ H).
  - intros e H.
    destruct (outcome_raised p _ e H)
      as (before & c & after & Hcs & Hb & Hc & He & Hi).
    exists before, c, after. rewrite Hi. auto.
  - destruct (Cleanup.outcome p (Cleanup.requests ic)) as [[]|e|] eqn:H;
      try discriminate.
    exfalso. revert H. generalize (Cleanup.requests ic).
    induction l as [|c l IH]; simpl; [discriminate|].
    destruct (Cleanup.unhandled p c); [discriminate|exact IH].
Qed.

(** The alarm request fails with an exception the cell does not handle:
    the cell stops there, after two requests, and the scaling policy
    request is not issued. *)
Lemma X11_cleanup_completes_iff_tolerated_witness :
  let p := fun c =>
    match c with
    | Notebooks.delete_alarms _ =>
        Some (Py.mk_exn Py.ClientError "AccessDenied")
    | _ => None
    end in
  let run := Cleanup.autoscaling_cleanup_cell p "ic" Cleanup.initial in
  fst run = Py.Raised (Py.mk_exn Py.ClientError "AccessDenied")
  /\ exists before c after,
       Cleanup.requests "ic" = before ++ c :: after
       /\ Cleanup.attempted (snd run) = before ++ [c]
       /\ p c = Some (Py.mk_exn Py.ClientError "AccessDenied").
Proof.
  intros p run.
  assert (Hrun : fst run = Py.Raised (Py.mk_exn Py.ClientError "AccessDenied"))
    by reflexivity.
  split; [exact Hrun|].
  destruct (X11_cleanup_completes_iff_tolerated p "ic" Cleanup.initial)
    as (_ & _ & Hraised & _).
  destruct (Hraised _ Hrun) as (before & c & after & Hcs & _ & _ & Hc & Ha).
  exists before, c, after. auto.
Defined.

(** ** Resources alive along a notebook *)

Section LifecycleFacts.
Import Notebooks Lifecycle.

Lemma run_from_cons (c : call) (nb : notebook) (t : table) :
  fold_left step (c :: nb) t = fold_left step nb (step t c).
Proof. reflexivity. Qed.

(** Issues the next call of the notebook and brings the table to normal
    form before the call after it. *)
Ltac issue :=
  rewrite run_from_cons;
  match goal with
  | |- context [fold_left step _ (step ?t ?c)] =>
      let T := fresh "T" in
      let E := fresh "E" in
      remember (step t c) as T eqn:E;
      unfold step, refers_to_missing, remove, occurs in E;
      simpl in E; unfold scaling_id_eqb in E; simpl in E;
      rewrite ?String.eqb_refl in E; simpl in E;
      subst T
  end.



Lemma run_scale_to_zero (prefix ic model bucket : string) :
  run (scale_to_zero prefix ic model bucket)
    = mk_table
        [ Model model;
          ScalingPolicy (target_tracking_policy_name ic) (registered_id ic);
          ScalingPolicy (step_scaling_policy_name ic) (registered_id ic) ]
        [ cleanup_delete_scaling_policy ic ].
Proof.
  unfold run, empty, scale_to_zero, final_cleanup_cell,
    put_target_tracking_policy, put_step_scaling_policy,
    put_step_scaling_alarm, step_scaling_policy_arn, cleanup_deregister,
    cleanup_delete_alarms, cleanup_delete_scaling_policy, registered_id,
    service_namespace, scalable_dimension, resource_id.
  cbn [app].
  do 14 issue. reflexivity.
Qed.

Lemma run_quantization (bucket base_model base quantized_model quantized : string) :
  run (quantization bucket base_model base quantized_model quantized)
    = mk_table
        [ Model base_model; EndpointConfig base; Endpoint base;
          Model quantized_model; EndpointConfig quantized; Endpoint quantized ]
        [].
Proof. unfold run, empty, quantization. do 3 issue. reflexivity. Qed.

End LifecycleFacts.


(** X13.  In the scale-to-zero notebook every call but one refers to
    resources that are alive when it is issued (the scalable target is
    registered for the inference component while it exists, the policies
    are put on the registered target, the alarm triggers the step policy
    and watches the component); the one that does not is the
    [delete_scaling_policy] request of the cleanup cell, whose key names a
    policy that was never put.  When the notebook ends, the resources no
    delete call has named are the model that [final_model.deploy] created
    and the two scaling policies.  The quantization notebook ends with the
    two models, endpoint configurations and endpoints of its deployments
    alive. *)
Theorem X13_leftover_resources :
  (forall prefix ic model bucket,
      Lifecycle.run (Notebooks.scale_to_zero prefix ic model bucket)
        = Lifecycle.mk_table
            [ Notebooks.Model model;
              Notebooks.ScalingPolicy
                (Notebooks.target_tracking_policy_name ic)
                (Notebooks.registered_id ic);
              Notebooks.ScalingPolicy
                (Notebooks.step_scaling_policy_name ic)
                (Notebooks.registered_id ic) ]
            [ Notebooks.cleanup_delete_scaling_policy ic ])
  /\ (forall bucket base_model base quantized_model quantized,
        Lifecycle.run
          (Notebooks.quantization bucket base_model base quantized_model quantized)
          = Lifecycle.mk_table
              [ Notebooks.Model base_model; Notebooks.EndpointConfig base;
                Notebooks.Endpoint base;
                Notebooks.Model quantized_model;
                Notebooks.EndpointConfig quantized;
                Notebooks.Endpoint quantized ]
              []).
Proof. split; [apply run_scale_to_zero | apply run_quantization]. Qed.

(** ** Run All: names across the cells of the multi-adapter notebook *)

Section RunAllFacts.
Import Py Namespace.

Lemma lookup_name_mono (name : string) (s t : state) :
  user_ns s ⊆ user_ns t ->
  lookup_name name s = (Done tt, s) ->
  lookup_name name t = (Done tt, t).
Proof.
  intros Hsub. rewrite !lookup_name_run.
  destruct (bool_decide (name ∈ user_ns s ∪ builtins)) eqn:Hs; [|discriminate].
  intros _. apply bool_decide_eq_true in Hs.
  rewrite bool_decide_eq_true_2; [reflexivity|set_solver].
Qed.

Lemma lookup_names_mono (names : list string) (s t : state) :
  user_ns s ⊆ user_ns t ->
  for_each names lookup_name s = (Done tt, s) ->
  for_each names lookup_name t = (Done tt, t).
Proof.
  intros Hsub. induction names as [|n names IH]; simpl; [reflexivity|].
  unfold bind. rewrite (lookup_name_run n s).
  destruct (bool_decide (n ∈ user_ns s ∪ builtins)) eqn:Hs; [|discriminate].
  intros H. rewrite (lookup_name_mono n s t Hsub).
  - exact (IH H).
  - now rewrite lookup_name_run, Hs.
Qed.

(** With more names bound, a statement that ended normally still does. *)
Lemma exec_stmt_mono (st : stmt) (s s' t : state) :
  user_ns s ⊆ user_ns t ->
  exec_stmt st s = (Done tt, s') ->
  exists t', exec_stmt st t = (Done tt, t') /\ user_ns s' ⊆ user_ns t'.
Proof.
  intros Hsub. destruct st as [targets reads|reads|command]; simpl.
  - unfold bind. destruct (lookup_names_run reads s) as (r & Hr & _).
    rewrite Hr. destruct r as [[]|e|]; [|discriminate..].
    intros H. injection H as <-.
    rewrite (lookup_names_mono reads s t Hsub Hr).
    eexists. split; [reflexivity|]. simpl. set_solver.
  - destruct (lookup_names_run reads s) as (r & Hr & _).
    rewrite Hr. intros H. injection H as -> <-.
    rewrite (lookup_names_mono reads s t Hsub Hr). eauto.
  - unfold bind.
    destruct (var_expand_done command s) as [ws ->].
    destruct (var_expand_done command t) as [wt ->].
    intros H. injection H as <-. eexists. split; [reflexivity|]. simpl. exact Hsub.
Qed.

Lemma exec_cell_mono (c : cell) :
  forall s s' t,
    user_ns s ⊆ user_ns t ->
    exec_cell c s = (Done tt, s') ->
    exists t', exec_cell c t = (Done tt, t') /\ user_ns s' ⊆ user_ns t'.
Proof.
  unfold exec_cell. induction c as [|st c IH]; intros s s' t Hsub; simpl.
  - intros H. injection H as <-. eauto.
  - unfold bind. destruct (exec_stmt st s) as [[[]|e|] s1] eqn:Hst;
      [|discriminate..].
    destruct (exec_stmt_mono st s s1 t Hsub Hst) as (t1 & -> & Hsub1).
    apply IH. exact Hsub1.
Qed.

Lemma exec_cells_mono (cs : list cell) :
  forall s s' t,
    user_ns s ⊆ user_ns t ->
    exec_cells cs s = (Done tt, s') ->
    exists t', exec_cells cs t = (Done tt, t') /\ user_ns s' ⊆ user_ns t'.
Proof.
  unfold exec_cells. induction cs as [|c cs IH]; intros s s' t Hsub; simpl.
  - intros H. injection H as <-. eauto.
  - unfold bind. destruct (exec_cell c s) as [[[]|e|] s1] eqn:Hc;
      [|discriminate..].
    destruct (exec_cell_mono c s s1 t Hsub Hc) as (t1 & -> & Hsub1).
    apply IH. exact Hsub1.
Qed.

Lemma run_all_fresh :
  fst (exec_cells all_cells fresh_kernel) = Done tt.
Proof. vm_compute. reflexivity. Qed.

End RunAllFacts.

(** X14.  Run from top to bottom, from a kernel with any names already
    bound, the cells of the multi-adapter notebook never raise
    [NameError]: every name a statement reads is bound by an earlier
    statement or is a builtin, the unbound field of the re-upload command
    being swallowed by the expansion.  When the run ends every name the
    cells bind is bound. *)
Theorem X14_run_all_binds_before_use (s0 : Namespace.state) :
  let run := Namespace.exec_cells Namespace.all_cells s0 in
  fst run = Py.Done tt
  /\ forall name,
       In name (Namespace.bound_names Namespace.all_cells) ->
       name ∈ Namespace.user_ns (snd run).
Proof.
  intros run. subst run.
  pose proof run_all_fresh as Hfresh.
  destruct (Namespace.exec_cells Namespace.all_cells Namespace.fresh_kernel)
    as [r s'] eqn:Hrun. cbn [fst] in Hfresh. subst r.
  destruct (exec_cells_mono Namespace.all_cells Namespace.fresh_kernel s' s0)
    as (t' & Ht & _); [apply empty_subseteq|exact Hrun|].
  rewrite Ht. cbn [fst snd]. split; [reflexivity|].
  intros name Hin. rewrite (exec_cells_names _ _ _ Ht).
  apply elem_of_union_r, elem_of_list_to_set, list_elem_of_In. exact Hin.
Qed.

Lemma X14_run_all_binds_before_use_witness :
  "new_ectsum_adapter_s3_uri"
    ∈ Namespace.user_ns
        (snd (Namespace.exec_cells Namespace.all_cells Namespace.fresh_kernel)).
Proof.
  destruct (X14_run_all_binds_before_use Namespace.fresh_kernel) as [_ H].
  apply H. apply bound. reflexivity.
Defined.

(** ** The evaluation cell as a whole *)

Section EvalCellFacts.
Import Py EvalFiles.

Variable e : env.

Lemma create_eval_files_try_printed (endpoint_name file input : string)
    (s : state) :
  printed_lines (snd (create_eval_files_try e endpoint_name file input s))
    = printed_lines s.
Proof.
  unfold create_eval_files_try, bind, lift.
  destruct (open_read e input) as [lines|err]; simpl; [|reflexivity].
  destruct (open_write e file) as [[]|err]; simpl; [|reflexivity].
  now destruct (eval_lines_effect e endpoint_name file lines (truncate file s))
    as (_ & H & _).
Qed.

(** What one call prints: at most the error, then the completion
    message. *)
Lemma create_eval_files_printed (endpoint_name file input : string) (s : state) :
  exists s' errors,
    create_eval_files e endpoint_name file input s = (Done VNone, s')
    /\ printed_lines s'
       = printed_lines s ++ errors
           ++ [Text ("Created Model Outputs File: " ++ file)]
    /\ List.length errors <= 1.
Proof.
  rewrite create_eval_files_run.
  pose proof (create_eval_files_try_printed endpoint_name file input s) as Hp.
  pose proof (finishes_create_eval_files_try e endpoint_name file input s) as Hf.
  destruct (create_eval_files_try e endpoint_name file input s)
    as [[[]|err|] s1]; simpl in *; [| |congruence].
  - exists (print (Text ("Created Model Outputs File: " ++ file)) s1), [].
    simpl. rewrite Hp. repeat split; auto.
  - eexists. exists [Text ("An error occurred: " ++ msg err)].
    split; [reflexivity|]. simpl. rewrite Hp, <- app_assoc. split; auto.
Qed.

End EvalCellFacts.

(** X15.  The evaluation cell always runs both evaluations: whatever
    happens during the evaluation of the quantized endpoint, the base
    endpoint is evaluated after it, and the cell prints the completion
    message of the quantized file and then that of the base file, each
    preceded by at most one error message. *)
Theorem X15_eval_cell_runs_both (e : EvalFiles.env)
    (quantized_endpoint base_endpoint : string) (s : EvalFiles.state) :
  exists s1 s2 errors1 errors2,
    EvalFiles.create_eval_files e quantized_endpoint
      "quantized_model_outputs.jsonl" EvalFiles.default_input_file s
      = (Py.Done Py.VNone, s1)
    /\ EvalFiles.create_eval_files e base_endpoint
         "base_model_outputs.jsonl" EvalFiles.default_input_file s1
       = (Py.Done Py.VNone, s2)
    /\ EvalFiles.eval_cell e quantized_endpoint base_endpoint s
       = (Py.Done (Py.VNone, Py.VNone), s2)
    /\ EvalFiles.printed_lines s2
       = EvalFiles.printed_lines s
         ++ errors1
         ++ [Py.Text "Created Model Outputs File: quantized_model_outputs.jsonl"]
         ++ errors2
         ++ [Py.Text "Created Model Outputs File: base_model_outputs.jsonl"]
    /\ List.length errors1 <= 1
    /\ List.length errors2 <= 1.
Proof.
  destruct (create_eval_files_printed e quantized_endpoint
              "quantized_model_outputs.jsonl" EvalFiles.default_input_file s)
    as (s1 & errors1 & H1 & Hp1 & Hl1).
  destruct (create_eval_files_printed e base_endpoint
              "base_model_outputs.jsonl" EvalFiles.default_input_file s1)
    as (s2 & errors2 & H2 & Hp2 & Hl2).
  exists s1, s2, errors1, errors2.
  split; [exact H1|]. split; [exact H2|]. split.
  - unfold EvalFiles.eval_cell.
    rewrite (bind_done _ _ s s1 _ H1). now rewrite (bind_done _ _ s1 s2 _ H2).
  - split; [|split; assumption].
    rewrite Hp2, Hp1. simpl. now rewrite <- !app_assoc.
Qed.

(** ** Further sample runs *)

(** An inference component created before its model: the call is
    dangling.  A predictor asked to keep the configuration leaves it. *)
Example lifecycle_samples :
  Lifecycle.run
    [ Notebooks.create_endpoint_config "config";
      Notebooks.create_endpoint "endpoint" "config";
      Notebooks.create_inference_component "base" "endpoint"
        (Notebooks.of_model "model");
      Notebooks.create_model "model" ]
  = Lifecycle.mk_table
      [ Notebooks.EndpointConfig "config"; Notebooks.Endpoint "endpoint";
        Notebooks.InferenceComponent "base"; Notebooks.Model "model" ]
      [ Notebooks.create_inference_component "base" "endpoint"
          (Notebooks.of_model "model") ]
  /\ Lifecycle.run
       [ Notebooks.deploy "model" "endpoint";
         Notebooks.predictor_delete_endpoint "endpoint" false ]
     = Lifecycle.mk_table
         [ Notebooks.Model "model"; Notebooks.EndpointConfig "endpoint" ] [].
Proof. split; reflexivity. Qed.

Example string_of_Z_samples :
  map StreamingCell.string_of_Z [0; 2; 512; -3]%Z = ["0"; "2"; "512"; "-3"].
Proof. reflexivity. Qed.

(** The two tokens of the sample stream, with the metrics of the cell. *)
Example streaming_cell_sample :
  StreamingCell.streaming_cell Samples.sample_json_loads Samples.sample_decode
    nat Nat.sub (fun t => (StreamingCell.string_of_Z (Z.of_nat t) ++ ".00")%string)
    "Hi" 100 (Py.Ok Samples.sample_stream) 110 (Streams.tgi_initial nat)
  = (Py.Done tt,
     Streams.mk_tgi nat 2 true (Some 3)
       [ Py.Text ("Prompt: Hi" ++ Streams.newline)%string; Py.Text "Response:";
         Py.Str (Py.VStr "Hello"); Py.Str (Py.VStr "Hello");
         Py.Text (Streams.newline ++ Streams.newline ++ "Metrics:")%string;
         Py.Text "Time to First Token (TTFT): 3.00 seconds";
         Py.Text "Total Tokens Generated: 2";
         Py.Text "Total Latency: 10.00 seconds" ]).
Proof. vm_compute. reflexivity. Qed.
